(** * Cucina: unit conversion, inventory deduction and cooking sessions

    A shallow embedding of [src/lib/conversions.ts], of the default
    measurement table of [src/lib/storage.ts] and of the cooking-session
    handlers of [src/App.tsx].

    Conventions of the embedding:
    - a JavaScript [number] that holds a quantity is an exact rational
      ([Q]); rounding of binary floating point, [NaN] and the infinities
      are not modelled.  Counters ([viewCount], [cookCount]) are in [Z] and
      checklist indices in [nat];
    - a [string] is a [string], and [===] on strings is [String.eqb];
    - [T | null] is [option T];
    - an array is a [list]; [arr[i] = v] is stdpp's [<[i:=v]> arr].  Every
      index written by the source comes from [map((item, index) => ...)]
      over the same array, so it is always in range;
    - [sort] is a stable insertion sort.  Where the comparator it is given
      is not a consistent order, what depends on the order of the result
      is stated for both orders in which an engine can call the comparator
      ([SortEngine]). *)

From Stdlib Require Import QArith ZArith Lia Lqa Sorted.
From stdpp Require Import base list strings sorting.

Open Scope Q_scope.

(** ** Types ([src/types]) *)

Record MeasurementConversion := {
  toMeasurementId : string;
  factor : Q
}.

Record Measurement := {
  m_id : string;
  m_name : string;
  conversions : list MeasurementConversion
}.

Record RecipeIngredient := {
  ri_ingredientId : string;
  ri_quantity : Q;
  ri_measurementId : string
}.

Record Recipe := {
  r_id : string;
  r_userId : string;
  r_name : string;
  r_description : string;
  servings : Q;
  ingredients : list RecipeIngredient;
  instructions : list string;
  viewCount : Z;
  cookCount : Z;
  createdAt : Z
}.

Record InventoryItem := {
  userId : string;
  ingredientId : string;
  quantity : Q;
  measurementId : string
}.

Inductive SessionStatus := active | completed | cancelled.

(** [s_userId] is written from [data.currentUserId!]: the assertion is
    erased at run time, so the field holds whatever [currentUserId] held. *)
Record CookingSession := {
  s_id : string;
  s_recipeId : string;
  s_userId : option string;
  ingredientsChecked : list nat;
  stepsChecked : list nat;
  servingSize : Q;
  status : SessionStatus
}.

(** The fields of [AppData] the modelled handlers read or write. *)
Record AppData := {
  recipes : list Recipe;
  measurements : list Measurement;
  inventory : list InventoryItem;
  cookingSessions : list CookingSession;
  currentUserId : option string
}.

(** ** Comparisons on numbers *)

(** [a > b] *)
Definition Qgt_bool (a b : Q) : bool := negb (Qle_bool a b).

(** [a !== b] *)
Definition Qneq_bool (a b : Q) : bool := negb (Qeq_bool a b).

(** [Math.min(a, b)] *)
Definition Math_min (a b : Q) : Q := if Qle_bool a b then a else b.

(** ** Conversion engine ([src/lib/conversions.ts]) *)

Definition convertMeasurement (fromMeasurementId toMeasurementId' : string)
    (quantity' : Q) (measurements' : list Measurement) : option Q :=
  if String.eqb fromMeasurementId toMeasurementId' then Some quantity'
  else
    match List.find (fun m => String.eqb (m_id m) fromMeasurementId) measurements' with
    | None => None
    | Some fromMeasurement =>
        match List.find (fun c => String.eqb (toMeasurementId c) toMeasurementId')
                (conversions fromMeasurement) with
        | Some directConversion => Some (quantity' * factor directConversion)
        | None => None
        end
    end.

(** The [for ... of] loop of [getTotalInventoryInUnit]: [total] is the
    accumulator, [items] what is left of [inventoryItems]. *)
Fixpoint totalLoop (targetMeasurementId : string) (measurements' : list Measurement)
    (items : list InventoryItem) (total : Q) : Q :=
  match items with
  | [] => total
  | item :: rest =>
      match convertMeasurement (measurementId item) targetMeasurementId
              (quantity item) measurements' with
      | Some converted => totalLoop targetMeasurementId measurements' rest (total + converted)
      | None => totalLoop targetMeasurementId measurements' rest total
      end
  end.

Definition getTotalInventoryInUnit (ingredientId' targetMeasurementId : string)
    (inventory' : list InventoryItem) (measurements' : list Measurement) : Q :=
  let inventoryItems :=
    List.filter (fun item => String.eqb (ingredientId item) ingredientId') inventory' in
  totalLoop targetMeasurementId measurements' inventoryItems 0.

Record Sufficiency := {
  hasEnough : bool;
  available : Q
}.

Definition hasEnoughInventory (ingredientId' requiredMeasurementId : string)
    (requiredQuantity : Q) (inventory' : list InventoryItem)
    (measurements' : list Measurement) : Sufficiency :=
  let totalAvailable :=
    getTotalInventoryInUnit ingredientId' requiredMeasurementId inventory' measurements' in
  {| hasEnough := Qle_bool requiredQuantity totalAvailable;
     available := totalAvailable |}.

(** ** [Array.prototype.sort]

    The built-in is modelled as the straight insertion sort: each element
    in turn is moved left past the elements [prev] before it for which
    [comparefn(prev, item) > 0].  This is a stable sort; only the sign of
    the comparator's answer is used.  [sortedRev] is the sorted prefix,
    last element first.

    The language fixes the outcome of [sort] only for a comparator that is
    a consistent order.  On any other comparator the outcome depends on
    which pairs the engine hands over, and in which order; see
    [Array_sort_pivot] below for the other order of call. *)
Section Sort.
Context {A : Type} (comparefn : A -> A -> Z).

Fixpoint sortInsert (item : A) (sortedRev : list A) : list A :=
  match sortedRev with
  | [] => [item]
  | prev :: before =>
      if (0 <? comparefn prev item)%Z then prev :: sortInsert item before
      else item :: sortedRev
  end.

Definition Array_sort (l : list A) : list A :=
  rev (fold_left (fun sortedRev item => sortInsert item sortedRev) l []).

End Sort.

(** ** Inventory deduction engine ([deductFromInventory]) *)

(** [{ item, index }] *)
Record Indexed := {
  item : InventoryItem;
  index : nat
}.

(** One row of the deduction ledger. *)
Record Deducted := {
  d_measurementId : string;
  d_quantity : Q
}.

Record DeductResult := {
  updatedInventory : list InventoryItem;
  deducted : list Deducted
}.

(** [{ ...item, quantity: q }] *)
Definition withQuantity (it : InventoryItem) (q : Q) : InventoryItem :=
  {| userId := userId it; ingredientId := ingredientId it;
     quantity := q; measurementId := measurementId it |}.

Definition relevantItems (ingredientId' userId' : string)
    (inventory' : list InventoryItem) : list Indexed :=
  List.filter
    (fun e => String.eqb (userId (item e)) userId'
              && String.eqb (ingredientId (item e)) ingredientId')
    (imap (fun index' item' => {| item := item'; index := index' |}) inventory').

(** The comparator handed to [sort].  It answers [-1] in both directions
    for two lots that are both in the required unit; between any other
    two lots it is a consistent order. *)
Definition byPreference (requiredMeasurementId : string) (a b : Indexed) : Z :=
  if String.eqb (measurementId (item a)) requiredMeasurementId then (-1)%Z
  else if String.eqb (measurementId (item b)) requiredMeasurementId then 1%Z
  else 0%Z.

Definition sortedItems (ingredientId' requiredMeasurementId userId' : string)
    (inventory' : list InventoryItem) : list Indexed :=
  Array_sort (byPreference requiredMeasurementId)
    (relevantItems ingredientId' userId' inventory').

(** The variables the [for] loop reads and writes. *)
Record LoopState := {
  loop_updatedInventory : list InventoryItem;
  loop_deducted : list Deducted;
  remainingToDeduct : Q
}.

Definition toDeductOf (it : InventoryItem) (amountInItemUnit : Q) : Q :=
  Math_min (quantity it) amountInItemUnit.

Definition newQuantityOf (it : InventoryItem) (amountInItemUnit : Q) : Q :=
  quantity it - toDeductOf it amountInItemUnit.

(** The body of the loop once [amountInItemUnit] is known. *)
Definition deductStep (requiredMeasurementId : string) (measurements' : list Measurement)
    (e : Indexed) (amountInItemUnit : Q) (st : LoopState) : LoopState :=
  let toDeduct := toDeductOf (item e) amountInItemUnit in
  let newQuantity := quantity (item e) - toDeduct in
  {| loop_updatedInventory :=
       if Qgt_bool newQuantity 0.001
       then <[index e := withQuantity (item e) newQuantity]> (loop_updatedInventory st)
       else <[index e := withQuantity (item e) (-1)]> (loop_updatedInventory st);
     loop_deducted :=
       loop_deducted st ++
       [{| d_measurementId := measurementId (item e); d_quantity := toDeduct |}];
     remainingToDeduct :=
       match convertMeasurement (measurementId (item e)) requiredMeasurementId
               toDeduct measurements' with
       | Some deductedInRequiredUnit => remainingToDeduct st - deductedInRequiredUnit
       | None => remainingToDeduct st
       end |}.

(** [for (const { item, index } of sortedItems) { ... }] *)
Fixpoint deductLoop (requiredMeasurementId : string) (measurements' : list Measurement)
    (items : list Indexed) (st : LoopState) : LoopState :=
  match items with
  | [] => st
  | e :: rest =>
      if Qle_bool (remainingToDeduct st) 0 then st
      else
        match convertMeasurement requiredMeasurementId (measurementId (item e))
                (remainingToDeduct st) measurements' with
        | None => deductLoop requiredMeasurementId measurements' rest st
        | Some amountInItemUnit =>
            deductLoop requiredMeasurementId measurements' rest
              (deductStep requiredMeasurementId measurements' e amountInItemUnit st)
        end
  end.

(** The loop state when the loop of [deductFromInventory] is left. *)
Definition deductFinal (ingredientId' requiredMeasurementId : string) (requiredQuantity : Q)
    (inventory' : list InventoryItem) (measurements' : list Measurement)
    (userId' : string) : LoopState :=
  deductLoop requiredMeasurementId measurements'
    (sortedItems ingredientId' requiredMeasurementId userId' inventory')
    {| loop_updatedInventory := inventory';
       loop_deducted := [];
       remainingToDeduct := requiredQuantity |}.

Definition deductFromInventory (ingredientId' requiredMeasurementId : string)
    (requiredQuantity : Q) (inventory' : list InventoryItem)
    (measurements' : list Measurement) (userId' : string) : DeductResult :=
  let final := deductFinal ingredientId' requiredMeasurementId requiredQuantity
                 inventory' measurements' userId' in
  {| updatedInventory :=
       List.filter (fun it => Qneq_bool (quantity it) (-1)) (loop_updatedInventory final);
     deducted := loop_deducted final |}.

(** *** The lots a run deducts from

    [deductTrace] follows [deductLoop] step for step and lists, in order,
    the iterations that reach the deduction: the lot, the value of
    [remainingToDeduct] on entry and [amountInItemUnit]. *)
Record Deduction := {
  lot : Indexed;
  remainingBefore : Q;
  amountInItemUnit : Q
}.

Fixpoint deductTrace (requiredMeasurementId : string) (measurements' : list Measurement)
    (items : list Indexed) (st : LoopState) : list Deduction :=
  match items with
  | [] => []
  | e :: rest =>
      if Qle_bool (remainingToDeduct st) 0 then []
      else
        match convertMeasurement requiredMeasurementId (measurementId (item e))
                (remainingToDeduct st) measurements' with
        | None => deductTrace requiredMeasurementId measurements' rest st
        | Some amount =>
            {| lot := e; remainingBefore := remainingToDeduct st;
               amountInItemUnit := amount |}
            :: deductTrace requiredMeasurementId measurements' rest
                 (deductStep requiredMeasurementId measurements' e amount st)
        end
  end.

Definition deductions (ingredientId' requiredMeasurementId : string) (requiredQuantity : Q)
    (inventory' : list InventoryItem) (measurements' : list Measurement)
    (userId' : string) : list Deduction :=
  deductTrace requiredMeasurementId measurements'
    (sortedItems ingredientId' requiredMeasurementId userId' inventory')
    {| loop_updatedInventory := inventory';
       loop_deducted := [];
       remainingToDeduct := requiredQuantity |}.

(** The positions of the input inventory a run deducts from. *)
Definition deductedIndices (ingredientId' requiredMeasurementId : string)
    (requiredQuantity : Q) (inventory' : list InventoryItem)
    (measurements' : list Measurement) (userId' : string) : list nat :=
  map (fun d => index (lot d))
    (deductions ingredientId' requiredMeasurementId requiredQuantity
       inventory' measurements' userId').

(** The row written at the lot's position, and the row added to the
    ledger, by the iteration [d]. *)
Definition writtenRow (it : InventoryItem) (amount : Q) : InventoryItem :=
  if Qgt_bool (newQuantityOf it amount) 0.001
  then withQuantity it (newQuantityOf it amount)
  else withQuantity it (-1).

Definition ledgerRow (d : Deduction) : Deducted :=
  {| d_measurementId := measurementId (item (lot d));
     d_quantity := toDeductOf (item (lot d)) (amountInItemUnit d) |}.

(** [{ ...item, userId: owner }], used to compare runs on inventories that
    differ in who owns the lots. *)
Definition withUserId (owner : string) (it : InventoryItem) : InventoryItem :=
  {| userId := owner; ingredientId := ingredientId it;
     quantity := quantity it; measurementId := measurementId it |}.

(** ** The order in which [sort] calls the comparator

    [Array_sort] calls [comparefn(prev, item)], the placed element first.
    Engines that place an element by binary insertion call the comparator
    with the element being placed (the pivot) first, [comparefn(item, prev)],
    and move it left when the answer is negative.  [Array_sort_pivot] is
    the straight insertion sort with that call.  The two sorts agree on
    every comparator with [comparefn(a, b) < 0] exactly when
    [comparefn(b, a) > 0]; [byPreference] is not one of them when two lots
    are in the required unit. *)
Section SortPivot.
Context {A : Type} (comparefn : A -> A -> Z).

Fixpoint sortInsertPivot (item : A) (sortedRev : list A) : list A :=
  match sortedRev with
  | [] => [item]
  | prev :: before =>
      if (comparefn item prev <? 0)%Z then prev :: sortInsertPivot item before
      else item :: sortedRev
  end.

Definition Array_sort_pivot (l : list A) : list A :=
  rev (fold_left (fun sortedRev item => sortInsertPivot item sortedRev) l []).

End SortPivot.

Inductive SortEngine :=
  | placedFirst
  | pivotFirst.

Definition sortOn (engine : SortEngine) {A : Type} (comparefn : A -> A -> Z)
    (l : list A) : list A :=
  match engine with
  | placedFirst => Array_sort comparefn l
  | pivotFirst => Array_sort_pivot comparefn l
  end.

(** [deductFromInventory] on the given engine; on [placedFirst] these are
    [sortedItems], [deductFinal], [deductions] and [deductFromInventory]
    themselves. *)
Definition sortedItemsOn (engine : SortEngine)
    (ingredientId' requiredMeasurementId userId' : string)
    (inventory' : list InventoryItem) : list Indexed :=
  sortOn engine (byPreference requiredMeasurementId)
    (relevantItems ingredientId' userId' inventory').

Definition deductFinalOn (engine : SortEngine)
    (ingredientId' requiredMeasurementId : string) (requiredQuantity : Q)
    (inventory' : list InventoryItem) (measurements' : list Measurement)
    (userId' : string) : LoopState :=
  deductLoop requiredMeasurementId measurements'
    (sortedItemsOn engine ingredientId' requiredMeasurementId userId' inventory')
    {| loop_updatedInventory := inventory';
       loop_deducted := [];
       remainingToDeduct := requiredQuantity |}.

Definition deductionsOn (engine : SortEngine)
    (ingredientId' requiredMeasurementId : string) (requiredQuantity : Q)
    (inventory' : list InventoryItem) (measurements' : list Measurement)
    (userId' : string) : list Deduction :=
  deductTrace requiredMeasurementId measurements'
    (sortedItemsOn engine ingredientId' requiredMeasurementId userId' inventory')
    {| loop_updatedInventory := inventory';
       loop_deducted := [];
       remainingToDeduct := requiredQuantity |}.

Definition deductFromInventoryOn (engine : SortEngine)
    (ingredientId' requiredMeasurementId : string)
    (requiredQuantity : Q) (inventory' : list InventoryItem)
    (measurements' : list Measurement) (userId' : string) : DeductResult :=
  let final := deductFinalOn engine ingredientId' requiredMeasurementId requiredQuantity
                 inventory' measurements' userId' in
  {| updatedInventory :=
       List.filter (fun it => Qneq_bool (quantity it) (-1)) (loop_updatedInventory final);
     deducted := loop_deducted final |}.

(** ** Default measurements ([defaultMeasurements], [src/lib/storage.ts]) *)

Definition conv (to : string) (f : Q) : MeasurementConversion :=
  {| toMeasurementId := to; factor := f |}.

Definition defaultMeasurements : list Measurement :=
  [
    {| m_id := "1"; m_name := "cup"; conversions :=
        [conv "2" 16;
         conv "3" 48;
         conv "4" 8;
         conv "5" 0.5;
         conv "6" 0.25;
         conv "7" 0.0625;
         conv "8" 0.236588;
         conv "9" 236.588] |};
    {| m_id := "2"; m_name := "tablespoon"; conversions :=
        [conv "1" 0.0625;
         conv "3" 3;
         conv "4" 0.5;
         conv "5" 0.03125;
         conv "6" 0.015625;
         conv "7" 0.00390625;
         conv "8" 0.0147868;
         conv "9" 14.7868] |};
    {| m_id := "3"; m_name := "teaspoon"; conversions :=
        [conv "1" 0.0208333;
         conv "2" 0.333333;
         conv "4" 0.166667;
         conv "5" 0.0104167;
         conv "6" 0.00520833;
         conv "7" 0.00130208;
         conv "8" 0.00492892;
         conv "9" 4.92892] |};
    {| m_id := "4"; m_name := "fluid ounce"; conversions :=
        [conv "1" 0.125;
         conv "2" 2;
         conv "3" 6;
         conv "5" 0.0625;
         conv "6" 0.03125;
         conv "7" 0.0078125;
         conv "8" 0.0295735;
         conv "9" 29.5735] |};
    {| m_id := "5"; m_name := "pint"; conversions :=
        [conv "1" 2;
         conv "2" 32;
         conv "3" 96;
         conv "4" 16;
         conv "6" 0.5;
         conv "7" 0.125;
         conv "8" 0.473176;
         conv "9" 473.176] |};
    {| m_id := "6"; m_name := "quart"; conversions :=
        [conv "1" 4;
         conv "2" 64;
         conv "3" 192;
         conv "4" 32;
         conv "5" 2;
         conv "7" 0.25;
         conv "8" 0.946353;
         conv "9" 946.353] |};
    {| m_id := "7"; m_name := "gallon"; conversions :=
        [conv "1" 16;
         conv "2" 256;
         conv "3" 768;
         conv "4" 128;
         conv "5" 8;
         conv "6" 4;
         conv "8" 3.78541;
         conv "9" 3785.41] |};
    {| m_id := "8"; m_name := "liter"; conversions :=
        [conv "9" 1000;
         conv "1" 4.22675;
         conv "2" 67.628;
         conv "3" 202.884;
         conv "4" 33.814;
         conv "5" 2.11338;
         conv "6" 1.05669;
         conv "7" 0.264172] |};
    {| m_id := "9"; m_name := "milliliter"; conversions :=
        [conv "8" 0.001;
         conv "1" 0.00422675;
         conv "2" 0.067628;
         conv "3" 0.202884;
         conv "4" 0.033814;
         conv "5" 0.00211338;
         conv "6" 0.00105669;
         conv "7" 0.000264172] |};
    {| m_id := "10"; m_name := "ounce"; conversions :=
        [conv "12" 0.0625;
         conv "11" 28.3495;
         conv "13" 0.0283495;
         conv "14" 28349.5] |};
    {| m_id := "12"; m_name := "pound"; conversions :=
        [conv "10" 16;
         conv "11" 453.592;
         conv "13" 0.453592;
         conv "14" 453592] |};
    {| m_id := "14"; m_name := "milligram"; conversions :=
        [conv "11" 0.001;
         conv "13" 0.000001;
         conv "10" 0.000035274;
         conv "12" 0.0000022046] |};
    {| m_id := "11"; m_name := "gram"; conversions :=
        [conv "14" 1000;
         conv "13" 0.001;
         conv "10" 0.035274;
         conv "12" 0.00220462] |};
    {| m_id := "13"; m_name := "kilogram"; conversions :=
        [conv "14" 1000000;
         conv "11" 1000;
         conv "10" 35.274;
         conv "12" 2.20462] |};
    {| m_id := "15"; m_name := "piece"; conversions := [] |};
    {| m_id := "16"; m_name := "slice"; conversions := [] |};
    {| m_id := "17"; m_name := "clove"; conversions := [] |};
    {| m_id := "18"; m_name := "bunch"; conversions := [] |};
    {| m_id := "19"; m_name := "can"; conversions := [] |};
    {| m_id := "20"; m_name := "package"; conversions := [] |};
    {| m_id := "21"; m_name := "handful"; conversions := [] |};
    {| m_id := "22"; m_name := "pinch"; conversions := [] |};
    {| m_id := "23"; m_name := "dash"; conversions := [] |};
    {| m_id := "24"; m_name := "sprig"; conversions := [] |};
    {| m_id := "25"; m_name := "leaf"; conversions := [] |}
  ].

(** ** The aggregation as the specification words it

    The sum, over the lots of the ingredient, of the quantity converted to
    the target unit; a lot without a conversion path adds nothing. *)
Definition convertedOrNothing (targetUnit : string) (measurements' : list Measurement)
    (l : InventoryItem) : Q :=
  match convertMeasurement (measurementId l) targetUnit (quantity l) measurements' with
  | Some converted => converted
  | None => 0
  end.

Definition totalInUnit_spec (ingredientId' targetUnit : string)
    (inventoryLots : list InventoryItem) (measurements' : list Measurement) : Q :=
  fold_right Qplus 0
    (map (convertedOrNothing targetUnit measurements')
       (List.filter (fun l => String.eqb (ingredientId l) ingredientId') inventoryLots)).

(** ** Cooking sessions ([App], [CookMode]) *)

Inductive View :=
  | view_dashboard | view_recipes | view_recipe_detail | view_recipe_form
  | view_cook_mode | view_ingredients | view_measurements | view_inventory.

(** The state of the [App] component the session handlers use. *)
Record AppState := {
  data : AppData;
  currentView : View;
  selectedRecipeId : option string
}.

(** [===] between two values that are a string or [null]. *)
Definition strictEq (a b : option string) : bool :=
  match a, b with
  | Some x, Some y => String.eqb x y
  | None, None => true
  | _, _ => false
  end.

Definition isActive (s : SessionStatus) : bool :=
  match s with active => true | _ => false end.

(** Truthiness of a value that is a string or [null]. *)
Definition truthy (a : option string) : bool :=
  match a with
  | Some x => negb (String.eqb x "")
  | None => false
  end.

(** [(s) => s.recipeId === recipeId && s.userId === userId && s.status === 'active'] *)
Definition activeFor (recipeId userId' : option string) (s : CookingSession) : bool :=
  strictEq (Some (s_recipeId s)) recipeId && strictEq (s_userId s) userId'
  && isActive (status s).

(** [{ ...data, cookingSessions }] and its like. *)
Definition withSessions (d : AppData) (sessions : list CookingSession) : AppData :=
  {| recipes := recipes d; measurements := measurements d; inventory := inventory d;
     cookingSessions := sessions; currentUserId := currentUserId d |}.

Definition withCurrentUserId (d : AppData) (u : option string) : AppData :=
  {| recipes := recipes d; measurements := measurements d; inventory := inventory d;
     cookingSessions := cookingSessions d; currentUserId := u |}.

(** [{ ...s, status }] *)
Definition withStatus (s : CookingSession) (st : SessionStatus) : CookingSession :=
  {| s_id := s_id s; s_recipeId := s_recipeId s; s_userId := s_userId s;
     ingredientsChecked := ingredientsChecked s; stepsChecked := stepsChecked s;
     servingSize := servingSize s; status := st |}.

(** [{ ...r, cookCount: r.cookCount + 1 }] *)
Definition cooked (r : Recipe) : Recipe :=
  {| r_id := r_id r; r_userId := r_userId r; r_name := r_name r;
     r_description := r_description r; servings := servings r;
     ingredients := ingredients r; instructions := instructions r;
     viewCount := viewCount r; cookCount := (cookCount r + 1)%Z;
     createdAt := createdAt r |}.

(** [handleStartCooking]; [newId] is the value [generateId()] returns. *)
Definition handleStartCooking (recipeId newId : string) (st : AppState) : AppState :=
  match List.find (fun r => String.eqb (r_id r) recipeId) (recipes (data st)) with
  | None => st
  | Some recipe =>
      let existingSession :=
        List.find (activeFor (Some recipeId) (currentUserId (data st)))
          (cookingSessions (data st)) in
      let data' :=
        match existingSession with
        | Some _ => data st
        | None =>
            let newSession :=
              {| s_id := newId; s_recipeId := recipeId;
                 s_userId := currentUserId (data st);
                 ingredientsChecked := []; stepsChecked := [];
                 servingSize := servings recipe; status := active |} in
            withSessions (data st) (cookingSessions (data st) ++ [newSession])
        end in
      {| data := data'; currentView := view_cook_mode;
         selectedRecipeId := Some recipeId |}
  end.

(** [handleUpdateCookingSession] *)
Definition handleUpdateCookingSession (session : CookingSession) (st : AppState) : AppState :=
  let updatedSessions :=
    map (fun s => if String.eqb (s_id s) (s_id session) then session else s)
      (cookingSessions (data st)) in
  {| data := withSessions (data st) updatedSessions;
     currentView := currentView st; selectedRecipeId := selectedRecipeId st |}.

(** The [cookingSession] that [App] hands to [CookMode]. *)
Definition cookingSession (st : AppState) : option CookingSession :=
  List.find (activeFor (selectedRecipeId st) (currentUserId (data st)))
    (cookingSessions (data st)).

(** The effect of [CookMode] that persists its local state. *)
Definition cookModeUpdate (servingSize' : Q) (ingredientsChecked' stepsChecked' : list nat)
    (st : AppState) : AppState :=
  match cookingSession st with
  | Some session =>
      handleUpdateCookingSession
        {| s_id := s_id session; s_recipeId := s_recipeId session;
           s_userId := s_userId session;
           ingredientsChecked := ingredientsChecked'; stepsChecked := stepsChecked';
           servingSize := servingSize'; status := status session |} st
  | None => st
  end.

(** The [forEach] over [recipe.ingredients] of [handleCompleteCooking]. *)
Definition deductIngredients (scalingFactor : Q) (measurements' : list Measurement)
    (userId' : string) (ings : list RecipeIngredient)
    (inventory' : list InventoryItem) : list InventoryItem :=
  fold_left
    (fun updatedInventory' ing =>
       let requiredAmount := ri_quantity ing * scalingFactor in
       updatedInventory
         (deductFromInventory (ri_ingredientId ing) (ri_measurementId ing)
            requiredAmount updatedInventory' measurements' userId'))
    ings inventory'.

Definition handleCompleteCooking (st : AppState) : AppState :=
  let d := data st in
  let data' :=
    match List.find (activeFor (selectedRecipeId st) (currentUserId d)) (cookingSessions d) with
    | None => d
    | Some session =>
        match List.find (fun r => strictEq (Some (r_id r)) (selectedRecipeId st)) (recipes d),
              currentUserId d with
        | Some recipe, Some uid =>
            if truthy (currentUserId d) then
              let scalingFactor := servingSize session / servings recipe in
              let updatedInventory' :=
                deductIngredients scalingFactor (measurements d) uid
                  (ingredients recipe) (inventory d) in
              let updatedSessions :=
                map (fun s => if String.eqb (s_id s) (s_id session)
                              then withStatus s completed else s)
                  (cookingSessions d) in
              let updatedRecipes :=
                map (fun r => if strictEq (Some (r_id r)) (selectedRecipeId st)
                              then cooked r else r)
                  (recipes d) in
              {| recipes := updatedRecipes; measurements := measurements d;
                 inventory := updatedInventory'; cookingSessions := updatedSessions;
                 currentUserId := currentUserId d |}
            else d
        | _, _ => d
        end
    end in
  {| data := data'; currentView := view_recipes;
     selectedRecipeId := selectedRecipeId st |}.

Definition handleCancelCooking (st : AppState) : AppState :=
  let d := data st in
  let data' :=
    match List.find (activeFor (selectedRecipeId st) (currentUserId d)) (cookingSessions d) with
    | None => d
    | Some session =>
        withSessions d
          (map (fun s => if String.eqb (s_id s) (s_id session)
                         then withStatus s cancelled else s)
             (cookingSessions d))
    end in
  {| data := data'; currentView := view_recipes;
     selectedRecipeId := selectedRecipeId st |}.

(** Log-in, log-out and navigation: they set [currentUserId],
    [selectedRecipeId] and the view, and leave the rest of the data alone. *)
Definition switchTo (u sel : option string) (v : View) (st : AppState) : AppState :=
  {| data := withCurrentUserId (data st) u; currentView := v; selectedRecipeId := sel |}.

(** *** Reachable states

    One step of the session machine.  [generateId] is assumed to return an
    id no stored session has. *)
Inductive step : AppState -> AppState -> Prop :=
  | step_start recipeId newId st :
      newId ∉ map s_id (cookingSessions (data st)) ->
      step st (handleStartCooking recipeId newId st)
  | step_update servingSize' ingredientsChecked' stepsChecked' st :
      step st (cookModeUpdate servingSize' ingredientsChecked' stepsChecked' st)
  | step_complete st : step st (handleCompleteCooking st)
  | step_cancel st : step st (handleCancelCooking st)
  | step_switch u sel v st : step st (switchTo u sel v st).

Inductive reachable (init : AppState) : AppState -> Prop :=
  | reachable_init : reachable init init
  | reachable_step st st' : reachable init st -> step st st' -> reachable init st'.

(** The number of active sessions of a (recipe, user) pair. *)
Definition activeCount (recipeId : string) (userId' : option string)
    (sessions : list CookingSession) : nat :=
  length (List.filter (activeFor (Some recipeId) userId') sessions).

Definition atMostOneActive (sessions : list CookingSession) : Prop :=
  forall recipeId userId', (activeCount recipeId userId' sessions <= 1)%nat.

Definition uniqueIds (sessions : list CookingSession) : Prop :=
  NoDup (map s_id sessions).

(** ** Further code of the same files

    The handlers below are given on the part of [data] they rewrite.
    [App] renders the views that call them only when [currentUser] is
    found, so [data.currentUserId] is a user id there; it is the argument
    [uid]. *)

(** [Array.prototype.findIndex]; [None] stands for [-1]. *)
Fixpoint findIndex {A : Type} (p : A -> bool) (l : list A) : option nat :=
  match l with
  | [] => None
  | x :: rest => if p x then Some 0%nat else option_map S (findIndex p rest)
  end.

(** [(i) => i.userId === uid && i.ingredientId === ... && i.measurementId === ...] *)
Definition sameLot (uid ingredientId' measurementId' : string) (i : InventoryItem) : bool :=
  String.eqb (userId i) uid && String.eqb (ingredientId i) ingredientId'
  && String.eqb (measurementId i) measurementId'.

(** [handleAddInventoryItem]; [item] comes without [userId]. *)
Definition handleAddInventoryItem (uid : string) (ingredientId' : string) (quantity' : Q)
    (measurementId' : string) (inventory' : list InventoryItem) : list InventoryItem :=
  match findIndex (sameLot uid ingredientId' measurementId') inventory' with
  | Some existingIndex =>
      match inventory' !! existingIndex with
      | Some existing =>
          <[existingIndex := withQuantity existing (quantity existing + quantity')]> inventory'
      | None => inventory'
      end
  | None =>
      inventory' ++ [ {| userId := uid; ingredientId := ingredientId';
                         quantity := quantity'; measurementId := measurementId' |} ]
  end.

(** [handleEditInventoryItem] *)
Definition handleEditInventoryItem (uid : string) (ingredientId' oldMeasurementId
    newMeasurementId : string) (quantity' : Q) (inventory' : list InventoryItem)
    : list InventoryItem :=
  if negb (String.eqb oldMeasurementId newMeasurementId) then
    let withoutOld :=
      List.filter (fun i => negb (sameLot uid ingredientId' oldMeasurementId i)) inventory' in
    match findIndex (sameLot uid ingredientId' newMeasurementId) withoutOld with
    | Some existingIndex =>
        match withoutOld !! existingIndex with
        | Some existing =>
            <[existingIndex := withQuantity existing (quantity existing + quantity')]> withoutOld
        | None => withoutOld
        end
    | None =>
        withoutOld ++ [ {| userId := uid; ingredientId := ingredientId';
                           quantity := quantity'; measurementId := newMeasurementId |} ]
    end
  else
    map (fun i => if sameLot uid ingredientId' oldMeasurementId i
                  then withQuantity i quantity' else i)
      inventory'.

(** [handleDeleteInventoryItem] *)
Definition handleDeleteInventoryItem (uid : string) (ingredientId' measurementId' : string)
    (inventory' : list InventoryItem) : list InventoryItem :=
  List.filter (fun i => negb (sameLot uid ingredientId' measurementId' i)) inventory'.

(** The key of a lot. *)
Definition lotKey (i : InventoryItem) : string * string * string :=
  (userId i, ingredientId i, measurementId i).

(** [userInventory] of [App]: what [CookMode] receives as [inventory]. *)
Definition userInventory (uid : string) (inventory' : list InventoryItem)
    : list InventoryItem :=
  List.filter (fun i => String.eqb (userId i) uid) inventory'.

(** [{ ...m, conversions }] *)
Definition withConversions (m : Measurement) (cs : list MeasurementConversion)
    : Measurement :=
  {| m_id := m_id m; m_name := m_name m; conversions := cs |}.

(** [handleAddMeasurement]; [newId] is the value [generateId()] returns. *)
Definition handleAddMeasurement (newId name : string) (measurements' : list Measurement)
    : list Measurement :=
  measurements' ++ [ {| m_id := newId; m_name := name; conversions := [] |} ].

(** [handleDeleteMeasurement] *)
Definition handleDeleteMeasurement (id : string) (measurements' : list Measurement)
    : list Measurement :=
  List.filter (fun m => negb (String.eqb (m_id m) id)) measurements'.

(** [handleAddConversion] *)
Definition handleAddConversion (fromId toId : string) (factor' : Q)
    (measurements' : list Measurement) : list Measurement :=
  map (fun m =>
         if String.eqb (m_id m) fromId then
           match List.find (fun c => String.eqb (toMeasurementId c) toId) (conversions m) with
           | Some existingConversion =>
               withConversions m
                 (map (fun c => if String.eqb (toMeasurementId c) toId
                                then {| toMeasurementId := toMeasurementId c;
                                        factor := factor' |}
                                else c)
                    (conversions m))
           | None =>
               withConversions m
                 (conversions m ++ [ {| toMeasurementId := toId; factor := factor' |} ])
           end
         else m)
    measurements'.

(** [handleRemoveConversion] *)
Definition handleRemoveConversion (fromId toId : string)
    (measurements' : list Measurement) : list Measurement :=
  map (fun m =>
         if String.eqb (m_id m) fromId then
           withConversions m
             (List.filter (fun c => negb (String.eqb (toMeasurementId c) toId))
                (conversions m))
         else m)
    measurements'.

(** [getConvertibleUnits] of [InventoryManager] *)
Definition getConvertibleUnits (measurementId' : string)
    (measurements' : list Measurement) : list Measurement :=
  match List.find (fun m => String.eqb (m_id m) measurementId') measurements' with
  | None => []
  | Some measurement =>
      let convertibleIds := map toMeasurementId (conversions measurement) in
      List.filter (fun m => existsb (String.eqb (m_id m)) convertibleIds) measurements'
  end.

(** [handleDeleteRecipe] *)
Definition handleDeleteRecipe (recipeId : string) (d : AppData) : AppData :=
  {| recipes := List.filter (fun r => negb (String.eqb (r_id r) recipeId)) (recipes d);
     measurements := measurements d;
     inventory := inventory d;
     cookingSessions :=
       List.filter (fun s => negb (String.eqb (s_recipeId s) recipeId)) (cookingSessions d);
     currentUserId := currentUserId d |}.

(** [mergeDefaultItems] of [storage.ts], for any item type with an [id]
    and a [name].  [toLowerCase] is [String.prototype.toLowerCase]; the two
    [Set]s are used for membership only. *)
Section Merge.
Context {T : Type} (id name : T -> string) (toLowerCase : string -> string).

Definition mergeDefaultItems (existingItems defaultItems : list T) : list T :=
  let existingIds := map id existingItems in
  let existingNames := map (fun i => toLowerCase (name i)) existingItems in
  let itemsToAdd :=
    List.filter
      (fun i => negb (existsb (String.eqb (id i)) existingIds)
                && negb (existsb (String.eqb (toLowerCase (name i))) existingNames))
      defaultItems in
  existingItems ++ itemsToAdd.

End Merge.

(** [toggleIngredient] and [toggleStep] of [CookMode] *)
Definition toggleIngredient (index' : nat) (ingredientsChecked' : list nat) : list nat :=
  if existsb (Nat.eqb index') ingredientsChecked'
  then List.filter (fun i => negb (Nat.eqb i index')) ingredientsChecked'
  else ingredientsChecked' ++ [index'].

Definition toggleStep (index' : nat) (stepsChecked' : list nat) : list nat :=
  if existsb (Nat.eqb index') stepsChecked'
  then List.filter (fun i => negb (Nat.eqb i index')) stepsChecked'
  else stepsChecked' ++ [index'].

(** The two length checks of [handleComplete] in [CookMode]: [true] when
    the confirmation dialog is opened. *)
Definition handleComplete_opens (ingredientsChecked' stepsChecked' : list nat)
    (recipe : Recipe) : bool :=
  if (length ingredientsChecked' <? length (ingredients recipe))%nat then false
  else if (length stepsChecked' <? length (instructions recipe))%nat then false
  else true.

(** [mostCooked] and [mostViewed] of [Dashboard] *)
Definition mostCooked (recipes' : list Recipe) : list Recipe :=
  take 5 (Array_sort (fun a b => (cookCount b - cookCount a)%Z) recipes').

Definition mostViewed (recipes' : list Recipe) : list Recipe :=
  take 5 (Array_sort (fun a b => (viewCount b - viewCount a)%Z) recipes').

(** A graph in which [convertMeasurement] succeeds along every listed
    edge in the reverse direction too. *)
Definition reversible (measurements' : list Measurement) : bool :=
  forallb
    (fun m =>
       forallb
         (fun c =>
            match convertMeasurement (toMeasurementId c) (m_id m) 1 measurements' with
            | Some _ => true
            | None => false
            end)
         (conversions m))
    measurements'.

(** What the inventory holds under one key: the sum of the quantities of
    the lots of that user, ingredient and unit. *)
Definition quantityHeld (uid ingredientId' measurementId' : string)
    (inventory' : list InventoryItem) : Q :=
  fold_right Qplus 0
    (map quantity (List.filter (sameLot uid ingredientId' measurementId') inventory')).

(** [User], and [handleSignup] and [handleLogin] of [App] on [data.users].
    [handleSignup] answers [None] where the handler returns [false] and
    the new user list where it returns [true]; [handleLogin] answers the
    id stored in [currentUserId] where the handler returns [true], and
    [None] where it returns [false]. *)
Record User := {
  u_id : string;
  username : string;
  password : string
}.

Definition handleSignup (username' password' newId : string) (users : list User)
    : option (list User) :=
  match List.find (fun u => String.eqb (username u) username') users with
  | Some _ => None
  | None =>
      Some (users ++ [ {| u_id := newId; username := username';
                          password := password' |} ])
  end.

Definition handleLogin (username' password' : string) (users : list User)
    : option string :=
  match List.find (fun u => String.eqb (username u) username'
                            && String.eqb (password u) password') users with
  | Some user => Some (u_id user)
  | None => None
  end.

(** * Properties *)

(** ** Conversion engine *)

Lemma convertMeasurement_same (u : string) (q : Q) (ms : list Measurement) :
  convertMeasurement u u q ms = Some q.
Proof. unfold convertMeasurement. by rewrite String.eqb_refl. Qed.

Lemma convertMeasurement_other (from to : string) (q : Q) (ms : list Measurement) :
  from <> to ->
  convertMeasurement from to q ms =
    match List.find (fun m => String.eqb (m_id m) from) ms with
    | None => None
    | Some m =>
        match List.find (fun c => String.eqb (toMeasurementId c) to) (conversions m) with
        | Some c => Some (q * factor c)
        | None => None
        end
    end.
Proof.
  intros Hne. unfold convertMeasurement.
  destruct (String.eqb_spec from to) as [->|_]; [done|reflexivity].
Qed.

(** Whether a path exists does not depend on the quantity converted. *)
Lemma convertMeasurement_None_quantity (from to : string) (q q' : Q) (ms : list Measurement) :
  convertMeasurement from to q ms = None -> convertMeasurement from to q' ms = None.
Proof.
  unfold convertMeasurement. destruct (String.eqb from to); [done|].
  destruct (List.find _ ms) as [m|]; [|done].
  by destruct (List.find _ (conversions m)).
Qed.

(** C7. [convertMeasurement] is the identity on equal unit ids, whatever
    the measurement list holds; on different ids it answers
    [quantity * factor] exactly when the measurement found for the source
    id has a direct edge to the target id, and the no-path sentinel
    otherwise.  Edges are neither chained (a -> b -> c gives no a -> c) nor
    inverted (b -> a gives no a -> b). *)
Theorem convertMeasurement_direct_edge_only
    (from to : string) (q : Q) (ms : list Measurement) :
  convertMeasurement from from q ms = Some q
  /\ (from <> to ->
      (forall r, convertMeasurement from to q ms = Some r <->
         exists m c,
           List.find (fun m => String.eqb (m_id m) from) ms = Some m
           /\ List.find (fun c => String.eqb (toMeasurementId c) to) (conversions m) = Some c
           /\ r = q * factor c)
      /\ (convertMeasurement from to q ms = None <->
            List.find (fun m => String.eqb (m_id m) from) ms = None
            \/ exists m,
                 List.find (fun m => String.eqb (m_id m) from) ms = Some m
                 /\ List.find (fun c => String.eqb (toMeasurementId c) to) (conversions m) = None))
  /\ (forall (via : string) (f g : Q) (n1 n2 : string),
        from <> to -> via <> to ->
        convertMeasurement from to q
          [ {| m_id := from; m_name := n1; conversions := [conv via f] |};
            {| m_id := via; m_name := n2; conversions := [conv to g] |} ] = None)
  /\ (forall (f : Q) (n1 n2 : string),
        from <> to ->
        convertMeasurement from to q
          [ {| m_id := from; m_name := n1; conversions := [] |};
            {| m_id := to; m_name := n2; conversions := [conv from f] |} ] = None
        /\ convertMeasurement to from q
          [ {| m_id := from; m_name := n1; conversions := [] |};
            {| m_id := to; m_name := n2; conversions := [conv from f] |} ] = Some (q * f)).
Proof.
  split; [apply convertMeasurement_same|].
  split; [|split].
  - intros Hne. rewrite (convertMeasurement_other _ _ _ _ Hne). split.
    + intros r. split.
      * destruct (List.find _ ms) as [m|]; [|done].
        destruct (List.find _ (conversions m)) as [c|] eqn:Hc; [|done].
        intros [= <-]. by exists m, c.
      * intros (m & c & -> & -> & ->). reflexivity.
    + split.
      * destruct (List.find _ ms) as [m|]; [|by left].
        destruct (List.find _ (conversions m)) as [c|] eqn:Hc; [done|].
        intros _. right. by exists m.
      * intros [->|(m & -> & ->)]; reflexivity.
  - intros via f g n1 n2 Hne Hvia.
    rewrite (convertMeasurement_other _ _ _ _ Hne). simpl.
    rewrite String.eqb_refl. simpl.
    by destruct (String.eqb_spec via to).
  - intros f n1 n2 Hne. split.
    + rewrite (convertMeasurement_other _ _ _ _ Hne). simpl.
      by rewrite String.eqb_refl.
    + assert (Hne' : to <> from) by congruence.
      rewrite (convertMeasurement_other _ _ _ _ Hne'). simpl.
      destruct (String.eqb_spec from to) as [?|_]; [done|].
      rewrite String.eqb_refl. simpl. by rewrite String.eqb_refl.
Qed.

Lemma convertMeasurement_direct_edge_only_witness :
  convertMeasurement "1" "2" 1 defaultMeasurements = Some 16
  /\ convertMeasurement "15" "1" 5 defaultMeasurements = None
  /\ convertMeasurement "a" "c" 1
       [ {| m_id := "a"; m_name := "a"; conversions := [conv "b" 2] |};
         {| m_id := "b"; m_name := "b"; conversions := [conv "c" 3] |} ] = None
  /\ convertMeasurement "a" "b" 1
       [ {| m_id := "a"; m_name := "a"; conversions := [] |};
         {| m_id := "b"; m_name := "b"; conversions := [conv "a" 3] |} ] = None.
Proof.
  split; [|split; [|split]].
  - apply (proj1 (proj2 (convertMeasurement_direct_edge_only "1" "2" 1 defaultMeasurements))
             ltac:(discriminate)).
    eexists _, (conv "2" 16). repeat split; reflexivity.
  - apply (proj1 (proj2 (convertMeasurement_direct_edge_only "15" "1" 5 defaultMeasurements))
             ltac:(discriminate)).
    right. eexists. split; reflexivity.
  - apply (proj1 (proj2 (proj2 (convertMeasurement_direct_edge_only "a" "c" 1 [])))
             "b" 2 3 "a" "b"); discriminate.
  - apply (proj2 (proj2 (proj2 (convertMeasurement_direct_edge_only "a" "b" 1 [])))
             3 "a" "b"); discriminate.
Defined.

(** ** Aggregation *)

Lemma totalLoop_sum (target : string) (ms : list Measurement)
    (items : list InventoryItem) (total : Q) :
  totalLoop target ms items total
  == total + fold_right Qplus 0 (map (convertedOrNothing target ms) items).
Proof.
  revert total. induction items as [|it rest IH]; intros total; simpl.
  - ring.
  - unfold convertedOrNothing at 1.
    destruct (convertMeasurement _ _ _ _) as [converted|]; rewrite IH; ring.
Qed.

Lemma sum_app (l1 l2 : list Q) :
  fold_right Qplus 0 (l1 ++ l2) == fold_right Qplus 0 l1 + fold_right Qplus 0 l2.
Proof.
  induction l1 as [|x xs IH]; simpl; [ring|]. rewrite IH. ring.
Qed.

(** C8. [getTotalInventoryInUnit] is the sum, over the lots of the
    ingredient, of the quantity converted to the target unit, a lot
    without a conversion path adding nothing; with the default
    measurements, 2 cups and 500 millilitres make 2 * 236.588 + 500
    millilitres, whatever else the inventory holds. *)
Theorem getTotalInventoryInUnit_sum :
  (forall (iid target : string) (inv : list InventoryItem) (ms : list Measurement),
     getTotalInventoryInUnit iid target inv ms == totalInUnit_spec iid target inv ms)
  /\ (forall (iid target : string) (inv1 inv2 : list InventoryItem)
        (l : InventoryItem) (ms : list Measurement),
        ingredientId l = iid ->
        convertMeasurement (measurementId l) target (quantity l) ms = None ->
        getTotalInventoryInUnit iid target (inv1 ++ l :: inv2) ms
        == getTotalInventoryInUnit iid target (inv1 ++ inv2) ms)
  /\ getTotalInventoryInUnit "flour" "9"
       [ {| userId := "u"; ingredientId := "flour"; quantity := 2; measurementId := "1" |};
         {| userId := "u"; ingredientId := "egg"; quantity := 12; measurementId := "15" |};
         {| userId := "u"; ingredientId := "flour"; quantity := 3; measurementId := "15" |};
         {| userId := "u"; ingredientId := "flour"; quantity := 500; measurementId := "9" |} ]
       defaultMeasurements
     == 2 * 236.588 + 500.
Proof.
  assert (Hsum : forall iid target inv ms,
    getTotalInventoryInUnit iid target inv ms == totalInUnit_spec iid target inv ms).
  { intros. unfold getTotalInventoryInUnit, totalInUnit_spec.
    rewrite totalLoop_sum. ring. }
  split; [exact Hsum|]. split.
  - intros iid target inv1 inv2 l ms Hid Hnone.
    rewrite !Hsum. unfold totalInUnit_spec.
    rewrite !List.filter_app. simpl.
    rewrite Hid, String.eqb_refl. rewrite !map_app, !sum_app. simpl.
    unfold convertedOrNothing at 2. rewrite Hnone. ring.
  - vm_compute. reflexivity.
Qed.

Lemma getTotalInventoryInUnit_sum_witness :
  getTotalInventoryInUnit "flour" "9"
    ([ {| userId := "u"; ingredientId := "flour"; quantity := 2; measurementId := "1" |} ]
     ++ {| userId := "u"; ingredientId := "flour"; quantity := 3; measurementId := "15" |}
     :: [ {| userId := "u"; ingredientId := "flour"; quantity := 500; measurementId := "9" |} ])
    defaultMeasurements
  == getTotalInventoryInUnit "flour" "9"
    ([ {| userId := "u"; ingredientId := "flour"; quantity := 2; measurementId := "1" |} ]
     ++ [ {| userId := "u"; ingredientId := "flour"; quantity := 500; measurementId := "9" |} ])
    defaultMeasurements.
Proof.
  apply (proj1 (proj2 getTotalInventoryInUnit_sum)); reflexivity.
Defined.

(** ** Sufficiency *)

(** C9. [hasEnoughInventory] reports as [available] the total of the
    ingredient in the required unit and as [hasEnough] the exact
    comparison [available >= requiredQuantity]: true when the two are
    equal, false as soon as the requirement exceeds the total by any
    amount. *)
Theorem hasEnoughInventory_exact
    (iid unit : string) (req : Q) (inv : list InventoryItem) (ms : list Measurement) :
  available (hasEnoughInventory iid unit req inv ms)
    = getTotalInventoryInUnit iid unit inv ms
  /\ (hasEnough (hasEnoughInventory iid unit req inv ms) = true
      <-> req <= available (hasEnoughInventory iid unit req inv ms))
  /\ (req == getTotalInventoryInUnit iid unit inv ms ->
      hasEnough (hasEnoughInventory iid unit req inv ms) = true)
  /\ hasEnough
       (hasEnoughInventory iid unit (getTotalInventoryInUnit iid unit inv ms) inv ms) = true
  /\ (getTotalInventoryInUnit iid unit inv ms < req ->
      hasEnough (hasEnoughInventory iid unit req inv ms) = false).
Proof.
  unfold hasEnoughInventory. simpl.
  split; [reflexivity|]. split; [apply Qle_bool_iff|].
  split; [|split].
  - intros E. apply Qle_bool_iff. rewrite E. apply Qle_refl.
  - apply Qle_bool_iff, Qle_refl.
  - intros Hlt. destruct (Qle_bool req _) eqn:E; [|reflexivity].
    apply Qle_bool_iff in E. exfalso. exact (Qlt_not_le _ _ Hlt E).
Qed.

Lemma hasEnoughInventory_exact_witness :
  hasEnough
    (hasEnoughInventory "flour" "1" 1
       [ {| userId := "u"; ingredientId := "flour"; quantity := 1; measurementId := "1" |} ]
       defaultMeasurements) = true
  /\ hasEnough
    (hasEnoughInventory "flour" "1" 1.001
       [ {| userId := "u"; ingredientId := "flour"; quantity := 1; measurementId := "1" |} ]
       defaultMeasurements) = false.
Proof.
  split.
  - apply (proj1 (proj2 (proj2
      (hasEnoughInventory_exact "flour" "1" 1
         [ {| userId := "u"; ingredientId := "flour"; quantity := 1; measurementId := "1" |} ]
         defaultMeasurements)))).
    vm_compute. reflexivity.
  - apply (proj2 (proj2 (proj2 (proj2
      (hasEnoughInventory_exact "flour" "1" 1.001
         [ {| userId := "u"; ingredientId := "flour"; quantity := 1; measurementId := "1" |} ]
         defaultMeasurements))))).
    vm_compute. reflexivity.
Defined.

(** ** Deduction engine: the order in which lots are processed *)

Section Preference.
Variable requiredMeasurementId : string.

Let exact (e : Indexed) : bool :=
  String.eqb (measurementId (item e)) requiredMeasurementId.

Lemma sortInsert_exact (x : Indexed) (others exacts : list Indexed) :
  exact x = true ->
  Forall (fun e => exact e = false) others ->
  Forall (fun e => exact e = true) exacts ->
  sortInsert (byPreference requiredMeasurementId) x (others ++ exacts)
  = others ++ x :: exacts.
Proof.
  intros Hx Ho He. induction Ho as [|p others Hp Ho IH]; simpl.
  - destruct He as [|p exacts Hp He]; simpl; [reflexivity|].
    unfold byPreference. fold (exact p). by rewrite Hp.
  - unfold byPreference at 1. fold (exact p) (exact x). rewrite Hp, Hx. simpl.
    by rewrite IH.
Qed.

Lemma sortInsert_other (x : Indexed) (sortedRev : list Indexed) :
  exact x = false ->
  sortInsert (byPreference requiredMeasurementId) x sortedRev = x :: sortedRev.
Proof.
  intros Hx. destruct sortedRev as [|p rest]; simpl; [reflexivity|].
  unfold byPreference. fold (exact p) (exact x). rewrite Hx.
  by destruct (exact p).
Qed.

Lemma sort_fold (l others exacts : list Indexed) :
  Forall (fun e => exact e = false) others ->
  Forall (fun e => exact e = true) exacts ->
  fold_left (fun sortedRev x => sortInsert (byPreference requiredMeasurementId) x sortedRev)
    l (others ++ exacts)
  = (rev (List.filter (fun e => negb (exact e)) l) ++ others)
    ++ (rev (List.filter exact l) ++ exacts).
Proof.
  revert others exacts. induction l as [|x l IH]; intros others exacts Ho He; simpl.
  - reflexivity.
  - destruct (exact x) eqn:Hx; simpl.
    + rewrite sortInsert_exact by done.
      rewrite (IH others (x :: exacts)) by (try constructor; done).
      by rewrite <- !app_assoc.
    + rewrite sortInsert_other by done.
      change (x :: others ++ exacts) with ((x :: others) ++ exacts).
      rewrite (IH (x :: others) exacts) by (try constructor; done).
      by rewrite <- !app_assoc.
Qed.

(** With the comparator of [deductFromInventory], sorting is the stable
    partition into the lots in the required unit and the others. *)
Lemma Array_sort_byPreference (l : list Indexed) :
  Array_sort (byPreference requiredMeasurementId) l
  = List.filter exact l ++ List.filter (fun e => negb (exact e)) l.
Proof.
  unfold Array_sort.
  change (@nil Indexed) with (@nil Indexed ++ []) at 1.
  rewrite (sort_fold l [] []) by constructor.
  rewrite !app_nil_r, rev_app_distr, !rev_involutive. reflexivity.
Qed.

End Preference.

(** ** Lists: filters, positions *)

Lemma filter_sublist {A : Type} (p : A -> bool) (l : list A) :
  List.filter p l `sublist_of` l.
Proof.
  induction l as [|x l IH]; simpl; [constructor|].
  destruct (p x); by constructor.
Qed.

Lemma filter_elem_of {A : Type} (p : A -> bool) (l : list A) (x : A) :
  x ∈ List.filter p l <-> x ∈ l /\ p x = true.
Proof. rewrite !list_elem_of_In. apply filter_In. Qed.

Lemma filter_partition_perm {A : Type} (p : A -> bool) (l : list A) :
  List.filter p l ++ List.filter (fun x => negb (p x)) l ≡ₚ l.
Proof.
  induction l as [|x l IH]; simpl; [done|].
  destruct (p x); simpl.
  - by rewrite IH.
  - rewrite <- Permutation_middle. by rewrite IH.
Qed.

Lemma StronglySorted_sublist {A : Type} (R : A -> A -> Prop) (l1 l2 : list A) :
  l1 `sublist_of` l2 -> StronglySorted R l2 -> StronglySorted R l1.
Proof.
  induction 1 as [|x l1 l2 Hsub IH|x l1 l2 Hsub IH]; intros Hs.
  - constructor.
  - apply StronglySorted_inv in Hs as [Hs Hall]. constructor; [by apply IH|].
    rewrite Forall_forall in Hall |- *. intros y Hy. apply Hall.
    by eapply elem_of_sublist.
  - apply StronglySorted_inv in Hs as [Hs _]. by apply IH.
Qed.

Lemma StronglySorted_seq (a n : nat) : StronglySorted lt (seq a n).
Proof.
  revert a. induction n as [|n IH]; intros a; simpl; constructor; [apply IH|].
  apply Forall_forall. intros y Hy. apply elem_of_seq in Hy. lia.
Qed.

Lemma filter_at {A : Type} (p : A -> bool) (l : list A) (i : nat) (x : A) :
  l !! i = Some x ->
  List.filter p l
  = List.filter p (take i l) ++ (if p x then [x] else []) ++ List.filter p (drop (S i) l).
Proof.
  intros Hi. rewrite <- (take_drop_middle l i x Hi) at 1.
  rewrite List.filter_app. simpl. by destruct (p x).
Qed.

(** ** The candidate lots *)

Lemma indexed_indices (inv : list InventoryItem) :
  map index (imap (fun index' item' => {| item := item'; index := index' |}) inv)
  = seq 0 (length inv).
Proof.
  change (map index ?l) with (index <$> l).
  rewrite fmap_imap.
  rewrite (imap_ext _ (fun j _ => id j) inv) by done.
  rewrite imap_seq_0. apply list_fmap_id.
Qed.

Lemma relevantItems_elem_of (iid uid : string) (inv : list InventoryItem) (e : Indexed) :
  e ∈ relevantItems iid uid inv
  <-> inv !! index e = Some (item e) /\ userId (item e) = uid /\ ingredientId (item e) = iid.
Proof.
  unfold relevantItems. rewrite filter_elem_of, elem_of_lookup_imap.
  rewrite andb_true_iff, !String.eqb_eq. split.
  - intros [(i & x & -> & Hi) [Hu Hi']]. done.
  - intros (Hi & Hu & Hi'). split; [|done].
    exists (index e), (item e). split; [by destruct e|done].
Qed.

Lemma relevantItems_sorted (iid uid : string) (inv : list InventoryItem) (p : Indexed -> bool) :
  StronglySorted lt (map index (List.filter p (relevantItems iid uid inv))).
Proof.
  eapply StronglySorted_sublist; [|apply (StronglySorted_seq 0 (length inv))].
  rewrite <- indexed_indices.
  change (map index ?l) with (index <$> l).
  apply fmap_sublist. etransitivity; apply filter_sublist.
Qed.

Lemma sortedItems_partition (iid req uid : string) (inv : list InventoryItem) :
  sortedItems iid req uid inv
  = List.filter (fun e => String.eqb (measurementId (item e)) req)
      (relevantItems iid uid inv)
    ++ List.filter (fun e => negb (String.eqb (measurementId (item e)) req))
         (relevantItems iid uid inv).
Proof. apply Array_sort_byPreference. Qed.

Lemma sortedItems_perm (iid req uid : string) (inv : list InventoryItem) :
  sortedItems iid req uid inv ≡ₚ relevantItems iid uid inv.
Proof. rewrite sortedItems_partition. apply filter_partition_perm. Qed.

Lemma sortedItems_elem_of (iid req uid : string) (inv : list InventoryItem) (e : Indexed) :
  e ∈ sortedItems iid req uid inv
  <-> inv !! index e = Some (item e) /\ userId (item e) = uid /\ ingredientId (item e) = iid.
Proof. rewrite sortedItems_perm. apply relevantItems_elem_of. Qed.

Lemma sortedItems_NoDup (iid req uid : string) (inv : list InventoryItem) :
  NoDup (map index (sortedItems iid req uid inv)).
Proof.
  change (map index ?l) with (index <$> l).
  rewrite sortedItems_perm.
  eapply sublist_NoDup; [apply (NoDup_seq 0 (length inv))|].
  rewrite <- indexed_indices.
  change (map index ?l) with (index <$> l).
  apply fmap_sublist, filter_sublist.
Qed.

(** ** The candidate lots under either order of call *)

Section PreferencePivot.
Variable requiredMeasurementId : string.

Let exact (e : Indexed) : bool :=
  String.eqb (measurementId (item e)) requiredMeasurementId.

Lemma sortInsertPivot_exact (x : Indexed) (sortedRev : list Indexed) :
  exact x = true ->
  sortInsertPivot (byPreference requiredMeasurementId) x sortedRev = sortedRev ++ [x].
Proof.
  intros Hx. induction sortedRev as [|p rest IH]; simpl; [reflexivity|].
  unfold byPreference at 1. fold (exact x). rewrite Hx. simpl. by rewrite IH.
Qed.

Lemma sortInsertPivot_other (x : Indexed) (sortedRev : list Indexed) :
  exact x = false ->
  sortInsertPivot (byPreference requiredMeasurementId) x sortedRev = x :: sortedRev.
Proof.
  intros Hx. destruct sortedRev as [|p rest]; simpl; [reflexivity|].
  unfold byPreference. fold (exact p) (exact x). rewrite Hx.
  by destruct (exact p).
Qed.

Lemma sort_fold_pivot (l sortedRev : list Indexed) :
  fold_left
    (fun sortedRev x => sortInsertPivot (byPreference requiredMeasurementId) x sortedRev)
    l sortedRev
  = rev (List.filter (fun e => negb (exact e)) l) ++ sortedRev ++ List.filter exact l.
Proof.
  revert sortedRev. induction l as [|x l IH]; intros sortedRev; simpl.
  - by rewrite app_nil_r.
  - destruct (exact x) eqn:Hx; simpl.
    + rewrite sortInsertPivot_exact by done. rewrite IH.
      by rewrite <- !app_assoc.
    + rewrite sortInsertPivot_other by done. rewrite IH.
      by rewrite <- !app_assoc.
Qed.

(** With the pivot handed over first, the lots in the required unit come
    out first and in reverse, the others after them in their order. *)
Lemma Array_sort_pivot_byPreference (l : list Indexed) :
  Array_sort_pivot (byPreference requiredMeasurementId) l
  = rev (List.filter exact l) ++ List.filter (fun e => negb (exact e)) l.
Proof.
  unfold Array_sort_pivot. rewrite sort_fold_pivot. simpl.
  by rewrite rev_app_distr, rev_involutive.
Qed.

End PreferencePivot.

(** The two orders of call give the same sort on a comparator whose
    answers in the two directions have opposite signs. *)
Lemma Array_sort_pivot_consistent {A : Type} (comparefn : A -> A -> Z) (l : list A) :
  (forall a b, (comparefn a b <? 0)%Z = (0 <? comparefn b a)%Z) ->
  Array_sort_pivot comparefn l = Array_sort comparefn l.
Proof.
  intros Hanti. unfold Array_sort_pivot, Array_sort. f_equal.
  assert (Hins : forall x sortedRev,
            sortInsertPivot comparefn x sortedRev = sortInsert comparefn x sortedRev).
  { intros x sortedRev. induction sortedRev as [|p rest IH]; simpl; [reflexivity|].
    by rewrite Hanti, IH. }
  generalize (@nil A). induction l as [|x l IH]; intros acc; simpl; [reflexivity|].
  by rewrite Hins, IH.
Qed.

Lemma rev_short {A : Type} (l : list A) : (length l <= 1)%nat -> rev l = l.
Proof. destruct l as [|x [|y l]]; simpl; [done|done|lia]. Qed.

Lemma sortedItemsOn_shape (engine : SortEngine) (iid req uid : string)
    (inv : list InventoryItem) :
  sortedItemsOn engine iid req uid inv
  = match engine with
    | placedFirst =>
        List.filter (fun e => String.eqb (measurementId (item e)) req)
          (relevantItems iid uid inv)
    | pivotFirst =>
        rev (List.filter (fun e => String.eqb (measurementId (item e)) req)
               (relevantItems iid uid inv))
    end
    ++ List.filter (fun e => negb (String.eqb (measurementId (item e)) req))
         (relevantItems iid uid inv).
Proof.
  destruct engine; [apply Array_sort_byPreference|apply Array_sort_pivot_byPreference].
Qed.

Lemma sortedItemsOn_partition (engine : SortEngine) (iid req uid : string)
    (inv : list InventoryItem) :
  (length (List.filter (fun e => String.eqb (measurementId (item e)) req)
             (relevantItems iid uid inv)) <= 1)%nat ->
  sortedItemsOn engine iid req uid inv
  = List.filter (fun e => String.eqb (measurementId (item e)) req)
      (relevantItems iid uid inv)
    ++ List.filter (fun e => negb (String.eqb (measurementId (item e)) req))
         (relevantItems iid uid inv).
Proof.
  intros Hlen. rewrite sortedItemsOn_shape. destruct engine; [done|].
  by rewrite rev_short.
Qed.

Lemma sortedItemsOn_perm (engine : SortEngine) (iid req uid : string)
    (inv : list InventoryItem) :
  sortedItemsOn engine iid req uid inv ≡ₚ relevantItems iid uid inv.
Proof.
  rewrite sortedItemsOn_shape.
  etransitivity; [|apply (filter_partition_perm
                            (fun e => String.eqb (measurementId (item e)) req))].
  destruct engine; [done|].
  apply Permutation_app_tail. symmetry. apply Permutation_rev.
Qed.

Lemma sortedItemsOn_elem_of (engine : SortEngine) (iid req uid : string)
    (inv : list InventoryItem) (e : Indexed) :
  e ∈ sortedItemsOn engine iid req uid inv
  <-> inv !! index e = Some (item e) /\ userId (item e) = uid /\ ingredientId (item e) = iid.
Proof. rewrite sortedItemsOn_perm. apply relevantItems_elem_of. Qed.

Lemma sortedItemsOn_NoDup (engine : SortEngine) (iid req uid : string)
    (inv : list InventoryItem) :
  NoDup (map index (sortedItemsOn engine iid req uid inv)).
Proof.
  change (map index ?l) with (index <$> l).
  rewrite sortedItemsOn_perm.
  eapply sublist_NoDup; [apply (NoDup_seq 0 (length inv))|].
  rewrite <- indexed_indices.
  change (map index ?l) with (index <$> l).
  apply fmap_sublist, filter_sublist.
Qed.

(** ** The deduction loop *)

Section Loop.
Variables (req : string) (ms : list Measurement).

Lemma deductStep_inventory (e : Indexed) (amount : Q) (st : LoopState) :
  loop_updatedInventory (deductStep req ms e amount st)
  = <[index e := writtenRow (item e) amount]> (loop_updatedInventory st).
Proof.
  unfold deductStep, writtenRow, newQuantityOf. simpl.
  by destruct (Qgt_bool _ _).
Qed.

Lemma deductLoop_length (items : list Indexed) (st : LoopState) :
  length (loop_updatedInventory (deductLoop req ms items st))
  = length (loop_updatedInventory st).
Proof.
  revert st. induction items as [|e rest IH]; intros st; simpl; [done|].
  destruct (Qle_bool _ _); [done|].
  destruct (convertMeasurement _ _ _ _) as [amount|]; [|apply IH].
  rewrite IH, deductStep_inventory. apply length_insert.
Qed.

Lemma deductTrace_lots (items : list Indexed) (st : LoopState) :
  map lot (deductTrace req ms items st) `sublist_of` items.
Proof.
  revert st. induction items as [|e rest IH]; intros st; simpl; [constructor|].
  destruct (Qle_bool _ _); [apply sublist_nil_l|].
  destruct (convertMeasurement _ _ _ _) as [amount|]; simpl.
  - constructor. apply IH.
  - constructor. apply IH.
Qed.

Lemma deductTrace_elem_of (items : list Indexed) (st : LoopState) (d : Deduction) :
  d ∈ deductTrace req ms items st ->
  lot d ∈ items
  /\ convertMeasurement req (measurementId (item (lot d))) (remainingBefore d) ms
     = Some (amountInItemUnit d)
  /\ 0 < remainingBefore d.
Proof.
  revert st. induction items as [|e rest IH]; intros st; simpl.
  - intros H. by apply elem_of_nil in H.
  - destruct (Qle_bool _ _) eqn:Hle.
    { intros H. by apply elem_of_nil in H. }
    destruct (convertMeasurement req (measurementId (item e)) (remainingToDeduct st) ms)
      as [amount|] eqn:Hc.
    + intros [->|Hd]%elem_of_cons; simpl.
      * split; [left|]. split; [done|].
        apply Qnot_le_lt. intros Hle'. apply Qle_bool_iff in Hle'. congruence.
      * destruct (IH _ Hd) as (? & ? & ?). split; [by right|done].
    + intros Hd. destruct (IH _ Hd) as (? & ? & ?). split; [by right|done].
Qed.

Lemma deductLoop_ledger (items : list Indexed) (st : LoopState) :
  loop_deducted (deductLoop req ms items st)
  = loop_deducted st ++ map ledgerRow (deductTrace req ms items st).
Proof.
  revert st. induction items as [|e rest IH]; intros st; simpl.
  - by rewrite app_nil_r.
  - destruct (Qle_bool _ _); [by rewrite app_nil_r|].
    destruct (convertMeasurement _ _ _ _) as [amount|]; [|apply IH].
    rewrite IH. simpl. by rewrite <- app_assoc.
Qed.

Lemma deductLoop_untouched (items : list Indexed) (st : LoopState) (i : nat) :
  i ∉ map (fun d => index (lot d)) (deductTrace req ms items st) ->
  loop_updatedInventory (deductLoop req ms items st) !! i
  = loop_updatedInventory st !! i.
Proof.
  revert st. induction items as [|e rest IH]; intros st; simpl; [done|].
  destruct (Qle_bool _ _); [done|].
  destruct (convertMeasurement _ _ _ _) as [amount|]; [|apply IH].
  simpl. intros Hi. apply not_elem_of_cons in Hi as [Hne Hi].
  rewrite (IH _ Hi), deductStep_inventory.
  by apply list_lookup_insert_ne.
Qed.

Lemma deductLoop_touched (items : list Indexed) (st : LoopState) (d : Deduction) :
  NoDup (map index items) ->
  d ∈ deductTrace req ms items st ->
  (index (lot d) < length (loop_updatedInventory st))%nat ->
  loop_updatedInventory (deductLoop req ms items st) !! index (lot d)
  = Some (writtenRow (item (lot d)) (amountInItemUnit d)).
Proof.
  revert st. induction items as [|e rest IH]; intros st Hnd; simpl.
  - intros H. by apply elem_of_nil in H.
  - apply NoDup_cons in Hnd as [Hfresh Hnd].
    destruct (Qle_bool _ _).
    { intros H. by apply elem_of_nil in H. }
    destruct (convertMeasurement _ _ _ _) as [amount|]; [|by apply IH].
    intros [->|Hd]%elem_of_cons Hlen; simpl.
    + rewrite deductLoop_untouched.
      * rewrite deductStep_inventory. by apply list_lookup_insert_eq.
      * intros Hin. apply Hfresh.
        change (map index rest) with (index <$> rest).
        change (map ?f ?l) with (f <$> l) in Hin.
        apply list_elem_of_fmap in Hin as (d' & -> & Hd').
        apply list_elem_of_fmap. exists (lot d'). split; [done|].
        eapply elem_of_sublist; [|apply deductTrace_lots].
        change (map lot ?l) with (lot <$> l). apply list_elem_of_fmap. eauto.
    + apply IH; [done|done|].
      by rewrite deductStep_inventory, length_insert.
Qed.

End Loop.

(** ** Numbers *)

Lemma Qgt_bool_iff (a b : Q) : Qgt_bool a b = true <-> b < a.
Proof.
  unfold Qgt_bool. rewrite negb_true_iff. split.
  - intros H. apply Qnot_le_lt. intros Hle. apply Qle_bool_iff in Hle. congruence.
  - intros H. destruct (Qle_bool a b) eqn:E; [|done].
    apply Qle_bool_iff in E. exfalso. exact (Qlt_not_le _ _ H E).
Qed.

Lemma Qgt_bool_false_iff (a b : Q) : Qgt_bool a b = false <-> a <= b.
Proof.
  unfold Qgt_bool. rewrite negb_false_iff. apply Qle_bool_iff.
Qed.

Lemma Qneq_bool_iff (a b : Q) : Qneq_bool a b = true <-> ~ a == b.
Proof.
  unfold Qneq_bool. rewrite negb_true_iff. split.
  - apply Qeq_bool_neq.
  - intros H. destruct (Qeq_bool a b) eqn:E; [|done].
    apply Qeq_bool_iff in E. done.
Qed.

Lemma Math_min_spec (a b : Q) :
  Math_min a b <= a /\ Math_min a b <= b /\ (Math_min a b = a \/ Math_min a b = b).
Proof.
  unfold Math_min. destruct (Qle_bool a b) eqn:E.
  - apply Qle_bool_iff in E. split; [apply Qle_refl|]. split; [done|by left].
  - assert (b < a).
    { apply Qnot_le_lt. intros H. apply Qle_bool_iff in H. congruence. }
    split; [by apply Qlt_le_weak|]. split; [apply Qle_refl|by right].
Qed.

Lemma newQuantityOf_nonneg (it : InventoryItem) (amount : Q) :
  0 <= newQuantityOf it amount.
Proof.
  unfold newQuantityOf, toDeductOf.
  destruct (Math_min_spec (quantity it) amount) as (H & _ & _).
  unfold Qminus. by apply Qle_minus_iff in H.
Qed.

Lemma nonneg_kept (x : Q) : 0 <= x -> Qneq_bool x (-1) = true.
Proof.
  intros H. apply Qneq_bool_iff. intros E. rewrite E in H.
  revert H. by vm_compute.
Qed.

(** ** Deduction engine: the run as a whole *)

Section Run.
Variables (iid req uid : string) (q : Q) (inv : list InventoryItem) (ms : list Measurement).

Let final := loop_updatedInventory (deductFinal iid req q inv ms uid).
Let out := updatedInventory (deductFromInventory iid req q inv ms uid).
Let keep := fun it : InventoryItem => Qneq_bool (quantity it) (-1).

Lemma deductions_lot (d : Deduction) :
  d ∈ deductions iid req q inv ms uid ->
  inv !! index (lot d) = Some (item (lot d))
  /\ userId (item (lot d)) = uid
  /\ ingredientId (item (lot d)) = iid
  /\ convertMeasurement req (measurementId (item (lot d))) (remainingBefore d) ms
     = Some (amountInItemUnit d)
  /\ 0 < remainingBefore d.
Proof.
  intros Hd. apply deductTrace_elem_of in Hd as (Hlot & Hc & Hpos).
  apply sortedItems_elem_of in Hlot as (? & ? & ?). done.
Qed.

Lemma deductions_written (d : Deduction) :
  d ∈ deductions iid req q inv ms uid ->
  final !! index (lot d) = Some (writtenRow (item (lot d)) (amountInItemUnit d)).
Proof.
  intros Hd. apply deductLoop_touched; [apply sortedItems_NoDup|done|].
  simpl. apply deductions_lot in Hd as (Hi & _). by eapply lookup_lt_Some.
Qed.

Lemma deductions_untouched (i : nat) :
  i ∉ deductedIndices iid req q inv ms uid -> final !! i = inv !! i.
Proof. intros Hi. by apply deductLoop_untouched. Qed.

Lemma deductedIndices_elem_of (i : nat) :
  i ∈ deductedIndices iid req q inv ms uid
  <-> exists d, d ∈ deductions iid req q inv ms uid /\ index (lot d) = i.
Proof.
  unfold deductedIndices. change (map ?f ?l) with (f <$> l).
  rewrite list_elem_of_fmap. split.
  - intros (d & -> & Hd). by exists d.
  - intros (d & Hd & <-). by exists d.
Qed.

Lemma deducted_ledger :
  deducted (deductFromInventory iid req q inv ms uid)
  = map ledgerRow (deductions iid req q inv ms uid).
Proof. unfold deductFromInventory, deductFinal. simpl. by rewrite deductLoop_ledger. Qed.

Lemma out_at (i : nat) (x : InventoryItem) :
  final !! i = Some x ->
  out = List.filter keep (take i final) ++ (if keep x then [x] else [])
        ++ List.filter keep (drop (S i) final).
Proof. intros Hi. by apply filter_at. Qed.

End Run.

(** C1 (amended). The candidate lots are the lots of the user and
    ingredient.  Whichever way the sort hands two lots to the comparator,
    the loop runs over the lots in the required unit first and the others
    after, the others in the order of the input inventory (ascending
    positions), and the lots actually deducted from follow the order of
    the loop.  When at most one candidate lot is in the required unit, the
    order is the same on either engine: that lot, then the others in the
    order of the input inventory.  With 500 ml and 1 cup in stock (in that
    order) and 0.5 cup required, the cup lot is reduced and the ml lot is
    left alone. *)
Theorem deductFromInventory_preference_order :
  (forall (engine : SortEngine) (iid req uid : string) (q : Q)
          (inv : list InventoryItem) (ms : list Measurement),
     let candidates := relevantItems iid uid inv in
     let exact := fun e => String.eqb (measurementId (item e)) req in
     let others := fun e => negb (exact e) in
     (forall e, e ∈ candidates
        <-> inv !! index e = Some (item e)
            /\ userId (item e) = uid /\ ingredientId (item e) = iid)
     /\ (exists first,
           first ≡ₚ List.filter exact candidates
           /\ sortedItemsOn engine iid req uid inv = first ++ List.filter others candidates)
     /\ StronglySorted lt (map index (List.filter exact candidates))
     /\ StronglySorted lt (map index (List.filter others candidates))
     /\ map lot (deductionsOn engine iid req q inv ms uid)
        `sublist_of` sortedItemsOn engine iid req uid inv
     /\ ((length (List.filter exact candidates) <= 1)%nat ->
         sortedItemsOn engine iid req uid inv
         = List.filter exact candidates ++ List.filter others candidates
         /\ deductFinalOn engine iid req q inv ms uid
            = deductLoop req ms
                (List.filter exact candidates ++ List.filter others candidates)
                {| loop_updatedInventory := inv; loop_deducted := [];
                   remainingToDeduct := q |}
         /\ map lot (deductionsOn engine iid req q inv ms uid)
            `sublist_of`
            List.filter exact candidates ++ List.filter others candidates))
  /\ (forall (iid req : string) (q : Q) (inv : list InventoryItem) (ms : list Measurement)
             (uid : string),
        deductFromInventoryOn placedFirst iid req q inv ms uid
        = deductFromInventory iid req q inv ms uid)
  /\ (forall engine : SortEngine,
        deductFromInventoryOn engine "X" "1" 0.5
          [ {| userId := "u"; ingredientId := "X"; quantity := 500; measurementId := "9" |};
            {| userId := "u"; ingredientId := "X"; quantity := 1; measurementId := "1" |} ]
          defaultMeasurements "u"
        = {| updatedInventory :=
               [ {| userId := "u"; ingredientId := "X"; quantity := 500; measurementId := "9" |};
                 {| userId := "u"; ingredientId := "X"; quantity := 0.5; measurementId := "1" |} ];
             deducted := [ {| d_measurementId := "1"; d_quantity := 0.5 |} ] |}).
Proof.
  split; [|split; [reflexivity|by intros []; vm_compute]].
  intros engine iid req uid q inv ms candidates exact others.
  split; [intros e; apply relevantItems_elem_of|].
  split.
  { rewrite sortedItemsOn_shape. fold candidates.
    destruct engine; eexists; (split; [|reflexivity]); [done|].
    symmetry. apply Permutation_rev. }
  split; [apply relevantItems_sorted|].
  split; [apply relevantItems_sorted|].
  split; [apply deductTrace_lots|].
  intros Hone.
  pose proof (sortedItemsOn_partition engine iid req uid inv Hone) as Hsorted.
  split; [exact Hsorted|]. split.
  - unfold deductFinalOn. by rewrite Hsorted.
  - pose proof (deductTrace_lots req ms (sortedItemsOn engine iid req uid inv)
                  {| loop_updatedInventory := inv; loop_deducted := [];
                     remainingToDeduct := q |}) as Hsub.
    rewrite Hsorted in Hsub at 2. exact Hsub.
Qed.

Lemma deductFromInventory_preference_order_witness :
  let inv :=
    [ {| userId := "u"; ingredientId := "X"; quantity := 500; measurementId := "9" |};
      {| userId := "v"; ingredientId := "X"; quantity := 3; measurementId := "1" |};
      {| userId := "u"; ingredientId := "X"; quantity := 1; measurementId := "1" |};
      {| userId := "u"; ingredientId := "X"; quantity := 2; measurementId := "15" |} ] in
  (length (List.filter (fun e => String.eqb (measurementId (item e)) "1")
             (relevantItems "X" "u" inv)) <= 1)%nat
  /\ map index (sortedItemsOn pivotFirst "X" "1" "u" inv) = [2; 0; 3]%nat
  /\ map index (sortedItemsOn placedFirst "X" "1" "u" inv) = [2; 0; 3]%nat.
Proof.
  intros inv.
  assert (Hone : (length (List.filter (fun e => String.eqb (measurementId (item e)) "1")
                            (relevantItems "X" "u" inv)) <= 1)%nat)
    by (vm_compute; lia).
  split; [exact Hone|]. split.
  - rewrite (proj1 (proj2 (proj2 (proj2 (proj2 (proj2
               (proj1 deductFromInventory_preference_order
                  pivotFirst "X" "1" "u" 0.5 inv defaultMeasurements))))) Hone)).
    reflexivity.
  - rewrite (proj1 (proj2 (proj2 (proj2 (proj2 (proj2
               (proj1 deductFromInventory_preference_order
                  placedFirst "X" "1" "u" 0.5 inv defaultMeasurements))))) Hone)).
    reflexivity.
Defined.

(** C1 as worded, for every call: with two lots in the required unit,
    1 cup and then 2 cups, and 0.5 cup required, the sort that hands the
    pivot over first runs the loop over the second lot first.  The lots in
    the required unit are not processed in the order of the input
    inventory, and the half cup is taken from the 2 cup lot. *)
Lemma deductFromInventory_exact_lots_reversed :
  let cup1 := {| userId := "u"; ingredientId := "X"; quantity := 1; measurementId := "1" |} in
  let cup2 := {| userId := "u"; ingredientId := "X"; quantity := 2; measurementId := "1" |} in
  sortedItemsOn pivotFirst "X" "1" "u" [cup1; cup2]
  = [ {| item := cup2; index := 1 |}; {| item := cup1; index := 0 |} ]
  /\ ~ StronglySorted lt
         (map index
            (List.filter (fun e => String.eqb (measurementId (item e)) "1")
               (sortedItemsOn pivotFirst "X" "1" "u" [cup1; cup2])))
  /\ deductFromInventoryOn pivotFirst "X" "1" 0.5 [cup1; cup2] defaultMeasurements "u"
     = {| updatedInventory :=
            [ cup1;
              {| userId := "u"; ingredientId := "X"; quantity := 1.5; measurementId := "1" |} ];
          deducted := [ {| d_measurementId := "1"; d_quantity := 0.5 |} ] |}
  /\ deductFromInventoryOn placedFirst "X" "1" 0.5 [cup1; cup2] defaultMeasurements "u"
     = {| updatedInventory :=
            [ {| userId := "u"; ingredientId := "X"; quantity := 0.5; measurementId := "1" |};
              cup2 ];
          deducted := [ {| d_measurementId := "1"; d_quantity := 0.5 |} ] |}.
Proof.
  intros cup1 cup2.
  split; [reflexivity|]. split; [|split; by vm_compute].
  intros Hs. vm_compute in Hs.
  apply StronglySorted_inv in Hs as [_ Hall].
  apply Forall_inv in Hall. lia.
Qed.

(** C2 (amended). For every lot a run deducts from, the amount deducted
    is the smaller of the lot's quantity and the remaining requirement
    converted into the lot's unit; the ledger lists exactly these amounts;
    the new quantity [quantity - toDeduct] is never negative; when it is
    greater than 0.001 the lot stays at its position with exactly that
    quantity, and when it is at most 0.001 the position is dropped from
    the returned inventory.  A lot brought down to 0.0005 is removed, one
    brought down to 0.01 is kept. *)
Theorem deductFromInventory_lot_update :
  (forall (iid req uid : string) (q : Q) (inv : list InventoryItem) (ms : list Measurement)
          (d : Deduction),
     d ∈ deductions iid req q inv ms uid ->
     let it := item (lot d) in
     let i := index (lot d) in
     let toDeduct := toDeductOf it (amountInItemUnit d) in
     let newQuantity := quantity it - toDeduct in
     let final := loop_updatedInventory (deductFinal iid req q inv ms uid) in
     let out := updatedInventory (deductFromInventory iid req q inv ms uid) in
     let keep := fun x : InventoryItem => Qneq_bool (quantity x) (-1) in
     inv !! i = Some it
     /\ convertMeasurement req (measurementId it) (remainingBefore d) ms
        = Some (amountInItemUnit d)
     /\ toDeduct <= quantity it /\ toDeduct <= amountInItemUnit d
     /\ (toDeduct = quantity it \/ toDeduct = amountInItemUnit d)
     /\ deducted (deductFromInventory iid req q inv ms uid)
        = map (fun d' => {| d_measurementId := measurementId (item (lot d'));
                            d_quantity := toDeductOf (item (lot d')) (amountInItemUnit d') |})
            (deductions iid req q inv ms uid)
     /\ 0 <= newQuantity
     /\ (0.001 < newQuantity ->
         out = List.filter keep (take i final)
               ++ withQuantity it newQuantity :: List.filter keep (drop (S i) final))
     /\ (newQuantity <= 0.001 ->
         out = List.filter keep (take i final) ++ List.filter keep (drop (S i) final)))
  /\ updatedInventory
       (deductFromInventory "X" "1" 1
          [ {| userId := "u"; ingredientId := "X"; quantity := 1.0005; measurementId := "1" |} ]
          defaultMeasurements "u") = []
  /\ updatedInventory
       (deductFromInventory "X" "1" 1
          [ {| userId := "u"; ingredientId := "X"; quantity := 1.01; measurementId := "1" |} ]
          defaultMeasurements "u")
     = [ {| userId := "u"; ingredientId := "X"; quantity := 0.01; measurementId := "1" |} ].
Proof.
  split; [|split; by vm_compute].
  intros iid req uid q inv ms d Hd it i toDeduct newQuantity final out keep.
  destruct (deductions_lot _ _ _ _ _ _ _ Hd) as (Hi & _ & _ & Hc & _).
  destruct (Math_min_spec (quantity it) (amountInItemUnit d)) as (Hq & Ha & Hmin).
  pose proof (deductions_written _ _ _ _ _ _ _ Hd) as Hw.
  pose proof (out_at iid req uid q inv ms _ _ Hw) as Hout.
  fold it i final out in Hw, Hout.
  repeat (split; [done || apply deducted_ledger || apply newQuantityOf_nonneg|]).
  split.
  - intros Hgt. rewrite Hout. unfold writtenRow.
    change (newQuantityOf it (amountInItemUnit d)) with newQuantity.
    rewrite (proj2 (Qgt_bool_iff _ _) Hgt). simpl.
    rewrite nonneg_kept; [done|]. apply Qlt_le_weak.
    eapply Qlt_trans; [|exact Hgt]. done.
  - intros Hle. rewrite Hout. unfold writtenRow.
    change (newQuantityOf it (amountInItemUnit d)) with newQuantity.
    by rewrite (proj2 (Qgt_bool_false_iff _ _) Hle).
Qed.

Lemma deductFromInventory_lot_update_witness :
  let inv :=
    [ {| userId := "u"; ingredientId := "X"; quantity := 1.01; measurementId := "1" |} ] in
  let d :=
    {| lot := {| item := {| userId := "u"; ingredientId := "X"; quantity := 1.01;
                            measurementId := "1" |};
                 index := 0 |};
       remainingBefore := 1; amountInItemUnit := 1 |} in
  d ∈ deductions "X" "1" 1 inv defaultMeasurements "u"
  /\ updatedInventory (deductFromInventory "X" "1" 1 inv defaultMeasurements "u")
     = [ withQuantity (item (lot d)) (quantity (item (lot d)) - 1) ].
Proof.
  intros inv d.
  assert (Hd : d ∈ deductions "X" "1" 1 inv defaultMeasurements "u")
    by (vm_compute; left).
  split; [exact Hd|].
  destruct (proj1 deductFromInventory_lot_update "X" "1" "u" 1 inv defaultMeasurements d Hd)
    as (_ & _ & _ & _ & _ & _ & _ & Hkept & _).
  apply Hkept. by vm_compute.
Defined.

(** The boundary of C2 as worded: a lot brought down to exactly 0.001,
    which is not below 0.001, is removed all the same. *)
Lemma deductFromInventory_epsilon_boundary :
  let inv :=
    [ {| userId := "u"; ingredientId := "X"; quantity := 0.002; measurementId := "1" |} ] in
  let d :=
    {| lot := {| item := {| userId := "u"; ingredientId := "X"; quantity := 0.002;
                            measurementId := "1" |};
                 index := 0 |};
       remainingBefore := 0.001; amountInItemUnit := 0.001 |} in
  let newQuantity :=
    quantity (item (lot d)) - toDeductOf (item (lot d)) (amountInItemUnit d) in
  deductions "X" "1" 0.001 inv defaultMeasurements "u" = [d]
  /\ newQuantity == 0.001
  /\ ~ newQuantity < 0.001
  /\ updatedInventory (deductFromInventory "X" "1" 0.001 inv defaultMeasurements "u") = []
  /\ withQuantity (item (lot d)) newQuantity
     ∉ updatedInventory (deductFromInventory "X" "1" 0.001 inv defaultMeasurements "u").
Proof.
  intros inv d newQuantity.
  split; [by vm_compute|]. split; [by vm_compute|]. split; [by vm_compute|].
  split; [by vm_compute|].
  assert (E : updatedInventory
                (deductFromInventory "X" "1" 0.001 inv defaultMeasurements "u") = [])
    by (by vm_compute).
  rewrite E. apply not_elem_of_nil.
Qed.

(** C3. On an inventory whose quantities are all non-negative, a lot the
    run never deducts from is found unchanged, at its position, in the
    returned inventory.  A lot of another user or ingredient, or one whose
    unit cannot be reached from the required unit, is never deducted
    from. *)
Theorem deductFromInventory_frame
    (iid req uid : string) (q : Q) (inv : list InventoryItem) (ms : list Measurement)
    (i : nat) (l : InventoryItem) :
  Forall (fun it => 0 <= quantity it) inv ->
  inv !! i = Some l ->
  let final := loop_updatedInventory (deductFinal iid req q inv ms uid) in
  let out := updatedInventory (deductFromInventory iid req q inv ms uid) in
  let keep := fun x : InventoryItem => Qneq_bool (quantity x) (-1) in
  (i ∉ deductedIndices iid req q inv ms uid ->
   final !! i = Some l
   /\ out = List.filter keep (take i final) ++ l :: List.filter keep (drop (S i) final)
   /\ l ∈ out)
  /\ (userId l <> uid \/ ingredientId l <> iid
      \/ convertMeasurement req (measurementId l) q ms = None ->
      i ∉ deductedIndices iid req q inv ms uid).
Proof.
  intros Hnonneg Hi final out keep. split.
  - intros Hun.
    assert (Hf : final !! i = Some l).
    { unfold final. by rewrite deductions_untouched. }
    assert (Hout : out = List.filter keep (take i final) ++ l
                         :: List.filter keep (drop (S i) final)).
    { unfold out. rewrite (out_at iid req uid q inv ms i l Hf).
      rewrite nonneg_kept; [done|].
      rewrite Forall_forall in Hnonneg. apply Hnonneg.
      by eapply list_elem_of_lookup_2. }
    split; [done|]. split; [done|].
    rewrite Hout. apply elem_of_app. right. left.
  - intros Hcause Hin.
    apply deductedIndices_elem_of in Hin as (d & Hd & <-).
    apply deductions_lot in Hd as (Hlot & Hu & Hing & Hc & _).
    assert (El : l = item (lot d)) by congruence. subst l.
    destruct Hcause as [H|[H|H]]; [done|done|].
    apply (convertMeasurement_None_quantity _ _ _ (remainingBefore d)) in H.
    congruence.
Qed.

Lemma deductFromInventory_frame_witness :
  let inv :=
    [ {| userId := "u"; ingredientId := "X"; quantity := 500; measurementId := "9" |};
      {| userId := "u"; ingredientId := "X"; quantity := 1; measurementId := "1" |};
      {| userId := "v"; ingredientId := "X"; quantity := 3; measurementId := "1" |};
      {| userId := "u"; ingredientId := "X"; quantity := 2; measurementId := "15" |} ] in
  ({| userId := "u"; ingredientId := "X"; quantity := 500; measurementId := "9" |}
     ∈ updatedInventory (deductFromInventory "X" "1" 0.5 inv defaultMeasurements "u"))
  /\ (2%nat ∉ deductedIndices "X" "1" 0.5 inv defaultMeasurements "u")
  /\ (3%nat ∉ deductedIndices "X" "1" 0.5 inv defaultMeasurements "u").
Proof.
  intros inv.
  assert (Hnonneg : Forall (fun it => 0 <= quantity it) inv)
    by (repeat constructor; by vm_compute).
  split; [|split].
  - apply (proj1 (deductFromInventory_frame "X" "1" "u" 0.5 inv defaultMeasurements 0 _
                    Hnonneg eq_refl)).
    vm_compute. intros H. inversion H as [|? ? ? H']; subst. inversion H'.
  - apply (proj2 (deductFromInventory_frame "X" "1" "u" 0.5 inv defaultMeasurements 2 _
                    Hnonneg eq_refl)).
    left. discriminate.
  - apply (proj2 (deductFromInventory_frame "X" "1" "u" 0.5 inv defaultMeasurements 3 _
                    Hnonneg eq_refl)).
    right. right. reflexivity.
Defined.

(** C4. [deductFromInventory] has no failure outcome: for every input it
    returns the working array without the marked rows, and the ledger,
    and drops [remainingToDeduct].  A requirement that the stock cannot
    cover leaves [remainingToDeduct] positive behind the same kind of
    result.  When the lot's unit converts from the required unit but not
    back, the iteration still rewrites the lot and adds the ledger row
    [{lot unit, toDeduct}], and [remainingToDeduct] keeps its value. *)
Theorem deductFromInventory_under_deduction :
  (forall (iid req uid : string) (q : Q) (inv : list InventoryItem) (ms : list Measurement),
     deductFromInventory iid req q inv ms uid
     = {| updatedInventory :=
            List.filter (fun x => Qneq_bool (quantity x) (-1))
              (loop_updatedInventory (deductFinal iid req q inv ms uid));
          deducted := map ledgerRow (deductions iid req q inv ms uid) |}
     /\ length (loop_updatedInventory (deductFinal iid req q inv ms uid)) = length inv)
  /\ (forall (iid req uid : string) (q : Q) (inv : list InventoryItem) (ms : list Measurement),
        relevantItems iid uid inv = [] ->
        deductFinal iid req q inv ms uid
        = {| loop_updatedInventory := inv; loop_deducted := [];
             remainingToDeduct := q |})
  /\ (remainingToDeduct
        (deductFinal "X" "1" 2
           [ {| userId := "u"; ingredientId := "X"; quantity := 1; measurementId := "1" |} ]
           defaultMeasurements "u") == 1
      /\ deductFromInventory "X" "1" 2
           [ {| userId := "u"; ingredientId := "X"; quantity := 1; measurementId := "1" |} ]
           defaultMeasurements "u"
         = {| updatedInventory := [];
              deducted := [ {| d_measurementId := "1"; d_quantity := 1 |} ] |})
  /\ (forall (req : string) (ms : list Measurement) (e : Indexed) (rest : list Indexed)
             (st : LoopState) (amount : Q),
        0 < remainingToDeduct st ->
        convertMeasurement req (measurementId (item e)) (remainingToDeduct st) ms
        = Some amount ->
        convertMeasurement (measurementId (item e)) req (toDeductOf (item e) amount) ms
        = None ->
        let st' := deductStep req ms e amount st in
        deductLoop req ms (e :: rest) st = deductLoop req ms rest st'
        /\ remainingToDeduct st' = remainingToDeduct st
        /\ loop_deducted st'
           = loop_deducted st
             ++ [ {| d_measurementId := measurementId (item e);
                     d_quantity := Math_min (quantity (item e)) amount |} ]
        /\ loop_updatedInventory st'
           = <[index e := writtenRow (item e) amount]> (loop_updatedInventory st))
  /\ deductFinal "X" "a" 3
       [ {| userId := "u"; ingredientId := "X"; quantity := 10; measurementId := "b" |} ]
       [ {| m_id := "a"; m_name := "a"; conversions := [conv "b" 2] |};
         {| m_id := "b"; m_name := "b"; conversions := [] |} ]
       "u"
     = {| loop_updatedInventory :=
            [ {| userId := "u"; ingredientId := "X"; quantity := 10 - 3 * 2;
                 measurementId := "b" |} ];
          loop_deducted := [ {| d_measurementId := "b"; d_quantity := 3 * 2 |} ];
          remainingToDeduct := 3 |}.
Proof.
  split; [|split; [|split; [|split]]].
  - intros iid req uid q inv ms. split.
    + unfold deductFromInventory. f_equal.
      apply (deducted_ledger iid req uid q inv ms).
    + apply deductLoop_length.
  - intros iid req uid q inv ms Hnone.
    unfold deductFinal, sortedItems. by rewrite Hnone.
  - split; by vm_compute.
  - intros req ms e rest st amount Hpos Hfwd Hback st'.
    split; [|split; [|split]].
    + simpl. destruct (Qle_bool (remainingToDeduct st) 0) eqn:Hle.
      * apply Qle_bool_iff in Hle. exfalso. exact (Qlt_not_le _ _ Hpos Hle).
      * by rewrite Hfwd.
    + unfold st', deductStep. simpl. by rewrite Hback.
    + reflexivity.
    + apply deductStep_inventory.
  - by vm_compute.
Qed.

Lemma deductFromInventory_under_deduction_witness :
  let ms :=
    [ {| m_id := "a"; m_name := "a"; conversions := [conv "b" 2] |};
      {| m_id := "b"; m_name := "b"; conversions := [] |} ] in
  let it := {| userId := "u"; ingredientId := "X"; quantity := 10; measurementId := "b" |} in
  let st := {| loop_updatedInventory := [it]; loop_deducted := [];
               remainingToDeduct := 3 |} in
  remainingToDeduct (deductStep "a" ms {| item := it; index := 0 |} (3 * 2) st) = 3
  /\ deductFinal "X" "1" 2
       [ {| userId := "v"; ingredientId := "X"; quantity := 1; measurementId := "1" |} ]
       defaultMeasurements "u"
     = {| loop_updatedInventory :=
            [ {| userId := "v"; ingredientId := "X"; quantity := 1; measurementId := "1" |} ];
          loop_deducted := []; remainingToDeduct := 2 |}.
Proof.
  intros ms it st. split.
  - refine (proj1 (proj2 (proj1 (proj2 (proj2 (proj2 deductFromInventory_under_deduction)))
                            "a" ms {| item := it; index := 0 |} [] st (3 * 2) _ _ _))).
    + by vm_compute.
    + reflexivity.
    + reflexivity.
  - apply (proj1 (proj2 deductFromInventory_under_deduction)). reflexivity.
Defined.

(** ** Sufficiency and deduction disagree on whose lots count *)

Lemma totalLoop_owner (target : string) (ms : list Measurement)
    (owner : InventoryItem -> string) (items : list InventoryItem) (total : Q) :
  totalLoop target ms (map (fun it => withUserId (owner it) it) items) total
  = totalLoop target ms items total.
Proof.
  revert total. induction items as [|it rest IH]; intros total; simpl; [done|].
  destruct (convertMeasurement _ _ _ _); apply IH.
Qed.

Lemma totalLoop_app (target : string) (ms : list Measurement)
    (items1 items2 : list InventoryItem) (total : Q) :
  totalLoop target ms (items1 ++ items2) total
  = totalLoop target ms items2 (totalLoop target ms items1 total).
Proof.
  revert total. induction items1 as [|it rest IH]; intros total; simpl; [done|].
  destruct (convertMeasurement _ _ _ _); apply IH.
Qed.

Lemma relevantItems_nobody (iid uid : string) (inv : list InventoryItem) :
  (forall l, l ∈ inv -> userId l <> uid) -> relevantItems iid uid inv = [].
Proof.
  intros Hother. destruct (relevantItems iid uid inv) as [|e rest] eqn:E; [done|].
  assert (He : e ∈ relevantItems iid uid inv) by (rewrite E; left).
  apply relevantItems_elem_of in He as (Hi & Hu & _).
  exfalso. apply (Hother (item e)); [|done]. by eapply list_elem_of_lookup_2.
Qed.

Lemma nonneg_all_kept (inv : list InventoryItem) :
  Forall (fun it => 0 <= quantity it) inv ->
  List.filter (fun it => Qneq_bool (quantity it) (-1)) inv = inv.
Proof.
  induction 1 as [|it rest Hit _ IH]; simpl; [done|].
  by rewrite (nonneg_kept _ Hit), IH.
Qed.

(** C10. The sufficiency check compares the requirement with the total,
    and the total is accumulated over the lots that carry the ingredient,
    whoever owns them: it starts at 0, a lot of the ingredient added to
    the inventory adds its converted quantity (nothing when there is no
    conversion) whatever its owner, and reassigning owners changes
    neither the total nor the answer.  The deduction only ever
    takes from lots of the user it is given.  So when none of the lots is
    the requesting user's and the lots of the others cover the
    requirement, [hasEnoughInventory] answers true while the deduction
    finds nothing to take, ends with the whole requirement open and
    returns the inventory as it was; so it is with 500 ml held by another
    user and a quarter litre required. *)
Theorem sufficiency_not_user_scoped :
  (forall (iid unit : string) (req : Q) (inv : list InventoryItem) (ms : list Measurement),
     hasEnoughInventory iid unit req inv ms
     = {| hasEnough := Qle_bool req (getTotalInventoryInUnit iid unit inv ms);
          available := getTotalInventoryInUnit iid unit inv ms |}
     /\ getTotalInventoryInUnit iid unit inv ms
        = totalLoop unit ms
            (List.filter (fun it => String.eqb (ingredientId it) iid) inv) 0)
  /\ (forall (iid unit : string) (inv : list InventoryItem) (ms : list Measurement)
             (l : InventoryItem),
        getTotalInventoryInUnit iid unit [] ms = 0
        /\ getTotalInventoryInUnit iid unit (inv ++ [l]) ms
           = if String.eqb (ingredientId l) iid
             then match convertMeasurement (measurementId l) unit (quantity l) ms with
                  | Some converted => getTotalInventoryInUnit iid unit inv ms + converted
                  | None => getTotalInventoryInUnit iid unit inv ms
                  end
             else getTotalInventoryInUnit iid unit inv ms)
  /\ (forall (iid unit : string) (req : Q) (inv : list InventoryItem) (ms : list Measurement)
             (owner : InventoryItem -> string),
        getTotalInventoryInUnit iid unit (map (fun it => withUserId (owner it) it) inv) ms
        = getTotalInventoryInUnit iid unit inv ms
        /\ hasEnoughInventory iid unit req (map (fun it => withUserId (owner it) it) inv) ms
           = hasEnoughInventory iid unit req inv ms)
  /\ (forall (iid req uid : string) (q : Q) (inv : list InventoryItem) (ms : list Measurement)
             (d : Deduction),
        d ∈ deductions iid req q inv ms uid -> userId (item (lot d)) = uid)
  /\ (forall (iid req uid : string) (q : Q) (inv : list InventoryItem) (ms : list Measurement),
        (forall l, l ∈ inv -> userId l <> uid) ->
        Forall (fun it => 0 <= quantity it) inv ->
        0 < q ->
        q <= getTotalInventoryInUnit iid req inv ms ->
        hasEnough (hasEnoughInventory iid req q inv ms) = true
        /\ remainingToDeduct (deductFinal iid req q inv ms uid) = q
        /\ 0 < remainingToDeduct (deductFinal iid req q inv ms uid)
        /\ deductFromInventory iid req q inv ms uid
           = {| updatedInventory := inv; deducted := [] |})
  /\ (let inv :=
        [ {| userId := "v"; ingredientId := "X"; quantity := 500; measurementId := "9" |} ] in
      hasEnoughInventory "X" "8" 0.25 inv defaultMeasurements
      = {| hasEnough := true; available := 500 * 0.001 |}
      /\ 0 < remainingToDeduct (deductFinal "X" "8" 0.25 inv defaultMeasurements "u")
      /\ deductFromInventory "X" "8" 0.25 inv defaultMeasurements "u"
         = {| updatedInventory := inv; deducted := [] |}).
Proof.
  assert (Htotal : forall iid unit inv ms (owner : InventoryItem -> string),
    getTotalInventoryInUnit iid unit (map (fun it => withUserId (owner it) it) inv) ms
    = getTotalInventoryInUnit iid unit inv ms).
  { intros. unfold getTotalInventoryInUnit.
    rewrite filter_map_swap. simpl. apply totalLoop_owner. }
  split; [done|]. split; [|split; [|split; [|split]]].
  - intros iid unit inv ms l. split; [reflexivity|].
    unfold getTotalInventoryInUnit. rewrite List.filter_app, totalLoop_app. simpl.
    destruct (String.eqb (ingredientId l) iid); simpl; [|reflexivity].
    by destruct (convertMeasurement _ _ _ _).
  - intros. split; [apply Htotal|].
    unfold hasEnoughInventory. by rewrite Htotal.
  - intros iid req uid q inv ms d Hd.
    by apply deductions_lot in Hd as (_ & ? & _).
  - intros iid req uid q inv ms Hother Hnonneg Hq Hcovered.
    split; [by apply Qle_bool_iff|].
    unfold deductFromInventory, deductFinal, sortedItems.
    rewrite (relevantItems_nobody iid uid inv Hother). simpl.
    split; [done|]. split; [done|].
    by rewrite (nonneg_all_kept inv Hnonneg).
  - intros inv. split; [by vm_compute|]. split; by vm_compute.
Qed.

Lemma sufficiency_not_user_scoped_witness :
  let inv :=
    [ {| userId := "v"; ingredientId := "X"; quantity := 500; measurementId := "9" |};
      {| userId := "w"; ingredientId := "X"; quantity := 1; measurementId := "8" |} ] in
  hasEnough (hasEnoughInventory "X" "8" 1.25 inv defaultMeasurements) = true
  /\ remainingToDeduct (deductFinal "X" "8" 1.25 inv defaultMeasurements "u") = 1.25
  /\ 0 < remainingToDeduct (deductFinal "X" "8" 1.25 inv defaultMeasurements "u")
  /\ deductFromInventory "X" "8" 1.25 inv defaultMeasurements "u"
     = {| updatedInventory := inv; deducted := [] |}.
Proof.
  intros inv.
  apply (proj1 (proj2 (proj2 (proj2 (proj2 sufficiency_not_user_scoped))))
           "X" "8" "u" 1.25 inv defaultMeasurements).
  - intros l Hl. apply elem_of_cons in Hl as [->|Hl]; [discriminate|].
    apply elem_of_cons in Hl as [->|Hl]; [discriminate|].
    by apply elem_of_nil in Hl.
  - repeat constructor; by vm_compute.
  - by vm_compute.
  - by vm_compute.
Defined.

(** ** Cooking sessions *)

Lemma strictEq_eq (a b : option string) : strictEq a b = true <-> a = b.
Proof.
  destruct a as [x|], b as [y|]; simpl; try (split; congruence).
  rewrite String.eqb_eq. split; congruence.
Qed.

Lemma activeFor_iff (r u : option string) (s : CookingSession) :
  activeFor r u s = true
  <-> Some (s_recipeId s) = r /\ s_userId s = u /\ status s = active.
Proof.
  unfold activeFor. rewrite !andb_true_iff, !strictEq_eq.
  destruct (status s); simpl; split; intros [[? ?] ?] || intros (? & ? & ?); done.
Qed.

Lemma find_none_filter {A : Type} (p : A -> bool) (l : list A) :
  List.find p l = None -> List.filter p l = [].
Proof.
  induction l as [|x l IH]; simpl; [done|].
  destruct (p x); [done|exact IH].
Qed.

Lemma find_elem_of {A : Type} (p : A -> bool) (l : list A) (x : A) :
  List.find p l = Some x -> x ∈ l /\ p x = true.
Proof. intros H. apply find_some in H as [H ?]. by apply list_elem_of_In in H. Qed.

Lemma map_lookup {A B : Type} (f : A -> B) (l : list A) (i : nat) (x : A) :
  l !! i = Some x -> map f l !! i = Some (f x).
Proof.
  intros H. change (map f l) with (f <$> l). by rewrite list_lookup_fmap, H.
Qed.

Lemma filter_map_le {A : Type} (p : A -> bool) (f : A -> A) (l : list A) :
  (forall x, x ∈ l -> p (f x) = true -> p x = true) ->
  (length (List.filter p (map f l)) <= length (List.filter p l))%nat.
Proof.
  induction l as [|x l IH]; intros H; simpl; [done|].
  assert (IH' : (length (List.filter p (map f l)) <= length (List.filter p l))%nat).
  { apply IH. intros y Hy. apply H. by right. }
  destruct (p (f x)) eqn:E.
  - rewrite (H x) by (done || left). simpl. lia.
  - destruct (p x); simpl; lia.
Qed.

Lemma same_id_same_session (l : list CookingSession) (s1 s2 : CookingSession) :
  uniqueIds l -> s1 ∈ l -> s2 ∈ l -> s_id s1 = s_id s2 -> s1 = s2.
Proof.
  unfold uniqueIds. change (map s_id l) with (s_id <$> l).
  intros Hnd [i Hi]%list_elem_of_lookup [j Hj]%list_elem_of_lookup Hid.
  assert (i = j).
  { eapply NoDup_lookup; [exact Hnd| |].
    - by rewrite list_lookup_fmap, Hi.
    - by rewrite list_lookup_fmap, Hj, Hid. }
  subst j. congruence.
Qed.

(** Rewriting sessions in place, without changing an id and without
    making a session active, keeps the two invariants. *)
Lemma sessions_map_invariant (f : CookingSession -> CookingSession)
    (l : list CookingSession) :
  (forall s, s ∈ l -> s_id (f s) = s_id s) ->
  (forall r u s, s ∈ l -> activeFor r u (f s) = true -> activeFor r u s = true) ->
  uniqueIds l /\ atMostOneActive l ->
  uniqueIds (map f l) /\ atMostOneActive (map f l).
Proof.
  intros Hid Hact [Hu Ha]. split.
  - unfold uniqueIds in *. rewrite map_map.
    rewrite (map_ext_in _ s_id); [done|].
    intros s Hs. apply Hid. by apply list_elem_of_In.
  - intros r u. unfold activeCount.
    etransitivity; [|apply (Ha r u)].
    apply filter_map_le. intros s Hs. by apply Hact.
Qed.

Lemma handleStartCooking_invariant (recipeId newId : string) (st : AppState) :
  newId ∉ map s_id (cookingSessions (data st)) ->
  uniqueIds (cookingSessions (data st)) /\ atMostOneActive (cookingSessions (data st)) ->
  uniqueIds (cookingSessions (data (handleStartCooking recipeId newId st)))
  /\ atMostOneActive (cookingSessions (data (handleStartCooking recipeId newId st))).
Proof.
  intros Hfresh [Hu Ha]. unfold handleStartCooking.
  destruct (List.find _ (recipes (data st))) as [recipe|]; [|done].
  destruct (List.find _ (cookingSessions (data st))) as [existing|] eqn:Hfind; [done|].
  simpl. split.
  - unfold uniqueIds in *. rewrite map_app. simpl.
    apply NoDup_app. split; [done|]. split.
    + intros x Hx [->|[]%elem_of_nil]%elem_of_cons. done.
    + apply NoDup_singleton.
  - intros r u. unfold activeCount. rewrite List.filter_app, length_app. simpl.
    destruct (activeFor (Some r) u _) eqn:E; simpl.
    + apply activeFor_iff in E as ([= <-] & <- & _). simpl.
      by rewrite (find_none_filter _ _ Hfind).
    + specialize (Ha r u). unfold activeCount in Ha. lia.
Qed.

Lemma cookModeUpdate_invariant (sz : Q) (ic sc : list nat) (st : AppState) :
  uniqueIds (cookingSessions (data st)) /\ atMostOneActive (cookingSessions (data st)) ->
  uniqueIds (cookingSessions (data (cookModeUpdate sz ic sc st)))
  /\ atMostOneActive (cookingSessions (data (cookModeUpdate sz ic sc st))).
Proof.
  intros Hinv. unfold cookModeUpdate, cookingSession.
  destruct (List.find _ _) as [session|] eqn:Hfind; [|done].
  apply find_elem_of in Hfind as [Hin _]. simpl.
  apply sessions_map_invariant; [| |done].
  - intros s Hs. simpl. destruct (String.eqb_spec (s_id s) (s_id session)); done.
  - intros r u s Hs. simpl.
    destruct (String.eqb_spec (s_id s) (s_id session)) as [E|_]; [|done].
    rewrite (same_id_same_session _ s session (proj1 Hinv) Hs Hin E).
    rewrite !activeFor_iff. done.
Qed.

Lemma withStatus_invariant (session : CookingSession) (status' : SessionStatus)
    (l : list CookingSession) :
  status' <> active ->
  uniqueIds l /\ atMostOneActive l ->
  uniqueIds (map (fun s => if String.eqb (s_id s) (s_id session)
                           then withStatus s status' else s) l)
  /\ atMostOneActive (map (fun s => if String.eqb (s_id s) (s_id session)
                                    then withStatus s status' else s) l).
Proof.
  intros Hst. apply sessions_map_invariant.
  - intros s _. by destruct (String.eqb _ _).
  - intros r u s _. destruct (String.eqb _ _); [|done].
    rewrite activeFor_iff. simpl. intros (_ & _ & ?). done.
Qed.

Lemma handleCompleteCooking_invariant (st : AppState) :
  uniqueIds (cookingSessions (data st)) /\ atMostOneActive (cookingSessions (data st)) ->
  uniqueIds (cookingSessions (data (handleCompleteCooking st)))
  /\ atMostOneActive (cookingSessions (data (handleCompleteCooking st))).
Proof.
  intros Hinv. unfold handleCompleteCooking. simpl.
  destruct (List.find _ (cookingSessions (data st))) as [session|]; [|done].
  destruct (List.find _ (recipes (data st))) as [recipe|]; [|done].
  destruct (currentUserId (data st)) as [uid|] eqn:Hcur; [|done].
  destruct (truthy (Some uid)); [|done]. simpl.
  by apply withStatus_invariant.
Qed.

Lemma handleCancelCooking_invariant (st : AppState) :
  uniqueIds (cookingSessions (data st)) /\ atMostOneActive (cookingSessions (data st)) ->
  uniqueIds (cookingSessions (data (handleCancelCooking st)))
  /\ atMostOneActive (cookingSessions (data (handleCancelCooking st))).
Proof.
  intros Hinv. unfold handleCancelCooking. simpl.
  destruct (List.find _ (cookingSessions (data st))) as [session|]; [|done].
  simpl. by apply withStatus_invariant.
Qed.

Lemma step_invariant (st st' : AppState) :
  step st st' ->
  uniqueIds (cookingSessions (data st)) /\ atMostOneActive (cookingSessions (data st)) ->
  uniqueIds (cookingSessions (data st')) /\ atMostOneActive (cookingSessions (data st')).
Proof.
  destruct 1.
  - by apply handleStartCooking_invariant.
  - apply cookModeUpdate_invariant.
  - apply handleCompleteCooking_invariant.
  - apply handleCancelCooking_invariant.
  - done.
Qed.

Lemma reachable_invariant (init st : AppState) :
  reachable init st ->
  uniqueIds (cookingSessions (data init)) /\ atMostOneActive (cookingSessions (data init)) ->
  uniqueIds (cookingSessions (data st)) /\ atMostOneActive (cookingSessions (data st)).
Proof.
  induction 1 as [|st st' _ IH Hstep]; intros Hinit; [done|].
  eapply step_invariant; [exact Hstep|]. by apply IH.
Qed.

(** C6. Starting to cook while the pair has an active session changes no
    data: no session is added and the stored one keeps its checklists and
    serving size.  Starting from sessions with distinct ids and at most
    one active session per (recipe, user), every state reached by
    starting (with a fresh id), updating from cook mode, completing,
    cancelling, logging in or out and navigating has at most one active
    session per pair.  Starting twice in a row leaves exactly one. *)
Theorem session_singleton :
  (forall (recipeId newId : string) (st : AppState) (existing : CookingSession),
     List.find (activeFor (Some recipeId) (currentUserId (data st)))
       (cookingSessions (data st)) = Some existing ->
     data (handleStartCooking recipeId newId st) = data st
     /\ existing ∈ cookingSessions (data (handleStartCooking recipeId newId st)))
  /\ (forall (init st : AppState),
        uniqueIds (cookingSessions (data init)) ->
        atMostOneActive (cookingSessions (data init)) ->
        reachable init st ->
        atMostOneActive (cookingSessions (data st)))
  /\ (forall (recipeId id1 id2 : string) (st : AppState) (recipe : Recipe),
        List.find (fun r => String.eqb (r_id r) recipeId) (recipes (data st)) = Some recipe ->
        atMostOneActive (cookingSessions (data st)) ->
        let st1 := handleStartCooking recipeId id1 st in
        activeCount recipeId (currentUserId (data st)) (cookingSessions (data st1)) = 1%nat
        /\ data (handleStartCooking recipeId id2 st1) = data st1).
Proof.
  assert (Hresume : forall recipeId newId st existing,
    List.find (activeFor (Some recipeId) (currentUserId (data st)))
      (cookingSessions (data st)) = Some existing ->
    data (handleStartCooking recipeId newId st) = data st).
  { intros recipeId newId st existing Hfind. unfold handleStartCooking.
    destruct (List.find _ (recipes (data st))); [|done].
    by rewrite Hfind. }
  split; [|split].
  - intros recipeId newId st existing Hfind.
    split; [by eapply Hresume|].
    rewrite (Hresume _ _ _ _ Hfind). by apply find_elem_of in Hfind as [? _].
  - intros init st Hu Ha Hreach.
    by apply (reachable_invariant init st Hreach).
  - intros recipeId id1 id2 st recipe Hrecipe Ha st1.
    assert (Hcount : activeCount recipeId (currentUserId (data st))
                       (cookingSessions (data st1)) = 1%nat).
    { unfold st1, handleStartCooking. rewrite Hrecipe.
      destruct (List.find _ (cookingSessions (data st))) as [existing|] eqn:Hfind; simpl.
      - specialize (Ha recipeId (currentUserId (data st))).
        unfold activeCount in *.
        apply find_elem_of in Hfind as [Hin Hact].
        assert (Hin' : existing ∈ List.filter
                         (activeFor (Some recipeId) (currentUserId (data st)))
                         (cookingSessions (data st)))
          by by apply filter_elem_of.
        destruct (List.filter _ _); [by apply elem_of_nil in Hin'|].
        simpl in *. lia.
      - unfold activeCount. rewrite List.filter_app, length_app.
        rewrite (find_none_filter _ _ Hfind). simpl.
        unfold activeFor. simpl. rewrite String.eqb_refl.
        rewrite (proj2 (strictEq_eq _ _) eq_refl). done. }
    split; [done|].
    assert (Hcur : currentUserId (data st1) = currentUserId (data st)).
    { unfold st1, handleStartCooking. rewrite Hrecipe.
      by destruct (List.find _ (cookingSessions (data st))). }
    destruct (List.find (activeFor (Some recipeId) (currentUserId (data st1)))
                (cookingSessions (data st1))) as [existing|] eqn:Hfind.
    + by eapply Hresume.
    + apply find_none_filter in Hfind. rewrite Hcur in Hfind.
      unfold activeCount in Hcount. by rewrite Hfind in Hcount.
Qed.

Lemma session_singleton_witness :
  let recipe :=
    {| r_id := "r1"; r_userId := "u"; r_name := "bread"; r_description := "";
       servings := 4;
       ingredients := [ {| ri_ingredientId := "flour"; ri_quantity := 2;
                           ri_measurementId := "1" |} ];
       instructions := ["mix"; "bake"]; viewCount := 0; cookCount := 0;
       createdAt := 0 |} in
  let init :=
    {| data := {| recipes := [recipe]; measurements := defaultMeasurements;
                  inventory := []; cookingSessions := []; currentUserId := Some "u" |};
       currentView := view_dashboard; selectedRecipeId := None |} in
  let st :=
    handleStartCooking "r1" "s2"
      (cookModeUpdate 2 [0%nat] [] (handleStartCooking "r1" "s1" init)) in
  atMostOneActive (cookingSessions (data st))
  /\ cookingSessions (data st)
     = [ {| s_id := "s1"; s_recipeId := "r1"; s_userId := Some "u";
            ingredientsChecked := [0%nat]; stepsChecked := []; servingSize := 2;
            status := active |} ].
Proof.
  intros recipe init st. split; [|reflexivity].
  apply (proj1 (proj2 session_singleton) init st).
  - constructor.
  - intros r u. unfold activeCount. simpl. lia.
  - unfold st.
    eapply reachable_step; [eapply reachable_step; [eapply reachable_step|]|].
    + apply reachable_init.
    + apply (step_start "r1" "s1"). simpl. apply not_elem_of_nil.
    + apply step_update.
    + apply (step_start "r1" "s2"). vm_compute.
      intros H. inversion H as [|? ? ? H']; subst. inversion H'.
Defined.

(** C5. When the selected recipe exists, a user is logged in and the
    pair has an active session, completing scales by
    [servingSize / servings], runs the deduction for each ingredient in
    turn on the inventory the previous one returned, marks the session
    completed and adds one to the recipe's cook count, leaving the other
    sessions and recipes as they were.  When the pair has no active
    session, completing and cancelling leave the data as it is; with at
    most one active session per pair, that is the case right after a
    completion. *)
Theorem handleCompleteCooking_effects :
  (forall (st : AppState) (session : CookingSession) (recipe : Recipe) (uid : string),
     cookingSession st = Some session ->
     List.find (fun r => strictEq (Some (r_id r)) (selectedRecipeId st))
       (recipes (data st)) = Some recipe ->
     currentUserId (data st) = Some uid ->
     uid <> "" ->
     let st' := handleCompleteCooking st in
     let scalingFactor := servingSize session / servings recipe in
     inventory (data st')
     = fold_left
         (fun inv ing =>
            updatedInventory
              (deductFromInventory (ri_ingredientId ing) (ri_measurementId ing)
                 (ri_quantity ing * scalingFactor) inv (measurements (data st)) uid))
         (ingredients recipe) (inventory (data st))
     /\ (forall i s, cookingSessions (data st) !! i = Some s ->
           cookingSessions (data st') !! i
           = Some (if String.eqb (s_id s) (s_id session) then withStatus s completed else s))
     /\ withStatus session completed ∈ cookingSessions (data st')
     /\ (forall i r, recipes (data st) !! i = Some r ->
           recipes (data st') !! i
           = Some (if String.eqb (r_id r) (r_id recipe) then cooked r else r))
     /\ cooked recipe ∈ recipes (data st')
     /\ cookCount (cooked recipe) = (cookCount recipe + 1)%Z
     /\ measurements (data st') = measurements (data st)
     /\ currentUserId (data st') = currentUserId (data st)
     /\ selectedRecipeId st' = selectedRecipeId st
     /\ (atMostOneActive (cookingSessions (data st)) ->
         cookingSession st' = None
         /\ data (handleCompleteCooking st') = data st'
         /\ data (handleCancelCooking st') = data st'))
  /\ (forall (st : AppState),
        cookingSession st = None ->
        data (handleCompleteCooking st) = data st
        /\ data (handleCancelCooking st) = data st).
Proof.
  assert (Hidle : forall st, cookingSession st = None ->
    data (handleCompleteCooking st) = data st
    /\ data (handleCancelCooking st) = data st).
  { intros st Hnone. unfold cookingSession in Hnone.
    unfold handleCompleteCooking, handleCancelCooking. simpl. by rewrite Hnone. }
  split; [|exact Hidle].
  intros st session recipe uid Hsession Hrecipe Hcur Huid st' scalingFactor.
  unfold cookingSession in Hsession.
  assert (Hsel : selectedRecipeId st = Some (r_id recipe)).
  { apply find_elem_of in Hrecipe as [_ E]. by apply strictEq_eq in E. }
  assert (Hdata : data st'
    = {| recipes := map (fun r => if strictEq (Some (r_id r)) (selectedRecipeId st)
                                  then cooked r else r) (recipes (data st));
         measurements := measurements (data st);
         inventory := deductIngredients scalingFactor (measurements (data st)) uid
                        (ingredients recipe) (inventory (data st));
         cookingSessions := map (fun s => if String.eqb (s_id s) (s_id session)
                                          then withStatus s completed else s)
                              (cookingSessions (data st));
         currentUserId := currentUserId (data st) |}).
  { unfold st', handleCompleteCooking. cbv zeta. cbn [data].
    rewrite Hsession, Hrecipe, Hcur. cbn [truthy].
    destruct (String.eqb_spec uid ""); [done|]. reflexivity. }
  assert (Hsessions : forall i s, cookingSessions (data st) !! i = Some s ->
    cookingSessions (data st') !! i
    = Some (if String.eqb (s_id s) (s_id session) then withStatus s completed else s)).
  { intros i s Hi. rewrite Hdata. simpl.
    by apply (map_lookup (fun s => if String.eqb (s_id s) (s_id session)
                                   then withStatus s completed else s)). }
  assert (Hrecipes : forall i r, recipes (data st) !! i = Some r ->
    recipes (data st') !! i
    = Some (if String.eqb (r_id r) (r_id recipe) then cooked r else r)).
  { intros i r Hi. rewrite Hdata. simpl.
    rewrite (map_lookup _ _ _ _ Hi). rewrite Hsel. reflexivity. }
  split; [by rewrite Hdata|].
  split; [exact Hsessions|].
  split.
  { apply find_elem_of in Hsession as [[i Hi]%list_elem_of_lookup _].
    apply list_elem_of_lookup. exists i.
    rewrite (Hsessions _ _ Hi). by rewrite String.eqb_refl. }
  split; [exact Hrecipes|].
  split.
  { apply find_elem_of in Hrecipe as [[i Hi]%list_elem_of_lookup _].
    apply list_elem_of_lookup. exists i.
    rewrite (Hrecipes _ _ Hi). by rewrite String.eqb_refl. }
  split; [reflexivity|].
  split; [by rewrite Hdata|].
  split; [by rewrite Hdata|].
  split; [reflexivity|].
  intros Hone.
  assert (Hnone : cookingSession st' = None).
  { unfold cookingSession.
    destruct (List.find _ (cookingSessions (data st'))) as [s'|] eqn:Hfind; [|done].
    exfalso. apply find_elem_of in Hfind as [Hin Hact].
    replace (selectedRecipeId st') with (selectedRecipeId st) in Hact by reflexivity.
    rewrite Hdata in Hin, Hact. simpl in Hin, Hact.
    change (map ?f ?l) with (f <$> l) in Hin.
    apply list_elem_of_fmap in Hin as (s & -> & Hs).
    destruct (String.eqb_spec (s_id s) (s_id session)) as [E|Hne].
    { apply activeFor_iff in Hact as (_ & _ & ?). done. }
    apply find_elem_of in Hsession as [Hin0 Hact0].
    rewrite Hsel in Hact, Hact0.
    specialize (Hone (r_id recipe) (currentUserId (data st))).
    unfold activeCount in Hone.
    assert (H1 : s ∈ List.filter (activeFor (Some (r_id recipe)) (currentUserId (data st)))
                   (cookingSessions (data st))) by by apply filter_elem_of.
    assert (H2 : session ∈ List.filter
                   (activeFor (Some (r_id recipe)) (currentUserId (data st)))
                   (cookingSessions (data st))) by by apply filter_elem_of.
    destruct (List.filter _ _) as [|a [|b rest]]; simpl in Hone.
    - by apply elem_of_nil in H1.
    - apply list_elem_of_singleton in H1, H2. congruence.
    - lia. }
  split; [done|]. by apply Hidle.
Qed.

Lemma handleCompleteCooking_effects_witness :
  let recipe :=
    {| r_id := "r1"; r_userId := "u"; r_name := "bread"; r_description := "";
       servings := 4;
       ingredients := [ {| ri_ingredientId := "flour"; ri_quantity := 2;
                           ri_measurementId := "1" |} ];
       instructions := ["mix"; "bake"]; viewCount := 0; cookCount := 0;
       createdAt := 0 |} in
  let session :=
    {| s_id := "s1"; s_recipeId := "r1"; s_userId := Some "u";
       ingredientsChecked := [0%nat]; stepsChecked := [0%nat; 1%nat];
       servingSize := 2; status := active |} in
  let st :=
    {| data := {| recipes := [recipe]; measurements := defaultMeasurements;
                  inventory := [ {| userId := "u"; ingredientId := "flour";
                                    quantity := 1; measurementId := "1" |} ];
                  cookingSessions := [session]; currentUserId := Some "u" |};
       currentView := view_cook_mode; selectedRecipeId := Some "r1" |} in
  cookingSession st = Some session
  /\ inventory (data (handleCompleteCooking st)) = []
  /\ cooked recipe ∈ recipes (data (handleCompleteCooking st))
  /\ withStatus session completed ∈ cookingSessions (data (handleCompleteCooking st))
  /\ data (handleCompleteCooking (handleCompleteCooking st)) = data (handleCompleteCooking st)
  /\ data (handleCancelCooking (handleCompleteCooking st)) = data (handleCompleteCooking st).
Proof.
  intros recipe session st.
  destruct (proj1 handleCompleteCooking_effects st session recipe "u"
              eq_refl eq_refl eq_refl ltac:(discriminate))
    as (Hinv & _ & Hsession & _ & Hrecipe & _ & _ & _ & _ & Hagain).
  split; [reflexivity|].
  split; [rewrite Hinv; by vm_compute|].
  split; [exact Hrecipe|]. split; [exact Hsession|].
  apply Hagain. intros r u. unfold activeCount. simpl.
  destruct (activeFor (Some r) u session); simpl; lia.
Defined.

(** * Further properties *)

(** ** Deduction engine: what a run can and cannot do to the inventory *)

Section RunShape.
Variables (iid req uid : string) (q : Q) (inv : list InventoryItem) (ms : list Measurement).

Let final := loop_updatedInventory (deductFinal iid req q inv ms uid).
Let out := updatedInventory (deductFromInventory iid req q inv ms uid).

(** Every row of the working array is the input row or the row an
    iteration wrote over it. *)
Lemma final_row (i : nat) (x : InventoryItem) :
  final !! i = Some x ->
  inv !! i = Some x
  \/ exists l amount, inv !! i = Some l /\ x = writtenRow l amount.
Proof.
  intros Hx. destruct (decide (i ∈ deductedIndices iid req q inv ms uid)) as [Hin|Hout].
  - right. apply deductedIndices_elem_of in Hin as (d & Hd & <-).
    exists (item (lot d)), (amountInItemUnit d). split.
    + by apply deductions_lot in Hd as (? & _).
    + unfold final in Hx. rewrite (deductions_written _ _ _ _ _ _ _ Hd) in Hx. congruence.
  - left. unfold final in Hx. by rewrite deductions_untouched in Hx.
Qed.

Lemma final_keys : map lotKey final = map lotKey inv.
Proof.
  change (map lotKey ?l) with (lotKey <$> l).
  apply list_eq. intros i. rewrite !list_lookup_fmap.
  destruct (final !! i) as [x|] eqn:Hx.
  - destruct (final_row i x Hx) as [->|(l & amount & -> & ->)]; [done|].
    simpl. unfold writtenRow. by destruct (Qgt_bool _ _).
  - apply lookup_ge_None in Hx. unfold final in Hx.
    unfold deductFinal in Hx. rewrite deductLoop_length in Hx. simpl in Hx.
    apply lookup_ge_None in Hx. by rewrite Hx.
Qed.

Lemma out_elem_of (x : InventoryItem) :
  x ∈ out <-> x ∈ final /\ ~ quantity x == -1.
Proof.
  unfold out, deductFromInventory. simpl.
  rewrite filter_elem_of, Qneq_bool_iff. done.
Qed.

End RunShape.

(** X1. A lot of the returned inventory is either a lot of the input or an
    input lot with a new quantity above 0.001; so an inventory without
    negative quantities stays one. *)
Theorem deductFromInventory_quantities
    (iid req uid : string) (q : Q) (inv : list InventoryItem) (ms : list Measurement) :
  (forall x, x ∈ updatedInventory (deductFromInventory iid req q inv ms uid) ->
     x ∈ inv
     \/ exists l, l ∈ inv /\ x = withQuantity l (quantity x) /\ 0.001 < quantity x)
  /\ (Forall (fun it => 0 <= quantity it) inv ->
      Forall (fun it => 0 <= quantity it)
        (updatedInventory (deductFromInventory iid req q inv ms uid))).
Proof.
  assert (Hshape : forall x,
    x ∈ updatedInventory (deductFromInventory iid req q inv ms uid) ->
    x ∈ inv
    \/ exists l, l ∈ inv /\ x = withQuantity l (quantity x) /\ 0.001 < quantity x).
  { intros x [Hx Hkeep]%out_elem_of.
    apply list_elem_of_lookup in Hx as [i Hi].
    destruct (final_row _ _ _ _ _ _ _ _ Hi) as [Hin|(l & amount & Hl & ->)].
    - left. by eapply list_elem_of_lookup_2.
    - right. exists l. split; [by eapply list_elem_of_lookup_2|].
      unfold writtenRow in *.
      destruct (Qgt_bool (newQuantityOf l amount) 0.001) eqn:E; simpl in *.
      + split; [done|]. by apply Qgt_bool_iff.
      + exfalso. by apply Hkeep. }
  split; [exact Hshape|].
  intros Hnonneg. apply Forall_forall. intros x Hx.
  rewrite Forall_forall in Hnonneg.
  destruct (Hshape x Hx) as [Hin|(l & _ & _ & Hgt)]; [by apply Hnonneg|].
  apply Qlt_le_weak. eapply Qlt_trans; [|exact Hgt]. done.
Qed.

Lemma deductFromInventory_quantities_witness :
  Forall (fun it => 0 <= quantity it)
    (updatedInventory
       (deductFromInventory "X" "1" 3
          [ {| userId := "u"; ingredientId := "X"; quantity := 1000; measurementId := "9" |};
            {| userId := "u"; ingredientId := "X"; quantity := 1; measurementId := "1" |} ]
          defaultMeasurements "u")).
Proof.
  apply (proj2 (deductFromInventory_quantities "X" "1" "u" 3 _ defaultMeasurements)).
  repeat constructor; by vm_compute.
Defined.

(** X2. The lots returned are, in order, lots of the input with the same
    owner, ingredient and unit: a run adds none, duplicates none and
    reorders none.  If no two input lots share owner, ingredient and
    unit, no two returned lots do. *)
Theorem deductFromInventory_keys
    (iid req uid : string) (q : Q) (inv : list InventoryItem) (ms : list Measurement) :
  map lotKey (updatedInventory (deductFromInventory iid req q inv ms uid))
    `sublist_of` map lotKey inv
  /\ (length (updatedInventory (deductFromInventory iid req q inv ms uid)) <= length inv)%nat
  /\ (NoDup (map lotKey inv) ->
      NoDup (map lotKey (updatedInventory (deductFromInventory iid req q inv ms uid)))).
Proof.
  assert (Hsub : map lotKey (updatedInventory (deductFromInventory iid req q inv ms uid))
                   `sublist_of` map lotKey inv).
  { rewrite <- (final_keys iid req uid q inv ms).
    change (map lotKey ?l) with (lotKey <$> l).
    apply fmap_sublist, filter_sublist. }
  split; [exact Hsub|]. split.
  - apply sublist_length in Hsub. by rewrite !length_map in Hsub.
  - intros Hnd. by eapply sublist_NoDup.
Qed.

Lemma deductFromInventory_keys_witness :
  NoDup (map lotKey
    (updatedInventory
       (deductFromInventory "X" "1" 3
          [ {| userId := "u"; ingredientId := "X"; quantity := 1000; measurementId := "9" |};
            {| userId := "u"; ingredientId := "X"; quantity := 1; measurementId := "1" |} ]
          defaultMeasurements "u"))).
Proof.
  apply (proj2 (proj2 (deductFromInventory_keys "X" "1" "u" 3 _ defaultMeasurements))).
  refine (bool_decide_unpack _ _). by vm_compute.
Defined.

(** ** Deduction engine: a requirement that is not positive *)

Lemma deductLoop_done (req : string) (ms : list Measurement) (items : list Indexed)
    (st : LoopState) :
  remainingToDeduct st <= 0 -> deductLoop req ms items st = st.
Proof.
  intros H. apply Qle_bool_iff in H. destruct items as [|e rest]; simpl; [done|].
  by rewrite H.
Qed.

(** X3. With a required quantity of zero or less nothing is deducted: the
    ledger is empty and the inventory comes back as it was, except that
    rows whose quantity is -1, the value the function uses to mark rows
    for removal, are dropped whoever owns them. *)
Theorem deductFromInventory_nothing_required
    (iid req uid : string) (q : Q) (inv : list InventoryItem) (ms : list Measurement) :
  q <= 0 ->
  deducted (deductFromInventory iid req q inv ms uid) = []
  /\ updatedInventory (deductFromInventory iid req q inv ms uid)
     = List.filter (fun it => Qneq_bool (quantity it) (-1)) inv
  /\ (Forall (fun it => 0 <= quantity it) inv ->
      updatedInventory (deductFromInventory iid req q inv ms uid) = inv).
Proof.
  intros Hq. unfold deductFromInventory, deductFinal.
  rewrite deductLoop_done by done. simpl.
  split; [done|]. split; [done|].
  intros Hnonneg. induction Hnonneg as [|x l Hx _ IH]; simpl; [done|].
  by rewrite (nonneg_kept _ Hx), IH.
Qed.

Lemma deductFromInventory_nothing_required_witness :
  updatedInventory
    (deductFromInventory "X" "1" 0
       [ {| userId := "v"; ingredientId := "Y"; quantity := -1; measurementId := "9" |};
         {| userId := "u"; ingredientId := "X"; quantity := 1; measurementId := "1" |} ]
       defaultMeasurements "u")
  = [ {| userId := "u"; ingredientId := "X"; quantity := 1; measurementId := "1" |} ].
Proof.
  rewrite (proj1 (proj2 (deductFromInventory_nothing_required "X" "1" "u" 0 _
                           defaultMeasurements ltac:(by vm_compute)))).
  reflexivity.
Defined.

(** ** Deduction engine: a lot in the required unit that covers the requirement *)

Lemma filter_none {A : Type} (p : A -> bool) (l : list A) :
  (forall x, x ∈ l -> p x = false) -> List.filter p l = [].
Proof.
  induction l as [|x l IH]; intros H; simpl; [done|].
  rewrite (H x) by left. apply IH. intros y Hy. apply H. by right.
Qed.

Lemma filter_all {A : Type} (p : A -> bool) (l : list A) :
  (forall x, x ∈ l -> p x = true) -> List.filter p l = l.
Proof.
  induction l as [|x l IH]; intros H; simpl; [done|].
  rewrite (H x) by left. f_equal. apply IH. intros y Hy. apply H. by right.
Qed.

Lemma filter_twice {A : Type} (p1 p2 : A -> bool) (l : list A) :
  List.filter p2 (List.filter p1 l) = List.filter (fun x => p1 x && p2 x) l.
Proof.
  induction l as [|x l IH]; simpl; [done|].
  destruct (p1 x); simpl; [|done]. destruct (p2 x); by rewrite IH.
Qed.

Lemma indexed_filter_items (p : InventoryItem -> bool) (g : nat -> nat)
    (inv : list InventoryItem) :
  map item
    (List.filter (fun e => p (item e))
       (imap (fun n item' => {| item := item'; index := g n |}) inv))
  = List.filter p inv.
Proof.
  revert g. induction inv as [|x inv IH]; intros g; [done|].
  rewrite imap_cons. simpl. specialize (IH (g ∘ S)).
  destruct (p x); simpl; by rewrite <- IH.
Qed.

Lemma relevantItems_items (iid uid : string) (inv : list InventoryItem) :
  map item (relevantItems iid uid inv)
  = List.filter (fun l => String.eqb (userId l) uid && String.eqb (ingredientId l) iid) inv.
Proof.
  apply (indexed_filter_items
           (fun l => String.eqb (userId l) uid && String.eqb (ingredientId l) iid) id).
Qed.

Lemma deductTrace_done (req : string) (ms : list Measurement) (items : list Indexed)
    (st : LoopState) :
  remainingToDeduct st <= 0 -> deductTrace req ms items st = [].
Proof.
  intros H. apply Qle_bool_iff in H. destruct items as [|e rest]; simpl; [done|].
  by rewrite H.
Qed.

Lemma Math_min_covered (a b : Q) : b <= a -> Math_min a b == b.
Proof.
  intros H. unfold Math_min. destruct (Qle_bool a b) eqn:E; [|reflexivity].
  apply Qle_bool_iff in E. by apply Qle_antisym.
Qed.

(** The only candidate in the required unit is the one lot the comparator
    prefers. *)
Lemma relevantItems_only_exact (iid req uid : string) (inv : list InventoryItem)
    (i : nat) (l : InventoryItem) :
  inv !! i = Some l ->
  userId l = uid -> ingredientId l = iid -> measurementId l = req ->
  (forall j l', j <> i -> inv !! j = Some l' ->
     ~ (userId l' = uid /\ ingredientId l' = iid /\ measurementId l' = req)) ->
  List.filter (fun e => String.eqb (measurementId (item e)) req) (relevantItems iid uid inv)
  = [ {| item := l; index := i |} ].
Proof.
  intros Hi Hu Hing Hm Honly.
  unfold relevantItems.
  pose proof (take_drop_middle inv i l Hi) as E.
  assert (Hlen : length (take i inv) = i).
  { rewrite length_take. apply lookup_lt_Some in Hi. lia. }
  rewrite <- E. rewrite !imap_app, !List.filter_app. simpl.
  rewrite Hlen, Nat.add_0_r.
  rewrite Hu, Hing, !String.eqb_refl. simpl. rewrite Hm, String.eqb_refl.
  rewrite (filter_none _ (List.filter _ (imap _ (take i inv)))).
  - simpl. f_equal. apply filter_none.
    intros e [He Hrel]%filter_elem_of.
    apply elem_of_lookup_imap in He as (j & l' & -> & Hj). simpl in *.
    rewrite lookup_drop in Hj.
    apply andb_true_iff in Hrel as [Hu' Hi'].
    apply String.eqb_eq in Hu', Hi'.
    destruct (String.eqb_spec (measurementId l') req) as [Hm'|]; [|done].
    exfalso. apply (Honly (S i + j)%nat l'); [lia|done|done].
  - intros e [He Hrel]%filter_elem_of.
    apply elem_of_lookup_imap in He as (j & l' & -> & Hj). simpl in *.
    apply lookup_take_Some in Hj as [Hj Hlt].
    apply andb_true_iff in Hrel as [Hu' Hi'].
    apply String.eqb_eq in Hu', Hi'.
    destruct (String.eqb_spec (measurementId l') req) as [Hm'|]; [|done].
    exfalso. apply (Honly j l'); [lia|done|done].
Qed.

(** It heads the processing order on either engine. *)
Lemma sortedItemsOn_head (engine : SortEngine) (iid req uid : string)
    (inv : list InventoryItem) (i : nat) (l : InventoryItem) :
  inv !! i = Some l ->
  userId l = uid -> ingredientId l = iid -> measurementId l = req ->
  (forall j l', j <> i -> inv !! j = Some l' ->
     ~ (userId l' = uid /\ ingredientId l' = iid /\ measurementId l' = req)) ->
  sortedItemsOn engine iid req uid inv
  = {| item := l; index := i |}
    :: List.filter (fun e => negb (String.eqb (measurementId (item e)) req))
         (relevantItems iid uid inv).
Proof.
  intros Hi Hu Hing Hm Honly.
  pose proof (relevantItems_only_exact iid req uid inv i l Hi Hu Hing Hm Honly) as Hexact.
  rewrite sortedItemsOn_partition by (rewrite Hexact; simpl; lia).
  by rewrite Hexact.
Qed.

(** X4. When the user holds exactly one lot of the ingredient in the
    required unit and it holds at least the (positive) required quantity,
    that lot alone is written to, whichever way the sort hands lots to
    the comparator: the ledger has the one row for it, with the required
    quantity, the requirement is met exactly, and no other row of the
    inventory is touched. *)
Theorem deductFromInventory_exact_lot_suffices
    (engine : SortEngine) (iid req uid : string) (q : Q) (inv : list InventoryItem)
    (ms : list Measurement) (i : nat) (l : InventoryItem) :
  inv !! i = Some l ->
  userId l = uid -> ingredientId l = iid -> measurementId l = req ->
  (forall j l', j <> i -> inv !! j = Some l' ->
     ~ (userId l' = uid /\ ingredientId l' = iid /\ measurementId l' = req)) ->
  0 < q -> q <= quantity l ->
  deductionsOn engine iid req q inv ms uid
  = [ {| lot := {| item := l; index := i |}; remainingBefore := q;
         amountInItemUnit := q |} ]
  /\ deducted (deductFromInventoryOn engine iid req q inv ms uid)
     = [ {| d_measurementId := req; d_quantity := Math_min (quantity l) q |} ]
  /\ Math_min (quantity l) q == q
  /\ remainingToDeduct (deductFinalOn engine iid req q inv ms uid) == 0
  /\ loop_updatedInventory (deductFinalOn engine iid req q inv ms uid)
     = <[i := writtenRow l q]> inv.
Proof.
  intros Hi Hu Hing Hm Honly Hpos Hle.
  pose proof (sortedItemsOn_head engine iid req uid inv i l Hi Hu Hing Hm Honly) as Hsorted.
  assert (Hmin : Math_min (quantity l) q == q) by by apply Math_min_covered.
  assert (Hnot : Qle_bool q 0 = false).
  { destruct (Qle_bool q 0) eqn:E; [|done].
    apply Qle_bool_iff in E. exfalso. exact (Qlt_not_le _ _ Hpos E). }
  set (init := {| loop_updatedInventory := inv; loop_deducted := [];
                  remainingToDeduct := q |}).
  set (e := {| item := l; index := i |}).
  assert (Hrem : remainingToDeduct (deductStep req ms e q init) == 0).
  { unfold deductStep. simpl. rewrite Hm, convertMeasurement_same.
    unfold toDeductOf. rewrite Hmin. ring. }
  assert (Hdone : remainingToDeduct (deductStep req ms e q init) <= 0).
  { rewrite Hrem. apply Qle_refl. }
  assert (Hfinal : deductFinalOn engine iid req q inv ms uid = deductStep req ms e q init).
  { unfold deductFinalOn. rewrite Hsorted. fold init. simpl. rewrite Hnot.
    rewrite <- Hm at 1. rewrite convertMeasurement_same.
    by apply deductLoop_done. }
  assert (Htrace : deductionsOn engine iid req q inv ms uid
                   = [ {| lot := e; remainingBefore := q; amountInItemUnit := q |} ]).
  { unfold deductionsOn. rewrite Hsorted. fold init. simpl. rewrite Hnot.
    rewrite <- Hm at 1. rewrite convertMeasurement_same.
    by rewrite deductTrace_done. }
  split; [exact Htrace|]. split.
  { unfold deductFromInventoryOn. simpl. rewrite Hfinal.
    unfold deductStep, toDeductOf. simpl. by rewrite Hm. }
  split; [exact Hmin|]. split; [by rewrite Hfinal|].
  rewrite Hfinal. apply deductStep_inventory.
Qed.

Lemma deductFromInventory_exact_lot_suffices_witness :
  let inv :=
    [ {| userId := "u"; ingredientId := "X"; quantity := 500; measurementId := "9" |};
      {| userId := "u"; ingredientId := "X"; quantity := 1; measurementId := "1" |};
      {| userId := "v"; ingredientId := "X"; quantity := 4; measurementId := "1" |};
      {| userId := "u"; ingredientId := "X"; quantity := 2; measurementId := "15" |} ] in
  deducted (deductFromInventoryOn pivotFirst "X" "1" 0.5 inv defaultMeasurements "u")
  = [ {| d_measurementId := "1"; d_quantity := Math_min 1 0.5 |} ]
  /\ deducted (deductFromInventory "X" "1" 0.5 inv defaultMeasurements "u")
     = [ {| d_measurementId := "1"; d_quantity := Math_min 1 0.5 |} ].
Proof.
  intros inv.
  assert (Honly : forall j l', j <> 1%nat -> inv !! j = Some l' ->
            ~ (userId l' = "u" /\ ingredientId l' = "X" /\ measurementId l' = "1")).
  { intros j l' Hj Hl' (Hu & _ & Hm).
    destruct j as [|[|[|[|j]]]]; try done; injection Hl' as <-; discriminate. }
  split.
  - refine (proj1 (proj2
      (deductFromInventory_exact_lot_suffices pivotFirst "X" "1" "u" 0.5 inv
         defaultMeasurements 1
         {| userId := "u"; ingredientId := "X"; quantity := 1; measurementId := "1" |}
         eq_refl eq_refl eq_refl eq_refl Honly _ _))); by vm_compute.
  - refine (proj1 (proj2
      (deductFromInventory_exact_lot_suffices placedFirst "X" "1" "u" 0.5 inv
         defaultMeasurements 1
         {| userId := "u"; ingredientId := "X"; quantity := 1; measurementId := "1" |}
         eq_refl eq_refl eq_refl eq_refl Honly _ _))); by vm_compute.
Defined.

(** ** Measurement graph *)

Lemma convertMeasurement_Some_edge (from to : string) (q r : Q) (ms : list Measurement) :
  from <> to ->
  convertMeasurement from to q ms = Some r ->
  exists m c,
    List.find (fun m => String.eqb (m_id m) from) ms = Some m
    /\ m ∈ ms /\ m_id m = from
    /\ c ∈ conversions m /\ toMeasurementId c = to.
Proof.
  intros Hne. rewrite (convertMeasurement_other _ _ _ _ Hne).
  destruct (List.find _ ms) as [m|] eqn:Hm; [|done].
  destruct (List.find _ (conversions m)) as [c|] eqn:Hc; [|done].
  intros _. exists m, c.
  apply find_elem_of in Hm as [Hm Hid]. apply find_elem_of in Hc as [Hc Hto].
  apply String.eqb_eq in Hid, Hto. done.
Qed.

(** X8. In a graph where every listed edge can be converted back, a
    conversion that succeeds succeeds in the other direction too, for any
    quantity; the default measurements are such a graph, so on them the
    back conversion of the deduction loop never fails. *)
Theorem reversible_conversions :
  (forall (ms : list Measurement) (a b : string) (x y : Q),
     reversible ms = true ->
     convertMeasurement a b x ms <> None ->
     convertMeasurement b a y ms <> None)
  /\ reversible defaultMeasurements = true
  /\ (forall (iid req uid : string) (q : Q) (inv : list InventoryItem) (d : Deduction),
        d ∈ deductions iid req q inv defaultMeasurements uid ->
        convertMeasurement (measurementId (item (lot d))) req
          (toDeductOf (item (lot d)) (amountInItemUnit d)) defaultMeasurements <> None).
Proof.
  assert (Hrev : forall ms a b x y,
    reversible ms = true ->
    convertMeasurement a b x ms <> None ->
    convertMeasurement b a y ms <> None).
  { intros ms a b x y Hok Hab.
    destruct (String.eqb_spec a b) as [->|Hne].
    { by rewrite convertMeasurement_same. }
    destruct (convertMeasurement a b x ms) as [r|] eqn:E; [|done].
    destruct (convertMeasurement_Some_edge _ _ _ _ _ Hne E)
      as (m & c & _ & Hm & <- & Hc & <-).
    unfold reversible in Hok. rewrite forallb_forall in Hok.
    specialize (Hok m ltac:(by apply list_elem_of_In)).
    rewrite forallb_forall in Hok.
    specialize (Hok c ltac:(by apply list_elem_of_In)).
    destruct (convertMeasurement (toMeasurementId c) (m_id m) 1 ms) eqn:E1; [|done].
    intros Hnone.
    by rewrite (convertMeasurement_None_quantity _ _ _ 1 _ Hnone) in E1. }
  split; [exact Hrev|].
  assert (Hseed : reversible defaultMeasurements = true) by by vm_compute.
  split; [exact Hseed|].
  intros iid req uid q inv d Hd.
  apply deductions_lot in Hd as (_ & _ & _ & Hc & _).
  apply (Hrev _ req _ (remainingBefore d)); [done|]. by rewrite Hc.
Qed.

Lemma reversible_conversions_witness :
  convertMeasurement "9" "1" 500 defaultMeasurements <> None.
Proof.
  apply (proj1 reversible_conversions defaultMeasurements "1" "9" 2 500).
  - by vm_compute.
  - discriminate.
Defined.

(** X9. The units [getConvertibleUnits] lists for a unit are all units
    [convertMeasurement] converts it to; and a listed measurement other
    than the unit itself that [convertMeasurement] can reach is in the
    list.  A unit that is not in the measurement list has no convertible
    units. *)
Theorem getConvertibleUnits_sound (u : string) (ms : list Measurement) :
  (forall m q, m ∈ getConvertibleUnits u ms ->
     m ∈ ms /\ convertMeasurement u (m_id m) q ms <> None)
  /\ (forall m q, m ∈ ms -> m_id m <> u ->
        convertMeasurement u (m_id m) q ms <> None ->
        m ∈ getConvertibleUnits u ms)
  /\ (List.find (fun m => String.eqb (m_id m) u) ms = None ->
      getConvertibleUnits u ms = []).
Proof.
  unfold getConvertibleUnits. split; [|split].
  - intros m q. destruct (List.find _ ms) as [mu|] eqn:Hu.
    2:{ intros H. by apply elem_of_nil in H. }
    intros [Hm Hex]%filter_elem_of. split; [done|].
    destruct (String.eqb_spec u (m_id m)) as [->|Hne].
    { by rewrite convertMeasurement_same. }
    rewrite (convertMeasurement_other _ _ _ _ Hne), Hu.
    apply existsb_exists in Hex as (cid & Hcid & Heq).
    apply String.eqb_eq in Heq. subst cid.
    apply in_map_iff in Hcid as (c & Hto & Hc).
    destruct (List.find (fun c0 => String.eqb (toMeasurementId c0) (m_id m))
                (conversions mu)) eqn:Hfind; [done|].
    apply (find_none _ _ Hfind) in Hc. rewrite Hto, String.eqb_refl in Hc. done.
  - intros m q Hm Hne Hconv.
    assert (Hne' : u <> m_id m) by congruence.
    rewrite (convertMeasurement_other _ _ _ _ Hne') in Hconv.
    destruct (List.find _ ms) as [mu|] eqn:Hu; [|done].
    destruct (List.find _ (conversions mu)) as [c|] eqn:Hc; [|done].
    apply find_elem_of in Hc as [Hc Hto]. apply String.eqb_eq in Hto.
    apply filter_elem_of. split; [done|].
    apply existsb_exists. exists (toMeasurementId c). split.
    + apply in_map. by apply list_elem_of_In.
    + rewrite Hto. apply String.eqb_refl.
  - by intros ->.
Qed.

Lemma getConvertibleUnits_sound_witness :
  convertMeasurement "10" "11" 3 defaultMeasurements <> None
  /\ getConvertibleUnits "15" defaultMeasurements = []
  /\ getConvertibleUnits "nope" defaultMeasurements = [].
Proof.
  split; [|split].
  - apply (proj1 (getConvertibleUnits_sound "10" defaultMeasurements)
             {| m_id := "11"; m_name := "gram";
                conversions := [conv "14" 1000; conv "13" 0.001;
                                conv "10" 0.035274; conv "12" 0.00220462] |} 3).
    vm_compute. do 2 right. left.
  - reflexivity.
  - apply (proj2 (proj2 (getConvertibleUnits_sound "nope" defaultMeasurements))).
    reflexivity.
Defined.

(** ** Editing the measurement graph *)

Lemma find_map {A : Type} (p : A -> bool) (f : A -> A) (l : list A) :
  (forall x, p (f x) = p x) ->
  List.find p (map f l) = option_map f (List.find p l).
Proof.
  intros Hp. induction l as [|x l IH]; simpl; [done|].
  rewrite Hp. by destruct (p x).
Qed.

Lemma find_app_l {A : Type} (p : A -> bool) (l1 l2 : list A) :
  List.find p (l1 ++ l2)
  = match List.find p l1 with Some x => Some x | None => List.find p l2 end.
Proof.
  induction l1 as [|x l1 IH]; simpl; [done|]. by destruct (p x).
Qed.

Lemma find_filter {A : Type} (p r : A -> bool) (l : list A) :
  (forall x, p x = true -> r x = true) ->
  List.find p (List.filter r l) = List.find p l.
Proof.
  intros H. induction l as [|x l IH]; simpl; [done|].
  destruct (p x) eqn:Hp.
  - rewrite (H x Hp). simpl. by rewrite Hp.
  - destruct (r x); simpl; [by rewrite Hp|done].
Qed.

Lemma find_filter_none {A : Type} (p r : A -> bool) (l : list A) :
  (forall x, p x = true -> r x = false) ->
  List.find p (List.filter r l) = None.
Proof.
  intros H. induction l as [|x l IH]; simpl; [done|].
  destruct (r x) eqn:Hr; simpl; [|done].
  destruct (p x) eqn:Hp; [|done]. rewrite (H x Hp) in Hr. done.
Qed.

Lemma withConversions_same (m : Measurement) : withConversions m (conversions m) = m.
Proof. by destruct m. Qed.

(** The edge list of the source unit after [handleAddConversion]. *)
Lemma handleAddConversion_find (fromId toId a : string) (f : Q) (ms : list Measurement) :
  List.find (fun m => String.eqb (m_id m) a) (handleAddConversion fromId toId f ms)
  = option_map
      (fun m =>
         if String.eqb (m_id m) fromId then
           match List.find (fun c => String.eqb (toMeasurementId c) toId) (conversions m) with
           | Some _ =>
               withConversions m
                 (map (fun c => if String.eqb (toMeasurementId c) toId
                                then {| toMeasurementId := toMeasurementId c; factor := f |}
                                else c)
                    (conversions m))
           | None =>
               withConversions m
                 (conversions m ++ [ {| toMeasurementId := toId; factor := f |} ])
           end
         else m)
      (List.find (fun m => String.eqb (m_id m) a) ms).
Proof.
  unfold handleAddConversion. apply find_map. intros m.
  destruct (String.eqb (m_id m) fromId); [|done].
  by destruct (List.find _ (conversions m)).
Qed.

(** X10. After [handleAddConversion] from a listed unit to another unit with
    factor [f], converting between the two multiplies by [f], whether the
    edge was new or replaced one; every other conversion, the reverse one
    included, answers as before; and no unit is added or removed. *)
Theorem handleAddConversion_lookup
    (fromId toId : string) (f : Q) (ms : list Measurement) :
  (fromId <> toId ->
   List.find (fun m => String.eqb (m_id m) fromId) ms <> None ->
   forall q, convertMeasurement fromId toId q (handleAddConversion fromId toId f ms)
             = Some (q * f))
  /\ (forall a b q, ~ (a = fromId /\ b = toId) ->
        convertMeasurement a b q (handleAddConversion fromId toId f ms)
        = convertMeasurement a b q ms)
  /\ map m_id (handleAddConversion fromId toId f ms) = map m_id ms.
Proof.
  split; [|split].
  - intros Hne Hfound q.
    rewrite (convertMeasurement_other _ _ _ _ Hne), handleAddConversion_find.
    destruct (List.find _ ms) as [m|] eqn:Hm; [|done]. simpl.
    apply find_elem_of in Hm as [_ Hid]. rewrite Hid.
    destruct (List.find _ (conversions m)) as [c|] eqn:Hc; simpl.
    + rewrite (find_map _ (fun c0 => if String.eqb (toMeasurementId c0) toId
                                    then {| toMeasurementId := toMeasurementId c0;
                                            factor := f |}
                                    else c0)).
      * rewrite Hc. simpl. apply find_elem_of in Hc as [_ Hto]. by rewrite Hto.
      * intros c0. by destruct (String.eqb (toMeasurementId c0) toId) eqn:E.
    + rewrite find_app_l, Hc. simpl. by rewrite String.eqb_refl.
  - intros a b q Hother.
    destruct (String.eqb_spec a b) as [->|Hne].
    { by rewrite !convertMeasurement_same. }
    rewrite !(convertMeasurement_other _ _ _ _ Hne), handleAddConversion_find.
    destruct (List.find _ ms) as [m|] eqn:Hm; [|done]. simpl.
    apply find_elem_of in Hm as [_ Hid]. apply String.eqb_eq in Hid.
    destruct (String.eqb_spec (m_id m) fromId) as [Hfrom|]; [|done].
    assert (Hb : b <> toId) by (intros ->; apply Hother; split; congruence).
    destruct (List.find (fun c => String.eqb (toMeasurementId c) toId) (conversions m))
      as [c|] eqn:Hc; simpl.
    + rewrite (find_map _ (fun c0 => if String.eqb (toMeasurementId c0) toId
                                    then {| toMeasurementId := toMeasurementId c0;
                                            factor := f |}
                                    else c0)).
      * destruct (List.find (fun c0 => String.eqb (toMeasurementId c0) b) (conversions m))
          as [c'|] eqn:Hc'; [|done]. simpl.
        apply find_elem_of in Hc' as [_ Hto]. apply String.eqb_eq in Hto.
        destruct (String.eqb_spec (toMeasurementId c') toId); [congruence|done].
      * intros c0. by destruct (String.eqb (toMeasurementId c0) toId).
    + rewrite find_app_l.
      destruct (List.find (fun c0 => String.eqb (toMeasurementId c0) b) (conversions m));
        [done|]. simpl.
      destruct (String.eqb_spec toId b); [congruence|done].
  - unfold handleAddConversion. rewrite map_map. apply map_ext. intros m.
    destruct (String.eqb (m_id m) fromId); [|done].
    by destruct (List.find _ (conversions m)).
Qed.

Lemma handleAddConversion_lookup_witness :
  convertMeasurement "15" "16" 3 (handleAddConversion "15" "16" 8 defaultMeasurements)
  = Some (3 * 8)
  /\ convertMeasurement "16" "15" 3 (handleAddConversion "15" "16" 8 defaultMeasurements)
     = None.
Proof.
  split.
  - apply (proj1 (handleAddConversion_lookup "15" "16" 8 defaultMeasurements));
      discriminate.
  - rewrite (proj1 (proj2 (handleAddConversion_lookup "15" "16" 8 defaultMeasurements))).
    + reflexivity.
    + intros [H _]. discriminate H.
Defined.

(** X11. After [handleRemoveConversion] the conversion between the two
    (different) units has no path; every other conversion answers as
    before.  Removing an edge just added to a graph that had none between
    the two units gives the graph back. *)
Theorem handleRemoveConversion_lookup (fromId toId : string) (ms : list Measurement) :
  (fromId <> toId ->
   forall q, convertMeasurement fromId toId q (handleRemoveConversion fromId toId ms) = None)
  /\ (forall a b q, ~ (a = fromId /\ b = toId) ->
        convertMeasurement a b q (handleRemoveConversion fromId toId ms)
        = convertMeasurement a b q ms)
  /\ (forall f,
        (forall m c, m ∈ ms -> m_id m = fromId -> c ∈ conversions m ->
           toMeasurementId c <> toId) ->
        handleRemoveConversion fromId toId (handleAddConversion fromId toId f ms) = ms).
Proof.
  assert (Hfind : forall a,
    List.find (fun m => String.eqb (m_id m) a) (handleRemoveConversion fromId toId ms)
    = option_map
        (fun m => if String.eqb (m_id m) fromId
                  then withConversions m
                         (List.filter (fun c => negb (String.eqb (toMeasurementId c) toId))
                            (conversions m))
                  else m)
        (List.find (fun m => String.eqb (m_id m) a) ms)).
  { intros a. unfold handleRemoveConversion. apply find_map. intros m.
    by destruct (String.eqb (m_id m) fromId). }
  split; [|split].
  - intros Hne q. rewrite (convertMeasurement_other _ _ _ _ Hne), Hfind.
    destruct (List.find _ ms) as [m|] eqn:Hm; [|done]. simpl.
    apply find_elem_of in Hm as [_ Hid]. rewrite Hid. simpl.
    rewrite find_filter_none; [done|].
    intros c Hc. by rewrite Hc.
  - intros a b q Hother.
    destruct (String.eqb_spec a b) as [->|Hne].
    { by rewrite !convertMeasurement_same. }
    rewrite !(convertMeasurement_other _ _ _ _ Hne), Hfind.
    destruct (List.find _ ms) as [m|] eqn:Hm; [|done]. simpl.
    apply find_elem_of in Hm as [_ Hid]. apply String.eqb_eq in Hid.
    destruct (String.eqb_spec (m_id m) fromId) as [Hfrom|]; [|done]. simpl.
    assert (Hb : b <> toId) by (intros ->; apply Hother; split; congruence).
    rewrite find_filter; [done|].
    intros c Hc. apply String.eqb_eq in Hc.
    destruct (String.eqb_spec (toMeasurementId c) toId); [congruence|done].
  - intros f Hfresh. unfold handleRemoveConversion, handleAddConversion.
    rewrite map_map. rewrite <- (map_id ms) at 2.
    apply map_ext_in. intros m Hm. apply list_elem_of_In in Hm.
    destruct (String.eqb_spec (m_id m) fromId) as [Hid|Hid].
    + assert (Hnone : List.find (fun c => String.eqb (toMeasurementId c) toId)
                        (conversions m) = None).
      { destruct (List.find _ (conversions m)) as [c|] eqn:Hc; [|done].
        apply find_elem_of in Hc as [Hc Hto]. apply String.eqb_eq in Hto.
        by destruct (Hfresh m c Hm Hid Hc). }
      rewrite Hnone. simpl. rewrite Hid, String.eqb_refl.
      rewrite List.filter_app. simpl. rewrite String.eqb_refl. simpl.
      rewrite filter_all, app_nil_r.
      * unfold withConversions. simpl. by destruct m.
      * intros c Hc. destruct (String.eqb_spec (toMeasurementId c) toId); [|done].
        by destruct (Hfresh m c Hm Hid Hc).
    + by destruct (String.eqb_spec (m_id m) fromId).
Qed.

Lemma handleRemoveConversion_lookup_witness :
  convertMeasurement "1" "2" 3 (handleRemoveConversion "1" "2" defaultMeasurements) = None
  /\ convertMeasurement "2" "1" 16 (handleRemoveConversion "1" "2" defaultMeasurements)
     = Some (16 * 0.0625)
  /\ handleRemoveConversion "15" "16" (handleAddConversion "15" "16" 8 defaultMeasurements)
     = defaultMeasurements.
Proof.
  split; [|split].
  - apply (proj1 (handleRemoveConversion_lookup "1" "2" defaultMeasurements)). discriminate.
  - rewrite (proj1 (proj2 (handleRemoveConversion_lookup "1" "2" defaultMeasurements))).
    + reflexivity.
    + intros [H _]. discriminate H.
  - apply (proj2 (proj2 (handleRemoveConversion_lookup "15" "16" defaultMeasurements))).
    intros m c Hm Hid Hc Hto.
    assert (Hall : forallb (fun m => negb (String.eqb (m_id m) "15")
                                     || match conversions m with [] => true | _ => false end)
                     defaultMeasurements = true) by reflexivity.
    rewrite forallb_forall in Hall.
    specialize (Hall m ltac:(by apply list_elem_of_In)).
    rewrite Hid in Hall. simpl in Hall.
    destruct (conversions m); [by apply elem_of_nil in Hc|done].
Defined.

(** X12. [handleDeleteMeasurement] removes the unit and with it every
    conversion out of it, but edits no other unit: conversions from the
    remaining units answer as before, also those into the deleted unit,
    whose edges stay behind. *)
Theorem handleDeleteMeasurement_no_cascade (id : string) (ms : list Measurement) :
  (forall m, m ∈ handleDeleteMeasurement id ms <-> m ∈ ms /\ m_id m <> id)
  /\ (forall b q, b <> id ->
        convertMeasurement id b q (handleDeleteMeasurement id ms) = None)
  /\ (forall a b q, a <> id ->
        convertMeasurement a b q (handleDeleteMeasurement id ms)
        = convertMeasurement a b q ms).
Proof.
  unfold handleDeleteMeasurement. split; [|split].
  - intros m. rewrite filter_elem_of, negb_true_iff.
    destruct (String.eqb_spec (m_id m) id); split; intros [? ?]; split; done.
  - intros b q Hne. assert (Hne' : id <> b) by congruence.
    rewrite (convertMeasurement_other _ _ _ _ Hne').
    rewrite find_filter_none; [done|].
    intros m Hm. by rewrite Hm.
  - intros a b q Hne.
    unfold convertMeasurement. rewrite find_filter; [done|].
    intros m Hm. apply String.eqb_eq in Hm.
    destruct (String.eqb_spec (m_id m) id); [congruence|done].
Qed.

Lemma handleDeleteMeasurement_no_cascade_witness :
  convertMeasurement "9" "1" 1 (handleDeleteMeasurement "9" defaultMeasurements) = None
  /\ convertMeasurement "1" "9" 1 (handleDeleteMeasurement "9" defaultMeasurements)
     = Some (1 * 236.588).
Proof.
  split.
  - apply (proj1 (proj2 (handleDeleteMeasurement_no_cascade "9" defaultMeasurements))).
    discriminate.
  - rewrite (proj2 (proj2 (handleDeleteMeasurement_no_cascade "9" defaultMeasurements)));
      [reflexivity|discriminate].
Defined.

(** X13. A measurement added under an id no listed unit has changes no
    existing conversion; the new unit converts to itself only. *)
Theorem handleAddMeasurement_fresh (newId name : string) (ms : list Measurement) :
  newId ∉ map m_id ms ->
  (forall a b q, a <> newId ->
     convertMeasurement a b q (handleAddMeasurement newId name ms)
     = convertMeasurement a b q ms)
  /\ (forall b q, b <> newId ->
        convertMeasurement newId b q (handleAddMeasurement newId name ms) = None)
  /\ getConvertibleUnits newId (handleAddMeasurement newId name ms) = [].
Proof.
  intros Hfresh.
  assert (Hnone : List.find (fun m => String.eqb (m_id m) newId) ms = None).
  { destruct (List.find _ ms) as [m|] eqn:Hm; [|done].
    apply find_elem_of in Hm as [Hm Hid]. apply String.eqb_eq in Hid.
    exfalso. apply Hfresh. change (map m_id ms) with (m_id <$> ms).
    apply list_elem_of_fmap. by exists m. }
  unfold handleAddMeasurement. split; [|split].
  - intros a b q Hne. unfold convertMeasurement. rewrite find_app_l. simpl.
    destruct (String.eqb_spec newId a); [congruence|].
    by destruct (List.find (fun m => String.eqb (m_id m) a) ms).
  - intros b q Hne. assert (Hne' : newId <> b) by congruence.
    rewrite (convertMeasurement_other _ _ _ _ Hne').
    rewrite find_app_l, Hnone. simpl. by rewrite String.eqb_refl.
  - unfold getConvertibleUnits. rewrite find_app_l, Hnone. simpl.
    rewrite String.eqb_refl. simpl. apply filter_none. done.
Qed.

Lemma handleAddMeasurement_fresh_witness :
  convertMeasurement "1" "2" 1 (handleAddMeasurement "k3x" "stick" defaultMeasurements)
  = Some (1 * 16)
  /\ convertMeasurement "k3x" "1" 1 (handleAddMeasurement "k3x" "stick" defaultMeasurements)
     = None.
Proof.
  assert (Hfresh : "k3x" ∉ map m_id defaultMeasurements).
  { refine (bool_decide_unpack _ _). by vm_compute. }
  split.
  - rewrite (proj1 (handleAddMeasurement_fresh "k3x" "stick" defaultMeasurements Hfresh));
      [reflexivity|discriminate].
  - apply (proj1 (proj2 (handleAddMeasurement_fresh "k3x" "stick" defaultMeasurements
                           Hfresh))).
    discriminate.
Defined.

(** ** Editing the inventory *)

Lemma sameLot_key (uid iid mid : string) (x : InventoryItem) :
  sameLot uid iid mid x = true <-> lotKey x = (uid, iid, mid).
Proof.
  unfold sameLot, lotKey. rewrite !andb_true_iff, !String.eqb_eq.
  split; [intros [[-> ->] ->]; done|intros [= -> -> ->]; done].
Qed.

Lemma sameLot_withQuantity (uid iid mid : string) (x : InventoryItem) (q : Q) :
  sameLot uid iid mid (withQuantity x q) = sameLot uid iid mid x.
Proof. reflexivity. Qed.

Lemma findIndex_Some {A : Type} (p : A -> bool) (l : list A) (i : nat) :
  findIndex p l = Some i ->
  exists x, l !! i = Some x /\ p x = true
            /\ forall y, y ∈ take i l -> p y = false.
Proof.
  revert i. induction l as [|x l IH]; intros i; simpl; [done|].
  destruct (p x) eqn:Hp.
  - intros [= <-]. exists x. split; [done|]. split; [done|].
    intros y Hy. by apply elem_of_nil in Hy.
  - destruct (findIndex p l) as [j|]; [|done]. simpl. intros [= <-].
    destruct (IH j eq_refl) as (y & Hy & Hpy & Hbefore).
    exists y. split; [done|]. split; [done|].
    intros z [->|Hz]%elem_of_cons; [done|by apply Hbefore].
Qed.

Lemma findIndex_None {A : Type} (p : A -> bool) (l : list A) :
  findIndex p l = None -> forall x, x ∈ l -> p x = false.
Proof.
  induction l as [|x l IH]; simpl; intros H y Hy.
  - by apply elem_of_nil in Hy.
  - destruct (p x) eqn:Hp; [done|].
    destruct (findIndex p l); [done|].
    apply elem_of_cons in Hy as [->|Hy]; [done|by apply IH].
Qed.

(** The two outcomes of [handleAddInventoryItem]. *)
Lemma handleAddInventoryItem_cases (uid iid : string) (q : Q) (mid : string)
    (inv : list InventoryItem) :
  (exists i x, inv !! i = Some x /\ sameLot uid iid mid x = true
     /\ (forall y, y ∈ take i inv -> sameLot uid iid mid y = false)
     /\ handleAddInventoryItem uid iid q mid inv
        = take i inv ++ withQuantity x (quantity x + q) :: drop (S i) inv)
  \/ ((forall x, x ∈ inv -> sameLot uid iid mid x = false)
      /\ handleAddInventoryItem uid iid q mid inv
         = inv ++ [ {| userId := uid; ingredientId := iid; quantity := q;
                       measurementId := mid |} ]).
Proof.
  unfold handleAddInventoryItem.
  destruct (findIndex _ inv) as [i|] eqn:Hfind.
  - left. apply findIndex_Some in Hfind as (x & Hi & Hp & Hbefore).
    exists i, x. rewrite Hi. split; [done|]. split; [done|]. split; [done|].
    apply insert_take_drop. by eapply lookup_lt_Some.
  - right. split; [by apply findIndex_None|done].
Qed.

Lemma handleAddInventoryItem_quantity
    (uid iid : string) (q : Q) (mid : string) (inv : list InventoryItem) :
  quantityHeld uid iid mid (handleAddInventoryItem uid iid q mid inv)
  == quantityHeld uid iid mid inv + q.
Proof.
  destruct (handleAddInventoryItem_cases uid iid q mid inv)
    as [(i & x & Hi & Hp & Hbefore & ->)|[Hnone ->]].
  - pose proof (take_drop_middle inv i x Hi) as E.
    set (before := take i inv) in *. set (after := drop (S i) inv) in *.
    clearbody before after. subst inv.
    unfold quantityHeld.
    rewrite !List.filter_app. simpl. rewrite sameLot_withQuantity, Hp. simpl.
    rewrite !map_app, !sum_app. simpl. ring.
  - unfold quantityHeld. rewrite List.filter_app. simpl.
    unfold sameLot at 2. simpl. rewrite !String.eqb_refl. simpl.
    rewrite map_app, sum_app. simpl. ring.
Qed.

(** Lots under keys that [p] tells apart from the key written to. *)
Lemma handleAddInventoryItem_others
    (uid iid : string) (q : Q) (mid : string) (inv : list InventoryItem)
    (p : InventoryItem -> bool) :
  (forall x q', p (withQuantity x q') = p x) ->
  (forall x, sameLot uid iid mid x = true -> p x = false) ->
  List.filter p (handleAddInventoryItem uid iid q mid inv) = List.filter p inv.
Proof.
  intros Hp' Hdisj.
  destruct (handleAddInventoryItem_cases uid iid q mid inv)
    as [(i & x & Hi & Hp & Hbefore & ->)|[Hnone ->]].
  - pose proof (take_drop_middle inv i x Hi) as E.
    set (before := take i inv) in *. set (after := drop (S i) inv) in *.
    clearbody before after. subst inv.
    rewrite !List.filter_app. simpl.
    by rewrite Hp', (Hdisj x Hp).
  - rewrite List.filter_app. simpl. rewrite Hdisj; [by rewrite app_nil_r|].
    unfold sameLot. simpl. by rewrite !String.eqb_refl.
Qed.

Lemma handleAddInventoryItem_NoDup
    (uid iid : string) (q : Q) (mid : string) (inv : list InventoryItem) :
  NoDup (map lotKey inv) ->
  NoDup (map lotKey (handleAddInventoryItem uid iid q mid inv)).
Proof.
  destruct (handleAddInventoryItem_cases uid iid q mid inv)
    as [(i & x & Hi & Hp & Hbefore & ->)|[Hnone ->]].
  - pose proof (take_drop_middle inv i x Hi) as E.
    set (before := take i inv) in *. set (after := drop (S i) inv) in *.
    clearbody before after. subst inv.
    intros Hnd. rewrite !map_app in *. exact Hnd.
  - intros Hnd. rewrite map_app. simpl. apply NoDup_app.
    split; [done|]. split; [|apply NoDup_singleton].
    intros k Hk [->|[]%elem_of_nil]%elem_of_cons.
    change (map lotKey inv) with (lotKey <$> inv) in Hk.
    apply list_elem_of_fmap in Hk as (x & Hkey & Hx).
    assert (Hs : sameLot uid iid mid x = true) by (apply sameLot_key; by symmetry).
    by rewrite (Hnone x Hx) in Hs.
Qed.

(** X14. [handleAddInventoryItem] raises what the user holds under the
    key of the new item by the item's quantity, whether a lot existed or
    not; lots under other keys, other users' included, stay as they were
    and in order; and if no two lots shared a key before, none do
    after. *)
Theorem handleAddInventoryItem_adds
    (uid iid : string) (q : Q) (mid : string) (inv : list InventoryItem) :
  quantityHeld uid iid mid (handleAddInventoryItem uid iid q mid inv)
  == quantityHeld uid iid mid inv + q
  /\ List.filter (fun x => negb (sameLot uid iid mid x))
       (handleAddInventoryItem uid iid q mid inv)
     = List.filter (fun x => negb (sameLot uid iid mid x)) inv
  /\ (NoDup (map lotKey inv) ->
      NoDup (map lotKey (handleAddInventoryItem uid iid q mid inv))).
Proof.
  split; [apply handleAddInventoryItem_quantity|].
  split; [|apply handleAddInventoryItem_NoDup].
  apply handleAddInventoryItem_others.
  - done.
  - intros x Hx. by rewrite Hx.
Qed.

Lemma handleAddInventoryItem_adds_witness :
  NoDup (map lotKey
    (handleAddInventoryItem "u" "X" 2 "1"
       [ {| userId := "v"; ingredientId := "X"; quantity := 5; measurementId := "1" |};
         {| userId := "u"; ingredientId := "X"; quantity := 1; measurementId := "1" |} ]))
  /\ handleAddInventoryItem "u" "X" 2 "1"
       [ {| userId := "v"; ingredientId := "X"; quantity := 5; measurementId := "1" |};
         {| userId := "u"; ingredientId := "X"; quantity := 1; measurementId := "1" |} ]
     = [ {| userId := "v"; ingredientId := "X"; quantity := 5; measurementId := "1" |};
         {| userId := "u"; ingredientId := "X"; quantity := 1 + 2; measurementId := "1" |} ].
Proof.
  split; [|reflexivity].
  apply (proj2 (proj2 (handleAddInventoryItem_adds "u" "X" 2 "1" _))).
  refine (bool_decide_unpack _ _). by vm_compute.
Defined.

(** X15. [handleDeleteInventoryItem] leaves exactly the lots under other
    keys, in order, so the user then holds nothing under the key;
    deleting the key of an item just added to an inventory that had no
    lot under it gives the inventory back. *)
Theorem handleDeleteInventoryItem_removes
    (uid iid mid : string) (inv : list InventoryItem) :
  (forall x, x ∈ handleDeleteInventoryItem uid iid mid inv
             <-> x ∈ inv /\ lotKey x <> (uid, iid, mid))
  /\ handleDeleteInventoryItem uid iid mid inv `sublist_of` inv
  /\ quantityHeld uid iid mid (handleDeleteInventoryItem uid iid mid inv) = 0
  /\ (forall q, (forall x, x ∈ inv -> lotKey x <> (uid, iid, mid)) ->
        handleDeleteInventoryItem uid iid mid (handleAddInventoryItem uid iid q mid inv)
        = inv).
Proof.
  unfold handleDeleteInventoryItem. split; [|split; [|split]].
  - intros x. rewrite filter_elem_of, negb_true_iff, <- sameLot_key.
    destruct (sameLot uid iid mid x); split; intros [? ?]; split; done.
  - apply filter_sublist.
  - unfold quantityHeld. rewrite filter_twice, filter_none; [done|].
    intros x _. by destruct (sameLot uid iid mid x).
  - intros q Hfresh.
    assert (Hnone : forall x, x ∈ inv -> sameLot uid iid mid x = false).
    { intros x Hx. destruct (sameLot uid iid mid x) eqn:E; [|done].
      apply sameLot_key in E. by destruct (Hfresh x Hx). }
    rewrite handleAddInventoryItem_others;
      [|done|by intros x Hx; rewrite Hx].
    apply filter_all. intros x Hx. by rewrite (Hnone x Hx).
Qed.

Lemma handleDeleteInventoryItem_removes_witness :
  handleDeleteInventoryItem "u" "X" "9"
    (handleAddInventoryItem "u" "X" 2 "9"
       [ {| userId := "u"; ingredientId := "X"; quantity := 1; measurementId := "1" |} ])
  = [ {| userId := "u"; ingredientId := "X"; quantity := 1; measurementId := "1" |} ].
Proof.
  apply (proj2 (proj2 (proj2 (handleDeleteInventoryItem_removes "u" "X" "9" _)))).
  intros x [->|[]%elem_of_nil]%elem_of_cons. discriminate.
Defined.

Lemma handleDeleteInventoryItem_NoDup (uid iid mid : string) (inv : list InventoryItem) :
  NoDup (map lotKey inv) -> NoDup (map lotKey (handleDeleteInventoryItem uid iid mid inv)).
Proof.
  intros Hnd. eapply sublist_NoDup; [exact Hnd|].
  change (map lotKey ?l) with (lotKey <$> l). apply fmap_sublist, filter_sublist.
Qed.

(** X16. Changing the unit of a lot with [handleEditInventoryItem] is
    deleting the old key and adding the given quantity under the new one:
    the user then holds nothing under the old key, and under the new key
    what was there plus the given quantity.  With the unit unchanged, the
    lots under the key get the given quantity and nothing else changes;
    with no lot under the key, nothing changes at all.  In both cases
    keys that were distinct stay distinct. *)
Theorem handleEditInventoryItem_cases
    (uid iid oldM newM : string) (q : Q) (inv : list InventoryItem) :
  (oldM <> newM ->
   handleEditInventoryItem uid iid oldM newM q inv
   = handleAddInventoryItem uid iid q newM (handleDeleteInventoryItem uid iid oldM inv)
   /\ quantityHeld uid iid oldM (handleEditInventoryItem uid iid oldM newM q inv) == 0
   /\ quantityHeld uid iid newM (handleEditInventoryItem uid iid oldM newM q inv)
      == quantityHeld uid iid newM inv + q)
  /\ (oldM = newM ->
      map lotKey (handleEditInventoryItem uid iid oldM newM q inv) = map lotKey inv
      /\ (forall i x, inv !! i = Some x ->
            handleEditInventoryItem uid iid oldM newM q inv !! i
            = Some (if sameLot uid iid oldM x then withQuantity x q else x))
      /\ ((forall x, x ∈ inv -> lotKey x <> (uid, iid, oldM)) ->
          handleEditInventoryItem uid iid oldM newM q inv = inv))
  /\ (NoDup (map lotKey inv) ->
      NoDup (map lotKey (handleEditInventoryItem uid iid oldM newM q inv))).
Proof.
  assert (Hchange : oldM <> newM ->
    handleEditInventoryItem uid iid oldM newM q inv
    = handleAddInventoryItem uid iid q newM (handleDeleteInventoryItem uid iid oldM inv)).
  { intros Hne. unfold handleEditInventoryItem.
    destruct (String.eqb_spec oldM newM); [done|]. reflexivity. }
  assert (Hsame : oldM = newM ->
    handleEditInventoryItem uid iid oldM newM q inv
    = map (fun i => if sameLot uid iid oldM i then withQuantity i q else i) inv).
  { intros <-. unfold handleEditInventoryItem. by rewrite String.eqb_refl. }
  assert (Hkeys : oldM = newM ->
    map lotKey (handleEditInventoryItem uid iid oldM newM q inv) = map lotKey inv).
  { intros E. rewrite (Hsame E), map_map. apply map_ext. intros x.
    by destruct (sameLot uid iid oldM x). }
  split; [|split].
  - intros Hne. split; [by apply Hchange|]. rewrite (Hchange Hne). split.
    + unfold quantityHeld.
      rewrite (handleAddInventoryItem_others uid iid q newM _ (sameLot uid iid oldM)).
      * unfold handleDeleteInventoryItem. rewrite filter_twice, filter_none; [done|].
        intros x _. by destruct (sameLot uid iid oldM x).
      * done.
      * intros x Hx. apply sameLot_key in Hx.
        destruct (sameLot uid iid oldM x) eqn:E; [|done].
        apply sameLot_key in E. congruence.
    + rewrite handleAddInventoryItem_quantity.
      unfold quantityHeld, handleDeleteInventoryItem.
      rewrite filter_twice.
      rewrite (filter_ext_in _ (sameLot uid iid newM)); [reflexivity|].
      intros x _. destruct (sameLot uid iid newM x) eqn:E.
      * apply sameLot_key in E.
        destruct (sameLot uid iid oldM x) eqn:E'; [|done].
        apply sameLot_key in E'. congruence.
      * by destruct (sameLot uid iid oldM x).
  - intros E. split; [by apply Hkeys|]. split.
    + intros i x Hi. rewrite (Hsame E).
      by apply (map_lookup (fun i0 => if sameLot uid iid oldM i0
                                      then withQuantity i0 q else i0)).
    + intros Hfresh. rewrite (Hsame E). rewrite <- (map_id inv) at 2.
      apply map_ext_in. intros x Hx. apply list_elem_of_In in Hx.
      destruct (sameLot uid iid oldM x) eqn:Hs; [|done].
      apply sameLot_key in Hs. by destruct (Hfresh x Hx).
  - intros Hnd. destruct (String.eqb_spec oldM newM) as [E|Hne].
    + by rewrite (Hkeys E).
    + rewrite (Hchange Hne).
      by apply handleAddInventoryItem_NoDup, handleDeleteInventoryItem_NoDup.
Qed.

Lemma handleEditInventoryItem_cases_witness :
  handleEditInventoryItem "u" "X" "1" "9" 250
    [ {| userId := "u"; ingredientId := "X"; quantity := 1; measurementId := "1" |};
      {| userId := "u"; ingredientId := "X"; quantity := 100; measurementId := "9" |} ]
  = [ {| userId := "u"; ingredientId := "X"; quantity := 100 + 250; measurementId := "9" |} ]
  /\ handleEditInventoryItem "u" "X" "1" "1" 3
       [ {| userId := "v"; ingredientId := "X"; quantity := 1; measurementId := "1" |} ]
     = [ {| userId := "v"; ingredientId := "X"; quantity := 1; measurementId := "1" |} ]
  /\ NoDup (map lotKey
       (handleEditInventoryItem "u" "X" "1" "9" 250
          [ {| userId := "u"; ingredientId := "X"; quantity := 1; measurementId := "1" |};
            {| userId := "u"; ingredientId := "X"; quantity := 100;
               measurementId := "9" |} ])).
Proof.
  split; [|split].
  - rewrite (proj1 (proj1 (handleEditInventoryItem_cases "u" "X" "1" "9" 250 _)
                      ltac:(discriminate))).
    reflexivity.
  - apply (proj2 (proj2 (proj1 (proj2 (handleEditInventoryItem_cases "u" "X" "1" "1" 3 _))
                           eq_refl))).
    intros x [->|[]%elem_of_nil]%elem_of_cons. discriminate.
  - apply (proj2 (proj2 (handleEditInventoryItem_cases "u" "X" "1" "9" 250 _))).
    refine (bool_decide_unpack _ _). by vm_compute.
Defined.

(** ** Completing a session: what happens to the inventory as a whole *)

Lemma filter_pointwise {A : Type} (p : A -> bool) (l1 l2 : list A) :
  Forall2 (fun x y => x = y \/ (p x = false /\ p y = false)) l1 l2 ->
  List.filter p l1 = List.filter p l2.
Proof.
  induction 1 as [|x y l1 l2 [->|[Hx Hy]] _ IH]; simpl; [done| |].
  - by rewrite IH.
  - by rewrite Hx, Hy.
Qed.

Lemma deductFromInventory_other_users
    (iid req uid : string) (q : Q) (inv : list InventoryItem) (ms : list Measurement)
    (other : string) :
  other <> uid ->
  userInventory other (updatedInventory (deductFromInventory iid req q inv ms uid))
  = List.filter (fun it => Qneq_bool (quantity it) (-1)) (userInventory other inv).
Proof.
  intros Hother. unfold userInventory, deductFromInventory. simpl.
  rewrite !filter_twice.
  rewrite (filter_ext _ (fun x => String.eqb (userId x) other
                                  && Qneq_bool (quantity x) (-1)))
    by (intros x; apply andb_comm).
  rewrite <- !filter_twice. f_equal.
  apply filter_pointwise. apply Forall2_same_length_lookup_2.
  - unfold deductFinal. by rewrite deductLoop_length.
  - intros i x y Hx Hy.
    destruct (decide (i ∈ deductedIndices iid req q inv ms uid)) as [Hin|Hout].
    + right. apply deductedIndices_elem_of in Hin as (d & Hd & <-).
      rewrite (deductions_written _ _ _ _ _ _ _ Hd) in Hx.
      apply deductions_lot in Hd as (Hl & Hu & _).
      assert (y = item (lot d)) by congruence. subst y.
      injection Hx as <-. rewrite <- Hu in Hother.
      assert (Hw : userId (writtenRow (item (lot d)) (amountInItemUnit d))
                   = userId (item (lot d))).
      { unfold writtenRow. by destruct (Qgt_bool _ _). }
      rewrite Hw. by destruct (String.eqb_spec (userId (item (lot d))) other).
    + left. rewrite deductions_untouched in Hx by done. congruence.
Qed.

Section Ingredients.
Variables (scalingFactor : Q) (ms : list Measurement) (uid : string).

Lemma deductIngredients_cons (ing : RecipeIngredient) (ings : list RecipeIngredient)
    (inv : list InventoryItem) :
  deductIngredients scalingFactor ms uid (ing :: ings) inv
  = deductIngredients scalingFactor ms uid ings
      (updatedInventory
         (deductFromInventory (ri_ingredientId ing) (ri_measurementId ing)
            (ri_quantity ing * scalingFactor) inv ms uid)).
Proof. reflexivity. Qed.

Lemma deductIngredients_keys (ings : list RecipeIngredient) (inv : list InventoryItem) :
  map lotKey (deductIngredients scalingFactor ms uid ings inv) `sublist_of` map lotKey inv.
Proof.
  revert inv. induction ings as [|ing ings IH]; intros inv; simpl; [done|].
  etransitivity; [apply IH|].
  rewrite <- (final_keys (ri_ingredientId ing) (ri_measurementId ing) uid
                (ri_quantity ing * scalingFactor) inv ms).
  change (map lotKey ?l) with (lotKey <$> l).
  apply fmap_sublist, filter_sublist.
Qed.

Lemma deductIngredients_nonneg (ings : list RecipeIngredient) (inv : list InventoryItem) :
  Forall (fun it => 0 <= quantity it) inv ->
  Forall (fun it => 0 <= quantity it) (deductIngredients scalingFactor ms uid ings inv).
Proof.
  revert inv. induction ings as [|ing ings IH]; intros inv Hnonneg; simpl; [done|].
  apply IH. apply Forall_forall. intros x [Hx Hkeep]%out_elem_of.
  rewrite Forall_forall in Hnonneg.
  apply list_elem_of_lookup in Hx as [i Hi].
  destruct (final_row _ _ _ _ _ _ _ _ Hi) as [Hin|(l & amount & Hl & ->)].
  - apply Hnonneg. by eapply list_elem_of_lookup_2.
  - unfold writtenRow in *.
    destruct (Qgt_bool (newQuantityOf l amount) 0.001) eqn:E; simpl in *.
    + apply Qgt_bool_iff in E. lra.
    + exfalso. by apply Hkeep.
Qed.

Lemma deductIngredients_other_users (ings : list RecipeIngredient)
    (inv : list InventoryItem) (other : string) :
  other <> uid ->
  Forall (fun it => 0 <= quantity it) inv ->
  userInventory other (deductIngredients scalingFactor ms uid ings inv)
  = userInventory other inv.
Proof.
  intros Hother. revert inv.
  induction ings as [|ing ings IH]; intros inv Hnonneg; [done|].
  rewrite deductIngredients_cons, IH.
  - rewrite deductFromInventory_other_users by done.
    apply filter_all. intros x [Hx _]%filter_elem_of.
    apply nonneg_kept. rewrite Forall_forall in Hnonneg. by apply Hnonneg.
  - apply (deductIngredients_nonneg [ing] inv Hnonneg).
Qed.

End Ingredients.

(** X17. Completing a session returns an inventory whose lots are, in
    order, lots of the old one under the same keys, so distinct keys stay
    distinct; when no quantity was negative none is afterwards, and what
    every user other than the logged-in one holds is exactly what they
    held before. *)
Theorem handleCompleteCooking_inventory (st : AppState) :
  map lotKey (inventory (data (handleCompleteCooking st)))
    `sublist_of` map lotKey (inventory (data st))
  /\ (NoDup (map lotKey (inventory (data st))) ->
      NoDup (map lotKey (inventory (data (handleCompleteCooking st)))))
  /\ (Forall (fun it => 0 <= quantity it) (inventory (data st)) ->
      Forall (fun it => 0 <= quantity it) (inventory (data (handleCompleteCooking st)))
      /\ forall other, currentUserId (data st) <> Some other ->
           userInventory other (inventory (data (handleCompleteCooking st)))
           = userInventory other (inventory (data st))).
Proof.
  assert (Hcases :
    inventory (data (handleCompleteCooking st)) = inventory (data st)
    \/ exists factor uid ings,
         currentUserId (data st) = Some uid
         /\ inventory (data (handleCompleteCooking st))
            = deductIngredients factor (measurements (data st)) uid ings
                (inventory (data st))).
  { unfold handleCompleteCooking. simpl.
    destruct (List.find _ (cookingSessions (data st))) as [session|]; [|by left].
    destruct (List.find _ (recipes (data st))) as [recipe|]; [|by left].
    destruct (currentUserId (data st)) as [uid|] eqn:Hcur; [|by left].
    destruct (truthy (Some uid)); [|by left].
    right. simpl. eauto. }
  assert (Hsub : map lotKey (inventory (data (handleCompleteCooking st)))
                   `sublist_of` map lotKey (inventory (data st))).
  { destruct Hcases as [->|(factor & uid & ings & _ & ->)]; [done|].
    apply deductIngredients_keys. }
  split; [exact Hsub|]. split.
  - intros Hnd. by eapply sublist_NoDup.
  - intros Hnonneg. destruct Hcases as [->|(factor & uid & ings & Hcur & ->)]; [done|].
    split; [by apply deductIngredients_nonneg|].
    intros other Hother. apply deductIngredients_other_users; [|done].
    intros ->. by apply Hother.
Qed.

Lemma handleCompleteCooking_inventory_witness :
  let recipe :=
    {| r_id := "r1"; r_userId := "u"; r_name := "bread"; r_description := "";
       servings := 4;
       ingredients := [ {| ri_ingredientId := "flour"; ri_quantity := 2;
                           ri_measurementId := "1" |} ];
       instructions := ["mix"; "bake"]; viewCount := 0; cookCount := 0;
       createdAt := 0 |} in
  let session :=
    {| s_id := "s1"; s_recipeId := "r1"; s_userId := Some "u";
       ingredientsChecked := [0%nat]; stepsChecked := [0%nat; 1%nat];
       servingSize := 2; status := active |} in
  let st :=
    {| data := {| recipes := [recipe]; measurements := defaultMeasurements;
                  inventory := [ {| userId := "v"; ingredientId := "flour";
                                    quantity := 3; measurementId := "1" |};
                                 {| userId := "u"; ingredientId := "flour";
                                    quantity := 1; measurementId := "1" |} ];
                  cookingSessions := [session]; currentUserId := Some "u" |};
       currentView := view_cook_mode; selectedRecipeId := Some "r1" |} in
  userInventory "v" (inventory (data (handleCompleteCooking st)))
  = [ {| userId := "v"; ingredientId := "flour"; quantity := 3; measurementId := "1" |} ]
  /\ NoDup (map lotKey (inventory (data (handleCompleteCooking st)))).
Proof.
  intros recipe session st. split.
  - rewrite (proj2 (proj2 (proj2 (handleCompleteCooking_inventory st))
                      ltac:(repeat constructor; by vm_compute)) "v");
      [reflexivity|discriminate].
  - apply (proj1 (proj2 (handleCompleteCooking_inventory st))).
    refine (bool_decide_unpack _ _). by vm_compute.
Defined.

(** ** Deleting a recipe *)

Lemma filter_filter_length {A : Type} (p r : A -> bool) (l : list A) :
  (length (List.filter p (List.filter r l)) <= length (List.filter p l))%nat.
Proof.
  induction l as [|x l IH]; simpl; [done|].
  destruct (r x), (p x) eqn:Hp; simpl; rewrite ?Hp; simpl; lia.
Qed.

(** X18. [handleDeleteRecipe] removes the recipes with the id and every
    session of that recipe, whatever its status or user, and nothing
    else; the inventory is not touched.  Session ids stay distinct and no
    pair gains an active session.  With the deleted recipe selected,
    completing and cancelling change no data and starting to cook changes
    nothing at all. *)
Theorem handleDeleteRecipe_cascade (recipeId : string) (d : AppData) :
  (forall r, r ∈ recipes (handleDeleteRecipe recipeId d)
             <-> r ∈ recipes d /\ r_id r <> recipeId)
  /\ (forall s, s ∈ cookingSessions (handleDeleteRecipe recipeId d)
                <-> s ∈ cookingSessions d /\ s_recipeId s <> recipeId)
  /\ inventory (handleDeleteRecipe recipeId d) = inventory d
  /\ (uniqueIds (cookingSessions d) ->
      uniqueIds (cookingSessions (handleDeleteRecipe recipeId d)))
  /\ (atMostOneActive (cookingSessions d) ->
      atMostOneActive (cookingSessions (handleDeleteRecipe recipeId d)))
  /\ (forall v newId,
        let st := {| data := handleDeleteRecipe recipeId d; currentView := v;
                     selectedRecipeId := Some recipeId |} in
        data (handleCompleteCooking st) = data st
        /\ data (handleCancelCooking st) = data st
        /\ handleStartCooking recipeId newId st = st).
Proof.
  split; [|split; [|split; [|split; [|split]]]].
  - intros r. simpl. rewrite filter_elem_of, negb_true_iff.
    destruct (String.eqb_spec (r_id r) recipeId); split; intros [? ?]; split; done.
  - intros s. simpl. rewrite filter_elem_of, negb_true_iff.
    destruct (String.eqb_spec (s_recipeId s) recipeId); split; intros [? ?]; split; done.
  - reflexivity.
  - unfold uniqueIds. simpl. intros Hnd. eapply sublist_NoDup; [exact Hnd|].
    change (map s_id ?l) with (s_id <$> l). apply fmap_sublist, filter_sublist.
  - intros Hone r u. unfold activeCount. simpl.
    etransitivity; [|apply (Hone r u)]. apply filter_filter_length.
  - intros v newId st.
    assert (Hnone : forall u,
      List.find (activeFor (Some recipeId) u)
        (cookingSessions (handleDeleteRecipe recipeId d)) = None).
    { intros u. simpl. apply find_filter_none. intros s Hs.
      apply activeFor_iff in Hs as ([= ->] & _). by rewrite String.eqb_refl. }
    split; [|split].
    + unfold handleCompleteCooking. cbn [data selectedRecipeId st]. by rewrite Hnone.
    + unfold handleCancelCooking. cbn [data selectedRecipeId st]. by rewrite Hnone.
    + unfold handleStartCooking. cbn [data st recipes handleDeleteRecipe].
      rewrite find_filter_none; [done|]. intros r Hr. by rewrite Hr.
Qed.

(** ** Merging the default items on migration *)

Section MergeFacts.
Context {T : Type} (id name : T -> string) (toLowerCase : string -> string).

Let known (existingItems : list T) (i : T) : bool :=
  existsb (String.eqb (id i)) (map id existingItems)
  || existsb (String.eqb (toLowerCase (name i)))
       (map (fun x => toLowerCase (name x)) existingItems).

Lemma mergeDefaultItems_unfold (existingItems defaultItems : list T) :
  mergeDefaultItems id name toLowerCase existingItems defaultItems
  = existingItems ++ List.filter (fun i => negb (known existingItems i)) defaultItems.
Proof.
  unfold mergeDefaultItems, known. f_equal. apply filter_ext. intros i.
  by rewrite negb_orb.
Qed.

Lemma known_iff (existingItems : list T) (i : T) :
  known existingItems i = true
  <-> exists x, x ∈ existingItems
        /\ (id x = id i \/ toLowerCase (name x) = toLowerCase (name i)).
Proof.
  unfold known. rewrite orb_true_iff, !existsb_exists. split.
  - intros [(s & Hs & E)|(s & Hs & E)]; apply String.eqb_eq in E; subst s;
      apply in_map_iff in Hs as (x & Hx & Hin); exists x;
      (split; [by apply list_elem_of_In|]); [by left|by right].
  - intros (x & Hx & [E|E]); [left|right].
    + exists (id x). split; [apply in_map; by apply list_elem_of_In|].
      rewrite E. apply String.eqb_refl.
    + exists (toLowerCase (name x)).
      split; [by apply (in_map (fun y => toLowerCase (name y))), list_elem_of_In|].
      rewrite E. apply String.eqb_refl.
Qed.

(** X19. [mergeDefaultItems] keeps the existing items first and unchanged
    and appends, in their order, the default items whose id and
    lower-cased name are both new; so every default item is represented
    by id or by name, merging the same defaults again adds nothing, on an
    empty store the result is the defaults, and ids stay distinct when
    they were distinct in both lists. *)
Theorem mergeDefaultItems_spec (existingItems defaultItems : list T) :
  (exists added,
     mergeDefaultItems id name toLowerCase existingItems defaultItems
     = existingItems ++ added
     /\ added `sublist_of` defaultItems
     /\ forall i, i ∈ added <->
          i ∈ defaultItems
          /\ forall x, x ∈ existingItems ->
               id x <> id i /\ toLowerCase (name x) <> toLowerCase (name i))
  /\ (forall i, i ∈ defaultItems ->
        exists x, x ∈ mergeDefaultItems id name toLowerCase existingItems defaultItems
          /\ (id x = id i \/ toLowerCase (name x) = toLowerCase (name i)))
  /\ mergeDefaultItems id name toLowerCase
       (mergeDefaultItems id name toLowerCase existingItems defaultItems) defaultItems
     = mergeDefaultItems id name toLowerCase existingItems defaultItems
  /\ mergeDefaultItems id name toLowerCase [] defaultItems = defaultItems
  /\ (NoDup (map id existingItems) -> NoDup (map id defaultItems) ->
      NoDup (map id (mergeDefaultItems id name toLowerCase existingItems defaultItems))).
Proof.
  rewrite !mergeDefaultItems_unfold.
  set (added := List.filter (fun i => negb (known existingItems i)) defaultItems).
  assert (Hadded : forall i, i ∈ added <->
    i ∈ defaultItems
    /\ forall x, x ∈ existingItems ->
         id x <> id i /\ toLowerCase (name x) <> toLowerCase (name i)).
  { intros i. unfold added. rewrite filter_elem_of, negb_true_iff. split.
    - intros [Hi Hk]. split; [done|]. intros x Hx.
      split; intros E; apply not_true_iff_false in Hk; apply Hk, known_iff;
        exists x; (split; [done|]); [by left|by right].
    - intros [Hi Hnew]. split; [done|].
      apply not_true_iff_false. intros (x & Hx & HE)%known_iff.
      destruct (Hnew x Hx) as [H1 H2]. by destruct HE. }
  split; [|split; [|split; [|split]]].
  - exists added. split; [done|]. split; [apply filter_sublist|exact Hadded].
  - intros i Hi. destruct (known existingItems i) eqn:Hk.
    + apply known_iff in Hk as (x & Hx & HE). exists x.
      split; [|done]. apply elem_of_app. by left.
    + exists i. split; [|by left]. apply elem_of_app. right.
      unfold added. apply filter_elem_of. by rewrite Hk.
  - rewrite filter_none; [by rewrite app_nil_r|].
    intros i Hi. apply negb_false_iff.
    destruct (known existingItems i) eqn:Hk.
    + apply known_iff in Hk as (x & Hx & HE). apply known_iff. exists x.
      split; [|done]. apply elem_of_app. by left.
    + apply known_iff. exists i. split; [|by left]. apply elem_of_app. right.
      unfold added. apply filter_elem_of. by rewrite Hk.
  - simpl. apply filter_all. intros i _. reflexivity.
  - intros Hnd1 Hnd2. rewrite map_app. apply NoDup_app. split; [done|]. split.
    + intros k Hk Hk'.
      change (map id ?l) with (id <$> l) in Hk, Hk'.
      apply list_elem_of_fmap in Hk as (x & -> & Hx).
      apply list_elem_of_fmap in Hk' as (i & E & Hi).
      apply Hadded in Hi as [_ Hnew]. by destruct (Hnew x Hx).
    + eapply sublist_NoDup; [exact Hnd2|].
      change (map id ?l) with (id <$> l). apply fmap_sublist, filter_sublist.
Qed.

End MergeFacts.

Lemma mergeDefaultItems_spec_witness :
  NoDup (map m_id
    (mergeDefaultItems m_id m_name (fun s => s)
       [ {| m_id := "1"; m_name := "mug"; conversions := [] |};
         {| m_id := "zz"; m_name := "pinch"; conversions := [] |} ]
       defaultMeasurements)).
Proof.
  apply (proj2 (proj2 (proj2 (proj2
    (mergeDefaultItems_spec m_id m_name (fun s => s)
       [ {| m_id := "1"; m_name := "mug"; conversions := [] |};
         {| m_id := "zz"; m_name := "pinch"; conversions := [] |} ]
       defaultMeasurements)))));
    refine (bool_decide_unpack _ _); by vm_compute.
Defined.

Lemma handleDeleteRecipe_cascade_witness :
  let d :=
    {| recipes := []; measurements := defaultMeasurements; inventory := [];
       cookingSessions :=
         [ {| s_id := "s1"; s_recipeId := "r1"; s_userId := Some "u";
              ingredientsChecked := []; stepsChecked := []; servingSize := 2;
              status := active |};
           {| s_id := "s2"; s_recipeId := "r2"; s_userId := Some "u";
              ingredientsChecked := []; stepsChecked := []; servingSize := 2;
              status := active |} ];
       currentUserId := Some "u" |} in
  uniqueIds (cookingSessions (handleDeleteRecipe "r1" d))
  /\ cookingSessions (handleDeleteRecipe "r1" d)
     = [ {| s_id := "s2"; s_recipeId := "r2"; s_userId := Some "u";
            ingredientsChecked := []; stepsChecked := []; servingSize := 2;
            status := active |} ].
Proof.
  intros d. split; [|reflexivity].
  apply (proj1 (proj2 (proj2 (proj2 (handleDeleteRecipe_cascade "r1" d))))).
  refine (bool_decide_unpack _ _). by vm_compute.
Defined.

(** ** Checklists of cook mode *)

Lemma existsb_eqb_elem_of (i : nat) (l : list nat) :
  existsb (Nat.eqb i) l = true <-> i ∈ l.
Proof.
  rewrite existsb_exists. split.
  - intros (j & Hj & E). apply Nat.eqb_eq in E. subst j. by apply list_elem_of_In.
  - intros Hi. exists i. split; [by apply list_elem_of_In|apply Nat.eqb_refl].
Qed.

(** X20. Toggling an index in a checklist flips whether it is checked and
    changes no other index; a checklist without repeats stays without
    repeats; and checking then unchecking an index gives the checklist
    back.  [toggleStep] is the same function as [toggleIngredient]. *)
Theorem toggleIngredient_flips (i : nat) (l : list nat) :
  (i ∈ toggleIngredient i l <-> i ∉ l)
  /\ (forall j, j <> i -> (j ∈ toggleIngredient i l <-> j ∈ l))
  /\ (NoDup l -> NoDup (toggleIngredient i l))
  /\ (i ∉ l -> toggleIngredient i (toggleIngredient i l) = l)
  /\ toggleStep i l = toggleIngredient i l.
Proof.
  unfold toggleStep, toggleIngredient.
  destruct (existsb (Nat.eqb i) l) eqn:Hin.
  - apply existsb_eqb_elem_of in Hin.
    split; [|split; [|split; [|split]]].
    + rewrite filter_elem_of, Nat.eqb_refl. simpl. split; [intros [_ ?]; done|done].
    + intros j Hne. rewrite filter_elem_of.
      destruct (Nat.eqb_spec j i); [done|]. simpl. split; [by intros [? _]|done].
    + intros Hnd. eapply sublist_NoDup; [exact Hnd|apply filter_sublist].
    + done.
    + done.
  - assert (Hout : i ∉ l).
    { intros H. apply existsb_eqb_elem_of in H. congruence. }
    split; [|split; [|split; [|split]]].
    + split; [done|]. intros _. apply elem_of_app. right. left.
    + intros j Hne. rewrite elem_of_app, list_elem_of_singleton.
      split; [intros [?|?]; done|by left].
    + intros Hnd. apply NoDup_app. split; [done|]. split; [|apply NoDup_singleton].
      intros j Hj ->%list_elem_of_singleton. done.
    + intros _.
      assert (E : existsb (Nat.eqb i) (l ++ [i]) = true).
      { apply existsb_eqb_elem_of, elem_of_app. right. left. }
      rewrite E, List.filter_app. simpl. rewrite Nat.eqb_refl. simpl.
      rewrite app_nil_r. apply filter_all.
      intros j Hj. destruct (Nat.eqb_spec j i); [congruence|done].
    + done.
Qed.

Lemma toggleIngredient_flips_witness :
  NoDup (toggleIngredient 2 (toggleIngredient 0 (toggleIngredient 2 [])))
  /\ toggleIngredient 1 (toggleIngredient 1 [0%nat; 2%nat]) = [0%nat; 2%nat].
Proof.
  split.
  - apply (proj1 (proj2 (proj2 (toggleIngredient_flips 2 _)))).
    apply (proj1 (proj2 (proj2 (toggleIngredient_flips 0 _)))).
    apply (proj1 (proj2 (proj2 (toggleIngredient_flips 2 [])))).
    constructor.
  - apply (proj1 (proj2 (proj2 (proj2 (toggleIngredient_flips 1 [0%nat; 2%nat]))))).
    refine (bool_decide_unpack _ _). by vm_compute.
Defined.

Lemma full_checklist (n : nat) (l : list nat) :
  NoDup l -> (forall i, i ∈ l -> (i < n)%nat) -> (n <= length l)%nat ->
  forall i, (i < n)%nat -> i ∈ l.
Proof.
  intros Hnd Hrange Hlen i Hi.
  assert (Hsub : l ⊆+ seq 0 n).
  { apply NoDup_submseteq; [done|]. intros j Hj. apply elem_of_seq.
    specialize (Hrange j Hj). lia. }
  assert (Hperm : l ≡ₚ seq 0 n).
  { apply submseteq_length_Permutation; [done|]. by rewrite length_seq. }
  rewrite Hperm. apply elem_of_seq. lia.
Qed.

(** X21. When the checklists have no repeats and hold only positions of
    the recipe's ingredients and instructions, [handleComplete] opens the
    confirmation exactly when every ingredient and every step is
    checked. *)
Theorem handleComplete_opens_iff (ic sc : list nat) (recipe : Recipe) :
  NoDup ic -> NoDup sc ->
  (forall i, i ∈ ic -> (i < length (ingredients recipe))%nat) ->
  (forall i, i ∈ sc -> (i < length (instructions recipe))%nat) ->
  handleComplete_opens ic sc recipe = true
  <-> (forall i, (i < length (ingredients recipe))%nat -> i ∈ ic)
      /\ (forall i, (i < length (instructions recipe))%nat -> i ∈ sc).
Proof.
  intros Hnd1 Hnd2 Hr1 Hr2.
  assert (Hcount : forall n l, NoDup l -> (forall i, (i < n)%nat -> i ∈ l) ->
                     (n <= length l)%nat).
  { intros n l Hnd Hall.
    assert (Hsub : seq 0 n ⊆+ l).
    { apply NoDup_submseteq; [apply NoDup_seq|].
      intros j Hj. apply elem_of_seq in Hj. apply Hall. lia. }
    apply submseteq_length in Hsub. by rewrite length_seq in Hsub. }
  unfold handleComplete_opens. split.
  - destruct (Nat.ltb_spec (length ic) (length (ingredients recipe))); [done|].
    destruct (Nat.ltb_spec (length sc) (length (instructions recipe))); [done|].
    intros _. split; by apply full_checklist.
  - intros [H1 H2].
    pose proof (Hcount _ _ Hnd1 H1). pose proof (Hcount _ _ Hnd2 H2).
    destruct (Nat.ltb_spec (length ic) (length (ingredients recipe))); [lia|].
    destruct (Nat.ltb_spec (length sc) (length (instructions recipe))); [lia|done].
Qed.

Lemma handleComplete_opens_iff_witness :
  let recipe :=
    {| r_id := "r1"; r_userId := "u"; r_name := "bread"; r_description := "";
       servings := 4;
       ingredients := [ {| ri_ingredientId := "flour"; ri_quantity := 2;
                           ri_measurementId := "1" |} ];
       instructions := ["mix"; "bake"]; viewCount := 0; cookCount := 0;
       createdAt := 0 |} in
  handleComplete_opens [0%nat] [1%nat; 0%nat] recipe = true
  /\ 0%nat ∈ [1%nat; 0%nat].
Proof.
  intros recipe. split; [reflexivity|].
  refine (proj2 (proj1 (handleComplete_opens_iff [0%nat] [1%nat; 0%nat] recipe
                          _ _ _ _) eq_refl) 0%nat _).
  - refine (bool_decide_unpack _ _). by vm_compute.
  - refine (bool_decide_unpack _ _). by vm_compute.
  - intros i Hi. apply list_elem_of_singleton in Hi as ->. simpl. lia.
  - intros i Hi. apply elem_of_cons in Hi as [->|Hi];
      [|apply list_elem_of_singleton in Hi as ->]; simpl; lia.
  - simpl. lia.
Defined.

(** ** Sorting, and the rankings of the dashboard *)

Lemma sortInsert_perm {A : Type} (cmp : A -> A -> Z) (x : A) (l : list A) :
  sortInsert cmp x l ≡ₚ x :: l.
Proof.
  induction l as [|y l IH]; simpl; [done|].
  destruct (0 <? cmp y x)%Z; [|done].
  rewrite IH. apply perm_swap.
Qed.

Lemma Array_sort_perm {A : Type} (cmp : A -> A -> Z) (l : list A) :
  Array_sort cmp l ≡ₚ l.
Proof.
  unfold Array_sort. rewrite <- Permutation_rev.
  assert (H : forall acc,
    fold_left (fun sortedRev item => sortInsert cmp item sortedRev) l acc ≡ₚ l ++ acc).
  { induction l as [|x l IH]; intros acc; simpl; [done|].
    rewrite IH, sortInsert_perm. by rewrite <- Permutation_middle. }
  by rewrite H, app_nil_r.
Qed.

Section SortByKey.
Context {A : Type} (key : A -> Z).

Let descending (a b : A) : Z := (key b - key a)%Z.

Lemma sortInsert_ascending (x : A) (l : list A) :
  StronglySorted (fun a b => (key a <= key b)%Z) l ->
  StronglySorted (fun a b => (key a <= key b)%Z) (sortInsert descending x l).
Proof.
  induction 1 as [|y l Hs IH Hall]; simpl.
  - repeat constructor.
  - unfold descending at 1. destruct (Z.ltb_spec 0 (key x - key y)).
    + constructor; [exact IH|].
      rewrite Forall_forall in *. intros z Hz.
      rewrite sortInsert_perm in Hz.
      apply elem_of_cons in Hz as [->|Hz]; [lia|by apply Hall].
    + constructor; [by constructor|].
      constructor; [lia|]. rewrite Forall_forall in *.
      intros z Hz. specialize (Hall z Hz). lia.
Qed.

Lemma StronglySorted_rev (R : A -> A -> Prop) (l : list A) :
  StronglySorted R l -> StronglySorted (fun a b => R b a) (rev l).
Proof.
  induction 1 as [|x l Hs IH Hall]; simpl; [constructor|].
  apply StronglySorted_app_2; [|done|repeat constructor].
  intros a b Ha ->%list_elem_of_singleton.
  rewrite Forall_forall in Hall. apply Hall. by rewrite (Permutation_rev l).
Qed.

Lemma Array_sort_descending (l : list A) :
  StronglySorted (fun a b => (key b <= key a)%Z) (Array_sort descending l).
Proof.
  unfold Array_sort. apply (StronglySorted_rev (fun a b => (key a <= key b)%Z)).
  assert (H : forall acc,
    StronglySorted (fun a b => (key a <= key b)%Z) acc ->
    StronglySorted (fun a b => (key a <= key b)%Z)
      (fold_left (fun sortedRev item => sortInsert descending item sortedRev) l acc)).
  { induction l as [|x l IH]; intros acc Hacc; simpl; [done|].
    apply IH. by apply sortInsert_ascending. }
  apply H. constructor.
Qed.

Lemma topFive (l : list A) :
  let top := take 5 (Array_sort descending l) in
  let rest := drop 5 (Array_sort descending l) in
  top ++ rest ≡ₚ l
  /\ StronglySorted (fun a b => (key b <= key a)%Z) top
  /\ (forall a b, a ∈ top -> b ∈ rest -> (key b <= key a)%Z)
  /\ length top = Nat.min 5 (length l).
Proof.
  intros top rest.
  pose proof (Array_sort_descending l) as Hs.
  rewrite <- (take_drop 5 (Array_sort descending l)) in Hs.
  apply StronglySorted_app in Hs as (Hcross & Htop & _).
  split; [|split; [|split]].
  - unfold top, rest. rewrite take_drop. apply Array_sort_perm.
  - exact Htop.
  - exact Hcross.
  - unfold top. rewrite length_take. by rewrite (Permutation_length (Array_sort_perm _ l)).
Qed.

End SortByKey.

(** X22. [mostCooked] holds five recipes, or all of them when there are
    fewer, in descending order of cook count, and no recipe left out has
    been cooked more often than one that is listed; [mostViewed] does the
    same with the view count. *)
Theorem dashboard_rankings (rs : list Recipe) :
  (exists rest,
     mostCooked rs ++ rest ≡ₚ rs
     /\ forall a b, a ∈ mostCooked rs -> b ∈ rest -> (cookCount b <= cookCount a)%Z)
  /\ StronglySorted (fun a b => (cookCount b <= cookCount a)%Z) (mostCooked rs)
  /\ length (mostCooked rs) = Nat.min 5 (length rs)
  /\ (exists rest,
        mostViewed rs ++ rest ≡ₚ rs
        /\ forall a b, a ∈ mostViewed rs -> b ∈ rest -> (viewCount b <= viewCount a)%Z)
  /\ StronglySorted (fun a b => (viewCount b <= viewCount a)%Z) (mostViewed rs)
  /\ length (mostViewed rs) = Nat.min 5 (length rs).
Proof.
  destruct (topFive cookCount rs) as (Hp & Hs & Hc & Hl).
  destruct (topFive viewCount rs) as (Hp' & Hs' & Hc' & Hl').
  split; [eexists; split; [exact Hp|exact Hc]|].
  split; [exact Hs|]. split; [exact Hl|].
  split; [eexists; split; [exact Hp'|exact Hc']|].
  split; [exact Hs'|exact Hl'].
Qed.

(** ** Cook mode: writing the session and reading it back *)

Lemma find_map_in {A : Type} (p : A -> bool) (f : A -> A) (l : list A) :
  (forall x, x ∈ l -> p (f x) = p x) ->
  List.find p (map f l) = option_map f (List.find p l).
Proof.
  induction l as [|x l IH]; intros Hp; simpl; [done|].
  rewrite (Hp x) by left. destruct (p x); [done|].
  apply IH. intros y Hy. apply Hp. by right.
Qed.

(** X23. With distinct session ids, after the cook-mode update the active
    session of the selected pair is the stored one with the serving size
    and checklists just written, every other session is unchanged and no
    session is added or removed; without an active session the update
    changes nothing. *)
Theorem cookModeUpdate_lookup (sz : Q) (ic sc : list nat) (st : AppState) :
  (forall session,
     uniqueIds (cookingSessions (data st)) ->
     cookingSession st = Some session ->
     cookingSession (cookModeUpdate sz ic sc st)
     = Some {| s_id := s_id session; s_recipeId := s_recipeId session;
               s_userId := s_userId session;
               ingredientsChecked := ic; stepsChecked := sc;
               servingSize := sz; status := status session |}
     /\ (forall i s, cookingSessions (data st) !! i = Some s -> s <> session ->
           cookingSessions (data (cookModeUpdate sz ic sc st)) !! i = Some s)
     /\ length (cookingSessions (data (cookModeUpdate sz ic sc st)))
        = length (cookingSessions (data st)))
  /\ (cookingSession st = None -> cookModeUpdate sz ic sc st = st).
Proof.
  split.
  - intros session Hu Hsession.
    set (session' := {| s_id := s_id session; s_recipeId := s_recipeId session;
                        s_userId := s_userId session;
                        ingredientsChecked := ic; stepsChecked := sc;
                        servingSize := sz; status := status session |}).
    assert (Hst : cookModeUpdate sz ic sc st = handleUpdateCookingSession session' st).
    { unfold cookModeUpdate. by rewrite Hsession. }
    rewrite Hst. unfold cookingSession in *.
    pose proof (find_elem_of _ _ _ Hsession) as [Hin Hact].
    assert (Hsame : forall x, x ∈ cookingSessions (data st) ->
              s_id x = s_id session -> x = session).
    { intros x Hx E. by apply (same_id_same_session _ _ _ Hu Hx Hin). }
    split; [|split].
    + simpl. rewrite find_map_in.
      * rewrite Hsession. simpl. by rewrite String.eqb_refl.
      * intros x Hx. simpl.
        destruct (String.eqb_spec (s_id x) (s_id session)) as [E|]; [|done].
        rewrite (Hsame x Hx E).
        apply eq_true_iff_eq. rewrite !activeFor_iff. done.
    + intros i s Hi Hne. simpl.
      rewrite (map_lookup _ _ _ _ Hi). simpl.
      destruct (String.eqb_spec (s_id s) (s_id session)) as [E|]; [|done].
      destruct Hne. apply Hsame; [by eapply list_elem_of_lookup_2|done].
    + simpl. apply length_map.
  - intros Hnone. unfold cookModeUpdate. by rewrite Hnone.
Qed.

Lemma cookModeUpdate_lookup_witness :
  let session :=
    {| s_id := "s1"; s_recipeId := "r1"; s_userId := Some "u";
       ingredientsChecked := []; stepsChecked := []; servingSize := 4;
       status := active |} in
  let st :=
    {| data := {| recipes := []; measurements := []; inventory := [];
                  cookingSessions := [session]; currentUserId := Some "u" |};
       currentView := view_cook_mode; selectedRecipeId := Some "r1" |} in
  cookingSession (cookModeUpdate 2 [0%nat] [1%nat] st)
  = Some {| s_id := "s1"; s_recipeId := "r1"; s_userId := Some "u";
            ingredientsChecked := [0%nat]; stepsChecked := [1%nat]; servingSize := 2;
            status := active |}.
Proof.
  intros session st.
  apply (proj1 (cookModeUpdate_lookup 2 [0%nat] [1%nat] st) session).
  - refine (bool_decide_unpack _ _). by vm_compute.
  - reflexivity.
Defined.

(** ** Accounts *)

(** X24. [handleSignup] refuses a user name that is taken and otherwise
    appends the user; after a successful sign-up, logging in with the
    same name and password yields the new user's id, and logging in with
    another password fails; user names that were distinct stay
    distinct. *)
Theorem handleSignup_then_login (name pass newId : string) (users : list User) :
  (handleSignup name pass newId users = None <-> exists u, u ∈ users /\ username u = name)
  /\ (forall users',
        handleSignup name pass newId users = Some users' ->
        users' = users ++ [ {| u_id := newId; username := name; password := pass |} ]
        /\ handleLogin name pass users' = Some newId
        /\ (forall other, other <> pass -> handleLogin name other users' = None)
        /\ (NoDup (map username users) -> NoDup (map username users'))
        /\ (forall n p, n <> name -> handleLogin n p users' = handleLogin n p users)).
Proof.
  unfold handleSignup.
  destruct (List.find (fun u => String.eqb (username u) name) users) as [u|] eqn:Hfind.
  - split.
    + split; [intros _|done]. apply find_elem_of in Hfind as [Hu E].
      apply String.eqb_eq in E. by exists u.
    + done.
  - assert (Hfree : forall u, u ∈ users -> username u <> name).
    { intros u Hu E. apply list_elem_of_In in Hu.
      pose proof (find_none _ _ Hfind u Hu) as H. simpl in H.
      rewrite E, String.eqb_refl in H. done. }
    assert (Hnone : forall p,
      List.find (fun u => String.eqb (username u) name && String.eqb (password u) p) users
      = None).
    { intros p.
      destruct (List.find (fun u => String.eqb (username u) name
                                    && String.eqb (password u) p) users)
        as [u|] eqn:E; [|done].
      apply find_elem_of in E as [Hu Hp]. apply andb_true_iff in Hp as [Hn _].
      apply String.eqb_eq in Hn. by destruct (Hfree u Hu). }
    split.
    + split; [done|]. intros (u & Hu & E). by destruct (Hfree u Hu).
    + intros users' [= <-]. split; [done|].
      unfold handleLogin. split; [|split; [|split]].
      * rewrite find_app_l, Hnone. simpl. by rewrite !String.eqb_refl.
      * intros other Hother. rewrite find_app_l, Hnone. simpl.
        rewrite String.eqb_refl. simpl.
        by destruct (String.eqb_spec pass other); [congruence|].
      * intros Hnd. rewrite map_app. simpl. apply NoDup_app.
        split; [done|]. split; [|apply NoDup_singleton].
        intros n Hn ->%list_elem_of_singleton.
        change (map username users) with (username <$> users) in Hn.
        apply list_elem_of_fmap in Hn as (u & E & Hu). by destruct (Hfree u Hu).
      * intros n p Hne. rewrite find_app_l. simpl.
        destruct (String.eqb_spec name n); [congruence|]. simpl.
        by destruct (List.find (fun u => String.eqb (username u) n
                                         && String.eqb (password u) p) users).
Qed.

Lemma handleSignup_then_login_witness :
  handleLogin "ann" "pw"
    [ {| u_id := "demo"; username := "demo"; password := "demo" |};
      {| u_id := "k1"; username := "ann"; password := "pw" |} ]
  = Some "k1".
Proof.
  apply (proj2 (handleSignup_then_login "ann" "pw" "k1"
                  [ {| u_id := "demo"; username := "demo"; password := "demo" |} ])
           _ eq_refl).
Defined.

(** ** Deduction engine on an inventory with distinct keys *)

(** X25. When no two lots share owner, ingredient and unit, at most one
    candidate lot is in the required unit, and the processing order is,
    whichever way the sort hands lots to the comparator, that lot if there
    is one, followed by the other candidates in inventory order: a
    candidate in the required unit is processed first, and without one the
    candidates are processed in inventory order. *)
Theorem sortedItems_unique_keys
    (engine : SortEngine) (iid req uid : string) (inv : list InventoryItem) :
  NoDup (map lotKey inv) ->
  let candidates := relevantItems iid uid inv in
  let exact := fun e => String.eqb (measurementId (item e)) req in
  let others := fun e => negb (exact e) in
  (length (List.filter exact candidates) <= 1)%nat
  /\ sortedItemsOn engine iid req uid inv
     = List.filter exact candidates ++ List.filter others candidates
  /\ StronglySorted lt (map index (List.filter others candidates))
  /\ (forall e, e ∈ candidates -> exact e = true ->
        List.filter exact candidates = [e]
        /\ sortedItemsOn engine iid req uid inv = e :: List.filter others candidates)
  /\ (List.filter exact candidates = [] ->
        List.filter others candidates = candidates
        /\ sortedItemsOn engine iid req uid inv = candidates).
Proof.
  intros Hnd candidates exact others.
  assert (Hkeys : forall e, e ∈ List.filter exact candidates ->
            lotKey (item e) = (uid, iid, req)).
  { intros e [(_ & Hu & Hi)%relevantItems_elem_of Hm]%filter_elem_of.
    apply String.eqb_eq in Hm. unfold lotKey. by rewrite Hu, Hi, Hm. }
  assert (Hnd' : NoDup (map (fun e => lotKey (item e)) (List.filter exact candidates))).
  { eapply sublist_NoDup; [exact Hnd|].
    rewrite <- (map_map item lotKey).
    change (map lotKey ?l) with (lotKey <$> l). apply fmap_sublist.
    etransitivity.
    - change (map item ?l) with (item <$> l). apply fmap_sublist, filter_sublist.
    - change (item <$> candidates) with (map item candidates).
      unfold candidates. rewrite relevantItems_items. apply filter_sublist. }
  assert (Hlen : (length (List.filter exact candidates) <= 1)%nat).
  { destruct (List.filter exact candidates) as [|a [|b rest]]; simpl; [lia|lia|].
    exfalso. simpl in Hnd'. apply NoDup_cons in Hnd' as [Hfresh _].
    apply Hfresh. rewrite (Hkeys a) by left.
    rewrite <- (Hkeys b) by (right; left). left. }
  pose proof (sortedItemsOn_partition engine iid req uid inv Hlen) as Hsorted.
  fold candidates in Hsorted.
  change (fun e => String.eqb (measurementId (item e)) req) with exact in Hsorted.
  change (fun e => negb (String.eqb (measurementId (item e)) req)) with others in Hsorted.
  split; [exact Hlen|]. split; [exact Hsorted|].
  split; [apply relevantItems_sorted|]. split.
  - intros e He Hx.
    assert (Hin : e ∈ List.filter exact candidates) by by apply filter_elem_of.
    rewrite Hsorted.
    destruct (List.filter exact candidates) as [|a [|b rest]]; simpl in Hlen; [| |lia].
    + by apply elem_of_nil in Hin.
    + apply list_elem_of_singleton in Hin as ->. done.
  - intros Hnone. rewrite Hsorted, Hnone. simpl.
    assert (Hall : List.filter others candidates = candidates).
    { apply filter_all. intros e He.
      apply negb_true_iff. destruct (exact e) eqn:Hx; [|done].
      assert (H : e ∈ List.filter exact candidates) by by apply filter_elem_of.
      rewrite Hnone in H. by apply elem_of_nil in H. }
    done.
Qed.

Lemma sortedItems_unique_keys_witness :
  let inv :=
    [ {| userId := "u"; ingredientId := "X"; quantity := 500; measurementId := "9" |};
      {| userId := "v"; ingredientId := "X"; quantity := 3; measurementId := "1" |};
      {| userId := "u"; ingredientId := "X"; quantity := 1; measurementId := "1" |};
      {| userId := "u"; ingredientId := "X"; quantity := 2; measurementId := "15" |} ] in
  map index (sortedItemsOn pivotFirst "X" "1" "u" inv) = [2; 0; 3]%nat
  /\ map index (sortedItemsOn placedFirst "X" "1" "u" inv) = [2; 0; 3]%nat.
Proof.
  intros inv.
  assert (Hnd : NoDup (map lotKey inv)).
  { refine (bool_decide_unpack _ _). by vm_compute. }
  split.
  - rewrite (proj1 (proj2 (sortedItems_unique_keys pivotFirst "X" "1" "u" inv Hnd))).
    reflexivity.
  - rewrite (proj1 (proj2 (sortedItems_unique_keys placedFirst "X" "1" "u" inv Hnd))).
    reflexivity.
Defined.
